(** * Thread service of the chat application (src/ai/service.ts)

    A shallow embedding of the service layer: the quota policy [getLimits],
    thread-context preparation, resume validation, the resumable-stream
    bridge, title generation and the message conversion filter.

    Effects are functions from a [World] (database tables, clock, latches,
    message objects, trace of issued operations) to an [Exit] and a new
    [World].  Everything outside the service file (query layer, transaction
    wrapper, model SDK, stream context, network) is reached through the
    [World]: the tables are an in-memory model, the third-party calls are
    oracles indexed by a call counter. *)

From Stdlib Require Import ZArith QArith Lia.
From stdpp Require Import gmap strings list fin_maps.

Local Open Scope Z_scope.
Local Open Scope string_scope.

(** ** Data model *)

Inductive ThreadStatus := ready | streaming.

Record Thread := {
  thread_id : string;
  thread_userId : string;
  thread_status : ThreadStatus;
  thread_streamId : option string;
  thread_title : option string;
  thread_updatedAt : Z
}.

(** [part.url] is a string until the document loop of
    [convertUIMessagesToModelMessages] replaces it by the fetched bytes. *)
Inductive Url :=
| url_string (s : string)
| url_buffer (bytes : list Byte.byte).

Inductive Part :=
| TextPart (text : string)
| FilePart (mediaType : string) (url : Url)
| OtherPart (type : string).

Record ThreadMessage := {
  msg_id : string;
  msg_role : string;
  msg_parts : list Part
}.

Record MessageRow := {
  row_id : string;
  row_threadId : string;
  row_userId : string;
  row_message : ThreadMessage;
  row_createdAt : Z;
  row_updatedAt : Z
}.

Record Model := { model_id : string; model_credits : Z }.
Record Settings := { settings_userId : string }.
Record Usage := { usage_userId : string; usage_credits : option Z }.

Record Subscription := { currentPeriodEnd : option Z }.
Record Customer := { subscription : option Subscription }.

(** The three constant objects of '@/lib/constants'; [getLimits] returns one
    of them.  Their fields are not part of the service file: the credit
    ceiling is read through a table [CREDITS] taken as a parameter. *)
Inductive Limits := ProLimits | FreeLimits | AnonymousLimits.

Inductive ReadableStream := stream_ref (addr : nat).

Inductive ModelMessage := model_message (role : string) (content : list Part).

#[global] Instance ThreadStatus_eq_dec : EqDecision ThreadStatus.
Proof. solve_decision. Defined.

(** [===] on two status strings. *)
Definition status_eqb (a b : ThreadStatus) : bool :=
  match a, b with
  | ready, ready | streaming, streaming => true
  | _, _ => false
  end.

#[global] Instance Limits_eq_dec : EqDecision Limits.
Proof. solve_decision. Defined.

(** ** The world *)

Record Database := {
  threads : gmap string Thread;
  messages : list MessageRow;
  models : gmap string Model;
  settings : gmap string Settings;
  usages : gmap string Usage;
  customers : gmap string Customer
}.

Inductive Query :=
| getThreadById (threadId : string)
| getMessageById (messageId : string)
| getModelById (modelId : string)
| getSettingsByUserId (userId : string)
| getUsageByUserId (userId : string)
| getUserCustomerByUserId (userId : string)
| createThread (threadId userId : string)
| updateThread (threadId : string) (status : ThreadStatus)
    (streamId : option string) (updatedAt : option Z)
| updateMessage (messageId : string) (message : ThreadMessage) (updatedAt : Z)
| deleteTrailingMessages (threadId messageId : string) (messageCreatedAt : Z)
| createMessage (threadId userId : string) (message : ThreadMessage)
| getThreadMessageHistory (threadId : string)
| updateThreadTitle (threadId title : string).

(** A query that writes. *)
Definition is_mutation (q : Query) : bool :=
  match q with
  | createThread _ _ | updateThread _ _ _ _ | updateMessage _ _ _
  | deleteTrailingMessages _ _ _ | createMessage _ _ _
  | updateThreadTitle _ _ => true
  | _ => false
  end.

Inductive Event :=
| EQuery (q : Query)                 (* [yield* queries.q(...)] *)
| EAll (qs : list Query)             (* [Effect.all([...], { concurrency: 'unbounded' })] *)
| ELogInfo (msg : string)
| ELogError (msg : string)
| EBegin | ECommit | ERollback       (* [Database.transaction] *)
| ELatchClose (latch : nat)
| ELatchOpen (latch : nat)
| ESleep (millis : Z)
| ECreateNewResumableStream (streamId : string)
| EResumableStream (streamId : string)
| EGenerateText (message : ThreadMessage)
| EFetch (url : Url).

(** The writes an event stands for. *)
Definition event_mutations (e : Event) : list Query :=
  match e with
  | EQuery q => if is_mutation q then [q] else []
  | EAll qs => List.filter is_mutation qs
  | _ => []
  end.

(** Behaviour of the collaborators, fixed for a run.  Each oracle is asked
    with the number of external calls made so far; [None] is a rejected
    promise or a thrown exception. *)
Record Env := {
  queryFails : nat -> bool;
  createNewResumableStreamResult : nat -> option (option ReadableStream);
  resumableStreamResult : nat -> option (option ReadableStream);
  generateTextResult : nat -> option string;
  fetchResult : nat -> option (list Byte.byte);
  convertToModelMessages : list ThreadMessage -> option (list ModelMessage)
}.

Record World := {
  env : Env;
  db : Database;
  nowMs : Z;                         (* [new Date().getTime()] *)
  latches : gmap nat bool;           (* latch object -> open? *)
  heap : gmap nat ThreadMessage;     (* message objects passed by reference *)
  calls : nat;                       (* external calls made so far *)
  trace : list Event                 (* oldest first *)
}.

Definition set_db (d : Database) (w : World) : World :=
  {| env := env w; db := d; nowMs := nowMs w; latches := latches w;
     heap := heap w; calls := calls w; trace := trace w |}.

Definition emit (e : Event) (w : World) : World :=
  {| env := env w; db := db w; nowMs := nowMs w; latches := latches w;
     heap := heap w; calls := calls w; trace := trace w ++ [e] |}.

Definition tick (w : World) : World :=
  {| env := env w; db := db w; nowMs := nowMs w; latches := latches w;
     heap := heap w; calls := S (calls w); trace := trace w |}.

Definition advance (millis : Z) (w : World) : World :=
  {| env := env w; db := db w; nowMs := nowMs w + millis; latches := latches w;
     heap := heap w; calls := calls w; trace := trace w |}.

Definition set_latch (l : nat) (b : bool) (w : World) : World :=
  {| env := env w; db := db w; nowMs := nowMs w; latches := <[l:=b]> (latches w);
     heap := heap w; calls := calls w; trace := trace w |}.

Definition set_heap (h : gmap nat ThreadMessage) (w : World) : World :=
  {| env := env w; db := db w; nowMs := nowMs w; latches := latches w;
     heap := h; calls := calls w; trace := trace w |}.

(** ** Effects *)

Inductive Error :=
| APIError (status : Z) (message : string)
| UnknownException                  (* what [Effect.tryPromise] fails with *)
| SqlError.                         (* a failed query *)

(** [OutOfFuel] is not an outcome of the program: it marks a run of the
    model that was given too little fuel for a retry loop.  No combinator
    catches it. *)
Inductive Exit (A : Type) :=
| Success (a : A)
| Failure (e : Error)
| OutOfFuel.
Arguments Success {A} a.
Arguments Failure {A} e.
Arguments OutOfFuel {A}.

Definition Effect (A : Type) : Type := World -> Exit A * World.

Definition succeed {A} (a : A) : Effect A := fun w => (Success a, w).
Definition fail {A} (e : Error) : Effect A := fun w => (Failure e, w).

Definition bind {A B} (m : Effect A) (k : A -> Effect B) : Effect B :=
  fun w =>
    match m w with
    | (Success a, w') => k a w'
    | (Failure e, w') => (Failure e, w')
    | (OutOfFuel, w') => (OutOfFuel, w')
    end.

Notation "'let*' x ':=' m 'in' k" := (bind m (fun x => k))
  (at level 10, x pattern, m at level 100, k at level 200).

Definition logInfo (msg : string) : Effect unit :=
  fun w => (Success tt, emit (ELogInfo msg) w).
Definition logError (msg : string) : Effect unit :=
  fun w => (Success tt, emit (ELogError msg) w).

(** [Effect.tapError]: run [f] on a failure, keep the failure. *)
Definition tapError {A} (m : Effect A) (f : Error -> Effect unit) : Effect A :=
  fun w =>
    match m w with
    | (Failure e, w') =>
        match f e w' with
        | (Success _, w'') => (Failure e, w'')
        | (Failure e', w'') => (Failure e', w'')
        | (OutOfFuel, w'') => (OutOfFuel, w'')
        end
    | r => r
    end.

(** [Effect.catchAll]: recover from every failure. *)
Definition catchAll {A} (m : Effect A) (h : Error -> Effect A) : Effect A :=
  fun w =>
    match m w with
    | (Failure e, w') => h e w'
    | r => r
    end.

(** ** Usage / limits policy *)

(** [args.customer?.subscription?.currentPeriodEnd ?? 0]. *)
Definition endTimestamp (customer : option Customer) : option Z :=
  match customer with
  | Some c =>
      match subscription c with
      | Some s => currentPeriodEnd s
      | None => None
      end
  | None => None
  end.

Definition nullish_or {A} (o : option A) (d : A) : A :=
  match o with Some a => a | None => d end.

(** [new Date().getTime() / 1000]: seconds, with the fraction kept. *)
Definition now_seconds (ms : Z) : Q := (inject_Z ms / inject_Z 1000)%Q.

(** [Number(currentPeriodEnd) > now]. *)
Definition isPro (customer : option Customer) (ms : Z) : bool :=
  negb (Qle_bool (inject_Z (nullish_or (endTimestamp customer) 0)) (now_seconds ms)).

Definition getLimits (customer : option Customer) (isAnonymous : bool) (ms : Z)
  : Limits :=
  match isPro customer ms, isAnonymous with
  | true, false => ProLimits
  | false, false => FreeLimits
  | false, true => AnonymousLimits
  | _, _ => AnonymousLimits
  end.

(** ** Query layer *)

(** What a query answers.  Statements that return rows ([.returning()],
    destructured as [[row]] by the callers) answer a list of rows. *)
Definition Result (q : Query) : Type :=
  match q with
  | getThreadById _ => option Thread
  | getMessageById _ => option MessageRow
  | getModelById _ => option Model
  | getSettingsByUserId _ => option Settings
  | getUsageByUserId _ => option Usage
  | getUserCustomerByUserId _ => option Customer
  | createThread _ _ => list Thread
  | updateThread _ _ _ _ => unit
  | updateMessage _ _ _ => list MessageRow
  | deleteTrailingMessages _ _ _ => unit
  | createMessage _ _ _ => list MessageRow
  | getThreadMessageHistory _ => list ThreadMessage
  | updateThreadTitle _ _ => unit
  end.

Definition set_threads (t : gmap string Thread) (d : Database) : Database :=
  {| threads := t; messages := messages d; models := models d;
     settings := settings d; usages := usages d; customers := customers d |}.

Definition set_messages (m : list MessageRow) (d : Database) : Database :=
  {| threads := threads d; messages := m; models := models d;
     settings := settings d; usages := usages d; customers := customers d |}.

Definition new_thread (threadId userId : string) (now : Z) : Thread :=
  {| thread_id := threadId; thread_userId := userId; thread_status := ready;
     thread_streamId := None; thread_title := None; thread_updatedAt := now |}.

Definition patch_thread (status : ThreadStatus) (streamId : option string)
    (updatedAt : option Z) (t : Thread) : Thread :=
  {| thread_id := thread_id t; thread_userId := thread_userId t;
     thread_status := status; thread_streamId := streamId;
     thread_title := thread_title t;
     thread_updatedAt := nullish_or updatedAt (thread_updatedAt t) |}.

Definition retitle (title : string) (t : Thread) : Thread :=
  {| thread_id := thread_id t; thread_userId := thread_userId t;
     thread_status := thread_status t; thread_streamId := thread_streamId t;
     thread_title := Some title; thread_updatedAt := thread_updatedAt t |}.

Definition new_row (threadId userId : string) (m : ThreadMessage) (now : Z)
  : MessageRow :=
  {| row_id := msg_id m; row_threadId := threadId; row_userId := userId;
     row_message := m; row_createdAt := now; row_updatedAt := now |}.

Definition patch_row (messageId : string) (m : ThreadMessage) (updatedAt : Z)
    (r : MessageRow) : MessageRow :=
  if String.eqb (row_id r) messageId then
    {| row_id := row_id r; row_threadId := row_threadId r;
       row_userId := row_userId r; row_message := m;
       row_createdAt := row_createdAt r; row_updatedAt := updatedAt |}
  else r.

(** A row that [deleteTrailingMessages] removes: same thread, created
    strictly after the edited message. *)
Definition trailing (threadId : string) (messageCreatedAt : Z) (r : MessageRow)
  : bool :=
  String.eqb (row_threadId r) threadId && (messageCreatedAt <? row_createdAt r)%Z.

(** Modelled from the spec: the query layer ('@/database/queries'), which is
    not part of the service file.  Each query is one atomic operation on the
    tables: the reads look a row up by its key, [createThread] and
    [createMessage] add a row (a new thread is [ready] with no stream),
    [updateThread] and [updateThreadTitle] change the named thread,
    [updateMessage] replaces the stored message, [deleteTrailingMessages]
    removes the messages of the thread created after the given timestamp,
    [getThreadMessageHistory] lists the thread's messages in table order. *)
Definition exec (q : Query) (now : Z) (d : Database) : Result q * Database :=
  match q return Result q * Database with
  | getThreadById threadId => (threads d !! threadId, d)
  | getMessageById messageId =>
      (List.find (fun r => String.eqb (row_id r) messageId) (messages d), d)
  | getModelById modelId => (models d !! modelId, d)
  | getSettingsByUserId userId => (settings d !! userId, d)
  | getUsageByUserId userId => (usages d !! userId, d)
  | getUserCustomerByUserId userId => (customers d !! userId, d)
  | createThread threadId userId =>
      let t := new_thread threadId userId now in
      ([t], set_threads (<[threadId:=t]> (threads d)) d)
  | updateThread threadId status streamId updatedAt =>
      (tt, set_threads
             (alter (patch_thread status streamId updatedAt) threadId (threads d)) d)
  | updateMessage messageId m updatedAt =>
      (List.filter (fun r => String.eqb (row_id r) messageId)
         (List.map (patch_row messageId m updatedAt) (messages d)),
       set_messages (List.map (patch_row messageId m updatedAt) (messages d)) d)
  | deleteTrailingMessages threadId messageId messageCreatedAt =>
      (tt, set_messages
             (List.filter (fun r => negb (trailing threadId messageCreatedAt r))
                (messages d)) d)
  | createMessage threadId userId m =>
      let r := new_row threadId userId m now in
      ([r], set_messages (messages d ++ [r]) d)
  | getThreadMessageHistory threadId =>
      (List.map row_message
         (List.filter (fun r => String.eqb (row_threadId r) threadId) (messages d)),
       d)
  | updateThreadTitle threadId title =>
      (tt, set_threads (alter (retitle title) threadId (threads d)) d)
  end.

(** One statement sent to the database: it counts as an external call and
    fails, leaving the tables alone, when the environment says so. *)
Definition perform (q : Query) : Effect (Result q) :=
  fun w =>
    if queryFails (env w) (calls w) then (Failure SqlError, tick w)
    else
      let '(r, d) := exec q (nowMs w) (db w) in
      (Success r, set_db d (tick w)).

(** [yield* queries.q(...)]. *)
Definition query (q : Query) : Effect (Result q) :=
  fun w => perform q (emit (EQuery q) w).

Fixpoint Results (qs : list Query) : Type :=
  match qs with
  | [] => unit
  | q :: qs' => Result q * Results qs'
  end.

Fixpoint performAll (qs : list Query) : Effect (Results qs) :=
  match qs return Effect (Results qs) with
  | [] => succeed tt
  | q :: qs' =>
      let* r := perform q in
      let* rs := performAll qs' in
      succeed (r, rs)
  end.

(** [Effect.all([...], { concurrency: 'unbounded' })] over queries: the
    statements are issued as one group; the model runs them in list order. *)
Definition all (qs : list Query) : Effect (Results qs) :=
  fun w => performAll qs (emit (EAll qs) w).

(** Modelled from the spec: [Database.transaction] ('@/database/effect'),
    the transaction boundary around an effect; a failure inside it undoes
    the writes made inside it. *)
Definition Database_transaction {A} (m : Effect A) : Effect A :=
  fun w =>
    match m (emit EBegin w) with
    | (Success a, w') => (Success a, emit ECommit w')
    | (Failure e, w') => (Failure e, emit ERollback (set_db (db w) w'))
    | (OutOfFuel, w') => (OutOfFuel, w')
    end.

(** Modelled from the spec: [APIError.map] ('@/lib/error'); an [APIError]
    passes through unmodified, any other failure becomes the given one. *)
Definition APIError_map {A} (status : Z) (message : string) (m : Effect A)
  : Effect A :=
  fun w =>
    match m w with
    | (Failure (APIError s msg), w') => (Failure (APIError s msg), w')
    | (Failure _, w') => (Failure (APIError status message), w')
    | r => r
    end.

(** [new Date()]. *)
Definition clock : Effect Z := fun w => (Success (nowMs w), w).

(** ** Thread context preparation *)

Record PrepareArgs := {
  isAnonymous : bool;
  userId : string;
  threadId : string;
  streamId : string;
  modelId : string;
  message : ThreadMessage
}.

Record ThreadContext := {
  ctx_model : Model;
  ctx_history : list ThreadMessage;
  ctx_settings : Settings;
  ctx_usage : Usage;
  ctx_limits : Limits;
  ctx_thread : Thread
}.

(** [usage.credits || 0]: a missing count, like a count of zero, is zero. *)
Definition or_zero (credits : option Z) : Z :=
  match credits with
  | Some c => c
  | None => 0
  end.

Section PrepareThreadContext.

(** [limits.CREDITS], for the constants of '@/lib/constants'. *)
Variable CREDITS : Limits -> Z.

(** The generator run inside the transaction. *)
Definition prepareThreadContext_effect (args : PrepareArgs) : Effect ThreadContext :=
  let* _ := logInfo "Preparing thread context" in
  let* (thread, (message0, (model, (settings, (usage, (customer, _)))))) :=
    all [ getThreadById (threadId args);
          getMessageById (msg_id (message args));
          getModelById (modelId args);
          getSettingsByUserId (userId args);
          getUsageByUserId (userId args);
          getUserCustomerByUserId (userId args) ] in
  match settings with
  | None => fail (APIError 404 "Settings for user (userId) does not exist")
  | Some settings =>
  match usage with
  | None => fail (APIError 404 "Usage for user (userId) does not exist")
  | Some usage =>
  match model with
  | None => fail (APIError 404 "Model with (modelId) does not exist")
  | Some model =>
  let* thread :=
    match thread with
    | Some t => succeed (Some t)
    | None =>
        let* _ := logInfo "Creating thread" in
        let* rows := query (createThread (threadId args) (userId args)) in
        succeed (head rows)
    end in
  match thread with
  | None => fail UnknownException   (* no row came back: [thread.status] throws *)
  | Some thread =>
  if status_eqb (thread_status thread) streaming then
    fail (APIError 400 "Thread is already streaming")
  else if negb (String.eqb (thread_userId thread) (userId args)) then
    fail (APIError 403 "User is not the owner of the thread")
  else
  let* now := clock in
  let limits := getLimits customer (isAnonymous args) now in
  if (CREDITS limits - or_zero (usage_credits usage) - model_credits model <? 0)%Z then
    fail (APIError 403 "You have reached your credit limit.")
  else
  let* _ := logInfo "Update thread status to streaming" in
  let* updatedAt := clock in
  let* _ := query (updateThread (threadId args) streaming (Some (streamId args))
                     (Some updatedAt)) in
  let* message1 :=
    match message0 with
    | Some stored =>
        let* _ := logInfo "Updating message and deleting trailing messages" in
        let* updatedAt := clock in
        let* (rows, _) :=
          all [ updateMessage (msg_id (message args)) (message args) updatedAt;
                deleteTrailingMessages (threadId args) (msg_id (message args))
                  (row_createdAt stored) ] in
        succeed (head rows)
    | None => succeed None
    end in
  let* message2 :=
    match message1 with
    | Some m => succeed (Some m)
    | None =>
        let* _ := logInfo "Creating message" in
        let* rows := query (createMessage (threadId args) (userId args) (message args)) in
        succeed (head rows)
    end in
  let* history := query (getThreadMessageHistory (threadId args)) in
  succeed {| ctx_model := model; ctx_history := history; ctx_settings := settings;
             ctx_usage := usage; ctx_limits := limits; ctx_thread := thread |}
  end end end end.

Definition prepareThreadContext (args : PrepareArgs) : Effect ThreadContext :=
  APIError_map 500 "Failed to prepare thread context"
    (Database_transaction (prepareThreadContext_effect args)).

End PrepareThreadContext.

(** ** Resume-context validation *)

(** JavaScript truthiness of [thread.streamId]: [null] and the empty string
    are falsy. *)
Definition truthy (s : option string) : bool :=
  match s with
  | Some s' => negb (String.eqb s' "")
  | None => false
  end.

Definition prepareResumeThreadContext (threadId userId : string) : Effect string :=
  let* thread := query (getThreadById threadId) in
  match thread with
  | None => fail (APIError 404 "Thread not found")
  | Some thread =>
      if negb (String.eqb (thread_userId thread) userId) then
        fail (APIError 403 "User is not the owner of the thread")
      else if negb (status_eqb (thread_status thread) streaming) then
        fail (APIError 400 "Thread is not streaming")
      else if negb (truthy (thread_streamId thread)) then
        fail (APIError 404 "Thread is not streaming")
      else succeed (nullish_or (thread_streamId thread) "")
  end.

(** ** Resumable stream bridge *)

(** [Effect.tryPromise] around a call that leaves the process: the
    environment decides whether the promise resolves. *)
Definition tryPromise {A} (ev : Event) (oracle : Env -> nat -> option A) : Effect A :=
  fun w =>
    match oracle (env w) (calls w) with
    | Some a => (Success a, tick (emit ev w))
    | None => (Failure UnknownException, tick (emit ev w))
    end.

(** A retry schedule of the effect library: asked after the n-th failure
    (counting from 0), it answers the delay before the next attempt, or
    [None] when it is done. *)
Definition Schedule := nat -> option Z.

(** [Schedule.exponential(base)]: recurs for ever, delays base * 2^n. *)
Definition Schedule_exponential (base : Z) : Schedule :=
  fun n => Some (base * 2 ^ Z.of_nat n)%Z.

(** [Schedule.recurs(k)]: k recurrences, no delay. *)
Definition Schedule_recurs (k : nat) : Schedule :=
  fun n => if (n <? k)%nat then Some 0%Z else None.

(** [Schedule.compose]: continues while both continue, with the longer of
    the two delays. *)
Definition Schedule_compose (s1 s2 : Schedule) : Schedule :=
  fun n =>
    match s1 n, s2 n with
    | Some d1, Some d2 => Some (Z.max d1 d2)
    | _, _ => None
    end.

Definition sleep (millis : Z) : Effect unit :=
  fun w => (Success tt, advance millis (emit (ESleep millis) w)).

(** [Effect.retry]: on a failure ask the schedule; wait and run the effect
    again, or give the failure back when the schedule is done. *)
Fixpoint retry_from {A} (fuel n : nat) (m : Effect A) (s : Schedule) : Effect A :=
  fun w =>
    match m w with
    | (Failure e, w') =>
        match s n with
        | None => (Failure e, w')
        | Some d =>
            match fuel with
            | O => (OutOfFuel, w')
            | S fuel' => (let* _ := sleep d in retry_from fuel' (S n) m s) w'
            end
        end
    | r => r
    end.

Definition retry {A} (fuel : nat) (m : Effect A) (s : Schedule) : Effect A :=
  retry_from fuel 0 m s.

Definition retryPolicy : Schedule :=
  Schedule_compose (Schedule_exponential 200) (Schedule_recurs 3).

(** The result is the registered stream, [null] ([None]) included; the call
    to [getStreamContext()] is inside the promise. *)
Definition createResumableStream (fuel : nat) (streamId : string)
    (stream : ReadableStream) : Effect (option ReadableStream) :=
  catchAll
    (retry fuel
       (tapError
          (tryPromise (ECreateNewResumableStream streamId)
             createNewResumableStreamResult)
          (fun _ => logError "Error creating resumable stream"))
       retryPolicy)
    (fun _ => succeed (Some stream)).

Definition getResumableStream (fuel : nat) (streamId : string)
  : Effect (option ReadableStream) :=
  catchAll
    (retry fuel
       (tapError
          (tryPromise (EResumableStream streamId) resumableStreamResult)
          (fun _ => logError "Error getting resumable stream"))
       retryPolicy)
    (fun _ => succeed None).

(** ** Title generation *)

Definition latch_close (latch : nat) : Effect unit :=
  fun w => (Success tt, set_latch latch false (emit (ELatchClose latch) w)).

Definition latch_open (latch : nat) : Effect unit :=
  fun w => (Success tt, set_latch latch true (emit (ELatchOpen latch) w)).

Definition generateThreadTitle (threadId : string) (message : ThreadMessage)
    (latch : nat) : Effect unit :=
  let* _ := latch_close latch in
  let* _ := logInfo "Generating thread title" in
  let* text :=
    catchAll
      (tapError (tryPromise (EGenerateText message) generateTextResult)
         (fun _ => logError "Error generating thread title"))
      (fun _ => succeed "") in
  let* _ :=
    catchAll
      (tapError (query (updateThreadTitle threadId text))
         (fun _ => logError "Error updating thread title"))
      (fun _ => succeed tt) in
  latch_open latch.

(** ** Saving the answer *)

Definition saveMessageAndResetThreadStatus (threadId userId : string)
    (message : ThreadMessage) : Effect unit :=
  Database_transaction
    (let* _ := logInfo "Saving message and resetting thread status" in
     let* _ := all [ createMessage threadId userId message;
                     updateThread threadId ready None None ] in
     succeed tt).

(** ** Conversion to model messages *)

Record ConvertOptions := {
  supportsImages : option bool;
  supportsDocuments : option bool
}.

(** The default of the [options] parameter, used when no object is given. *)
Definition defaultOptions : ConvertOptions :=
  {| supportsImages := Some false; supportsDocuments := Some false |}.

(** [part.mediaType.startsWith('application/pdf') ||
     part.mediaType.startsWith('text/plain')]. *)
Definition isDocument (mediaType : string) : bool :=
  String.prefix "application/pdf" mediaType || String.prefix "text/plain" mediaType.

(** The predicate given to [message.parts.filter]; a missing flag is
    [undefined], which [!] treats like [false]. *)
Definition keepPart (options : ConvertOptions) (part : Part) : bool :=
  match part with
  | FilePart mediaType _ =>
      if isDocument mediaType && negb (nullish_or (supportsDocuments options) false)
      then false
      else if String.prefix "image/" mediaType
              && negb (nullish_or (supportsImages options) false)
      then false
      else true
  | _ => true
  end.

Definition with_parts (parts : list Part) (m : ThreadMessage) : ThreadMessage :=
  {| msg_id := msg_id m; msg_role := msg_role m; msg_parts := parts |}.

(** [message.parts = message.parts.filter(...)] on the object at [ref]. *)
Definition filterParts (options : ConvertOptions) (ref : nat) : Effect unit :=
  fun w =>
    (Success tt,
     set_heap
       (alter (fun m => with_parts (List.filter (keepPart options) (msg_parts m)) m)
          ref (heap w)) w).

Definition with_url (u : Url) (p : Part) : Part :=
  match p with
  | FilePart mediaType _ => FilePart mediaType u
  | _ => p
  end.

(** [part.url = ...] on the i-th part of the object at [ref]. *)
Definition set_url (ref i : nat) (u : Url) : Effect unit :=
  fun w =>
    (Success tt,
     set_heap
       (alter (fun m => with_parts (alter (with_url u) i (msg_parts m)) m)
          ref (heap w)) w).

(** The [for (const part of message.parts)] loop, from index [i] on. *)
Fixpoint fetchDocuments (ref i : nat) (parts : list Part) : Effect unit :=
  match parts with
  | [] => succeed tt
  | part :: rest =>
      let* _ :=
        match part with
        | FilePart mediaType url =>
            if isDocument mediaType then
              let* bytes := tryPromise (EFetch url) fetchResult in
              set_url ref i (url_buffer bytes)
            else succeed tt
        | _ => succeed tt
        end in
      fetchDocuments ref (S i) rest
  end.

Definition partsOf (ref : nat) : Effect (list Part) :=
  fun w =>
    (Success (match heap w !! ref with Some m => msg_parts m | None => [] end), w).

Fixpoint forEach {A} (f : A -> Effect unit) (l : list A) : Effect unit :=
  match l with
  | [] => succeed tt
  | a :: l' => let* _ := f a in forEach f l'
  end.

Definition deref (refs : list nat) : Effect (list ThreadMessage) :=
  fun w => (Success (omap (fun r => heap w !! r) refs), w).

(** [messages] are references to the caller's message objects.  Every
    callback of [messages.map] runs up to its first [await] at once, so all
    the filters are applied before the first fetch is awaited; the model
    then awaits the fetches one message after the other. *)
Definition convertUIMessagesToModelMessages (messages : list nat)
    (options : option ConvertOptions) : Effect (list ModelMessage) :=
  let options := nullish_or options defaultOptions in
  let* _ := forEach (filterParts options) messages in
  let* _ := forEach (fun ref => let* parts := partsOf ref in
                               fetchDocuments ref 0 parts) messages in
  let* ms := deref messages in
  fun w =>
    match convertToModelMessages (env w) ms with
    | Some r => (Success r, w)
    | None => (Failure UnknownException, w)
    end.

(** ** Scenarios

    The worlds the examples run in: one user "u1", one model costing 5
    credits, an anonymous ceiling of 10, every collaborator up. *)

Definition scenarioCredits (l : Limits) : Z :=
  match l with
  | ProLimits => 1000
  | FreeLimits => 100
  | AnonymousLimits => 10
  end.

Definition scenarioEnv : Env :=
  {| queryFails := fun _ => false;
     createNewResumableStreamResult := fun _ => None;
     resumableStreamResult := fun _ => None;
     generateTextResult := fun _ => None;
     fetchResult := fun _ => Some [];
     convertToModelMessages :=
       fun ms => Some (List.map (fun m => model_message (msg_role m) (msg_parts m)) ms) |}.

Definition scenarioThread (owner : string) (status : ThreadStatus)
    (stream : option string) : Thread :=
  {| thread_id := "t1"; thread_userId := owner; thread_status := status;
     thread_streamId := stream; thread_title := None; thread_updatedAt := 0 |}.

Definition scenarioMessage (id text : string) : ThreadMessage :=
  {| msg_id := id; msg_role := "user"; msg_parts := [TextPart text] |}.

Definition scenarioRow (id text : string) (createdAt : Z) : MessageRow :=
  {| row_id := id; row_threadId := "t1"; row_userId := "u1";
     row_message := scenarioMessage id text;
     row_createdAt := createdAt; row_updatedAt := createdAt |}.

Definition scenarioDb (thread : option Thread) (rows : list MessageRow)
    (withSettings : bool) (used : Z) : Database :=
  {| threads := match thread with Some t => {[ "t1" := t ]} | None => ∅ end;
     messages := rows;
     models := {[ "m1" := {| model_id := "m1"; model_credits := 5 |} ]};
     settings := if withSettings then {[ "u1" := {| settings_userId := "u1" |} ]} else ∅;
     usages := {[ "u1" := {| usage_userId := "u1"; usage_credits := Some used |} ]};
     customers := ∅ |}.

Definition withoutUsage (d : Database) : Database :=
  {| threads := threads d; messages := messages d; models := models d;
     settings := settings d; usages := ∅; customers := customers d |}.

Definition withoutModel (d : Database) : Database :=
  {| threads := threads d; messages := messages d; models := ∅;
     settings := settings d; usages := usages d; customers := customers d |}.

Definition scenarioWorld (e : Env) (d : Database) : World :=
  {| env := e; db := d; nowMs := 1700000000000; latches := ∅; heap := ∅;
     calls := 0; trace := [] |}.

Definition scenarioArgs (text : string) : PrepareArgs :=
  {| isAnonymous := true; userId := "u1"; threadId := "t1"; streamId := "s1";
     modelId := "m1"; message := scenarioMessage "a" text |}.

(** ** Vocabulary of the statements *)

(** The rule of the specification: a subscription end-timestamp exists and
    is strictly greater than the current time. *)
Definition subscribed (customer : option Customer) (ms : Z) : Prop :=
  exists e, endTimestamp customer = Some e /\ (now_seconds ms < inject_Z e)%Q.

(** Absent, or not after the current time. *)
Definition lapsed (customer : option Customer) (ms : Z) : Prop :=
  endTimestamp customer = None \/
  exists e, endTimestamp customer = Some e /\ (inject_Z e <= now_seconds ms)%Q.

(** No query of the run is refused by the database. *)
Definition healthy (w : World) : Prop := forall n, queryFails (env w) n = false.

(** The writes issued so far. *)
Definition mutations (w : World) : list Query :=
  flat_map event_mutations (trace w).

(** The credits left after the request: [limits.CREDITS - (usage.credits || 0)
    - model.credits]. *)
Definition remaining (CREDITS : Limits -> Z) (args : PrepareArgs) (w : World)
    (usage : Usage) (model : Model) : Z :=
  CREDITS (getLimits (customers (db w) !! userId args) (isAnonymous args) (nowMs w))
  - or_zero (usage_credits usage) - model_credits model.

(** No stream id is recorded: the column is null, or holds the empty
    string, which the code cannot tell from null. *)
Definition noStreamId (th : Thread) : Prop :=
  thread_streamId th = None \/ thread_streamId th = Some "".

Definition resumeRefused (threadId userId : string) (w : World) : Prop :=
  threads (db w) !! threadId = None \/
  exists th, threads (db w) !! threadId = Some th /\
    (thread_userId th <> userId \/ thread_status th <> streaming \/ noStreamId th).

(** An effect that ends, whatever the world. *)
Definition terminates {A} (m : Effect A) : Prop :=
  forall w, fst (m w) <> OutOfFuel.

(** The trace of four failed attempts under the policy. *)
Definition exhausted (ev : Event) (msg : string) : list Event :=
  [ev; ELogError msg; ESleep 200; ev; ELogError msg; ESleep 400;
   ev; ELogError msg; ESleep 800; ev; ELogError msg].

(** The title that reaches the database: the generated text, or the empty
    string when the model call is refused. *)
Definition titleOf (w : World) : string :=
  nullish_or (generateTextResult (env w) (calls w)) "".

(** What happens between closing and opening the latch. *)
Definition titleSteps (threadId : string) (message : ThreadMessage) (w : World)
  : list Event :=
  [ELogInfo "Generating thread title"; EGenerateText message]
  ++ match generateTextResult (env w) (calls w) with
     | Some _ => []
     | None => [ELogError "Error generating thread title"]
     end
  ++ [EQuery (updateThreadTitle threadId (titleOf w))]
  ++ (if queryFails (env w) (S (calls w))
      then [ELogError "Error updating thread title"] else []).

(** Two parts that differ at most in the [url] of a file part. *)
Definition samePart (p q : Part) : Prop :=
  match p, q with
  | FilePart mediaType _, FilePart mediaType' _ => mediaType = mediaType'
  | _, _ => p = q
  end.

Definition sameMessage (m m' : ThreadMessage) : Prop :=
  msg_id m = msg_id m' /\ msg_role m = msg_role m' /\
  Forall2 samePart (msg_parts m) (msg_parts m').

(** [h'] holds the objects of [h]; those outside [refs] are untouched, the
    others changed at most in the urls of their file parts. *)
Definition sameHeap (refs : list nat) (h h' : gmap nat ThreadMessage) : Prop :=
  forall r,
    match h !! r, h' !! r with
    | Some m, Some m' => sameMessage m m' /\ (~ In r refs -> m' = m)
    | None, None => True
    | _, _ => False
    end.

(** An effect that keeps the heap within [sameHeap], however it ends. *)
Definition stable (refs : list nat) {A} (m : Effect A) : Prop :=
  forall w, sameHeap refs (heap w) (heap (snd (m w))).

(** The object after [message.parts = message.parts.filter(...)]. *)
Definition filtered (options : ConvertOptions) (m : ThreadMessage) : ThreadMessage :=
  with_parts (List.filter (keepPart options) (msg_parts m)) m.

(** No part is a document to fetch. *)
Definition documentFree (parts : list Part) : Prop :=
  forall mediaType url, In (FilePart mediaType url) parts -> isDocument mediaType = false.


(** ** Admission of a request *)

(** The thread the guards of [prepareThreadContext] look at: the fetched
    one, or the one [createThread] has just answered. *)
Definition guardedThread (args : PrepareArgs) (w : World) : Thread :=
  match threads (db w) !! threadId args with
  | Some t => t
  | None => new_thread (threadId args) (userId args) (nowMs w)
  end.

(** The guards of [prepareThreadContext] in the order of the code, as a
    decision table: the error of the first guard that refuses the request,
    [None] when all of them let it through. *)
Definition refusal (CREDITS : Limits -> Z) (args : PrepareArgs) (w : World)
  : option Error :=
  match settings (db w) !! userId args with
  | None => Some (APIError 404 "Settings for user (userId) does not exist")
  | Some _ =>
  match usages (db w) !! userId args with
  | None => Some (APIError 404 "Usage for user (userId) does not exist")
  | Some usage =>
  match models (db w) !! modelId args with
  | None => Some (APIError 404 "Model with (modelId) does not exist")
  | Some model =>
      if status_eqb (thread_status (guardedThread args w)) streaming then
        Some (APIError 400 "Thread is already streaming")
      else if negb (String.eqb (thread_userId (guardedThread args w)) (userId args)) then
        Some (APIError 403 "User is not the owner of the thread")
      else if (remaining CREDITS args w usage model <? 0)%Z then
        Some (APIError 403 "You have reached your credit limit.")
      else None
  end end end.

(** The writes of a request that passes the guards, in the order they are
    issued. *)
Definition admittedWrites (args : PrepareArgs) (w : World) : list Query :=
  match threads (db w) !! threadId args with
  | Some _ => []
  | None => [createThread (threadId args) (userId args)]
  end
  ++ [updateThread (threadId args) streaming (Some (streamId args)) (Some (nowMs w))]
  ++ match List.find (fun r => String.eqb (row_id r) (msg_id (message args)))
             (messages (db w)) with
     | Some stored =>
         [updateMessage (msg_id (message args)) (message args) (nowMs w);
          deleteTrailingMessages (threadId args) (msg_id (message args))
            (row_createdAt stored)]
     | None => [createMessage (threadId args) (userId args) (message args)]
     end.

(** The thread table after a request that passes the guards. *)
Definition admittedThreads (args : PrepareArgs) (w : World) : gmap string Thread :=
  alter (patch_thread streaming (Some (streamId args)) (Some (nowMs w)))
    (threadId args)
    (match threads (db w) !! threadId args with
     | Some _ => threads (db w)
     | None => <[threadId args := new_thread (threadId args) (userId args) (nowMs w)]>
                 (threads (db w))
     end).

(** The message table after a request that passes the guards. *)
Definition admittedMessages (args : PrepareArgs) (w : World) : list MessageRow :=
  match List.find (fun r => String.eqb (row_id r) (msg_id (message args)))
          (messages (db w)) with
  | Some stored =>
      List.filter (fun r => negb (trailing (threadId args) (row_createdAt stored) r))
        (List.map (patch_row (msg_id (message args)) (message args) (nowMs w))
           (messages (db w)))
  | None =>
      messages (db w)
        ++ [new_row (threadId args) (userId args) (message args) (nowMs w)]
  end.

(** The statuses [prepareThreadContext] can fail with. *)
Definition preparationStatus (status : Z) : Prop :=
  status = 400%Z \/ status = 403%Z \/ status = 404%Z \/ status = 500%Z.

(** The writes a refused request has issued before the refusal: a thread
    that was missing has been created by the time the credits are checked. *)
Definition refusedWrites (args : PrepareArgs) (w : World) (e : Error) : list Query :=
  match threads (db w) !! threadId args, e with
  | None, APIError 403 _ => [createThread (threadId args) (userId args)]
  | _, _ => []
  end.

(** ** Loaded documents *)

(** The urls of the documents among the parts, in the order of the parts. *)
Fixpoint documentUrls (parts : list Part) : list Url :=
  match parts with
  | [] => []
  | FilePart mediaType url :: rest =>
      if isDocument mediaType then url :: documentUrls rest else documentUrls rest
  | _ :: rest => documentUrls rest
  end.

(** The parts with the url of each document replaced by bytes: the j-th
    document (counting from 0) gets [bytes (k + j)]; the other parts are
    left as they are. *)
Fixpoint withBytes (bytes : nat -> list Byte.byte) (k : nat) (parts : list Part)
  : list Part :=
  match parts with
  | [] => []
  | FilePart mediaType url :: rest =>
      if isDocument mediaType
      then FilePart mediaType (url_buffer (bytes k)) :: withBytes bytes (S k) rest
      else FilePart mediaType url :: withBytes bytes k rest
  | part :: rest => part :: withBytes bytes k rest
  end.

(** ** The stream context singleton *)

(** The module-level [streamContext] variable, with the number of calls
    made to [createResumableStreamContext]. *)
Record ContextModule := {
  streamContext : option nat;
  contextsCreated : nat
}.

(** [factory n] is what the n-th call of [createResumableStreamContext]
    answers: a new context object, or [None] when it throws. *)
Definition getStreamContext (factory : nat -> option nat) (s : ContextModule)
  : option nat * ContextModule :=
  match streamContext s with
  | Some c => (Some c, s)
  | None =>
      match factory (contextsCreated s) with
      | Some c =>
          (Some c, {| streamContext := Some c;
                      contextsCreated := S (contextsCreated s) |})
      | None =>
          (None, {| streamContext := None;
                    contextsCreated := S (contextsCreated s) |})
      end
  end.

(** [n] calls in a row, with their answers. *)
Fixpoint getStreamContexts (factory : nat -> option nat) (n : nat) (s : ContextModule)
  : list (option nat) * ContextModule :=
  match n with
  | O => ([], s)
  | S n' =>
      let '(c, s1) := getStreamContext factory s in
      let '(cs, s2) := getStreamContexts factory n' s1 in
      (c :: cs, s2)
  end.

(** ** The message list (components/thread/message/message-list.tsx) *)

(** One mounted [MessageList]: its two refs, the timeouts that are pending,
    the dependency and the cleanup of the last run of its effect, and the
    calls of [scrollToIndex] made so far. *)
Record ListView := {
  mounted : bool;                    (* [mounted.current] *)
  attached : bool;                   (* [ref.current] is the virtualizer *)
  timers : gset nat;                 (* pending timeouts *)
  nextTimer : nat;                   (* the id [setTimeout] answers next *)
  cleanup : option nat;              (* the timer the last cleanup clears *)
  deps : option nat;                 (* [messageIds.length] at the last run *)
  scrolls : list Z                   (* indices scrolled to, oldest first *)
}.

(** [return () => clearTimeout(timer)], when the last run answered one. *)
Definition runCleanup (v : ListView) : ListView :=
  match cleanup v with
  | Some t =>
      {| mounted := mounted v; attached := attached v;
         timers := timers v ∖ {[ t ]}; nextTimer := nextTimer v;
         cleanup := None; deps := deps v; scrolls := scrolls v |}
  | None => v
  end.

(** The body of the effect, for a list of [len] messages. *)
Definition mountEffect (len : nat) (v : ListView) : ListView :=
  if mounted v then
    {| mounted := true; attached := attached v; timers := timers v;
       nextTimer := nextTimer v; cleanup := None; deps := Some len;
       scrolls := scrolls v |}
  else
    {| mounted := false; attached := attached v;
       timers := {[ nextTimer v ]} ∪ timers v;
       nextTimer := S (nextTimer v);
       cleanup := Some (nextTimer v); deps := Some len;
       scrolls := if attached v then (scrolls v ++ [Z.of_nat len - 1]%Z)%list
                  else scrolls v |}.

Inductive ViewEvent :=
| Render (len : nat)                 (* a render with [messageIds.length = len] *)
| Timeout (t : nat).                 (* the 100 ms of timer [t] have passed *)

(** React runs the effect after the first render and after every render
    whose dependency differs from the last one, the previous cleanup
    first; a timeout that is still pending runs its callback. *)
Definition stepView (e : ViewEvent) (v : ListView) : ListView :=
  match e with
  | Render len =>
      if decide (deps v = Some len) then v else mountEffect len (runCleanup v)
  | Timeout t =>
      if decide (t ∈ timers v) then
        {| mounted := true; attached := attached v;
           timers := timers v ∖ {[ t ]}; nextTimer := nextTimer v;
           cleanup := cleanup v; deps := deps v; scrolls := scrolls v |}
      else v
  end.

Definition runView (es : list ViewEvent) (v : ListView) : ListView :=
  fold_left (fun v e => stepView e v) es v.

(** The list before its first render. *)
Definition newView : ListView :=
  {| mounted := false; attached := true; timers := ∅; nextTimer := 0;
     cleanup := None; deps := None; scrolls := [] |}.

(** The lengths at which the effect runs: those that differ from the
    length of the run before. *)
Fixpoint lengthChanges (last : option nat) (es : list ViewEvent) : list nat :=
  match es with
  | [] => []
  | Render len :: es' =>
      if decide (last = Some len) then lengthChanges last es'
      else len :: lengthChanges (Some len) es'
  | Timeout _ :: es' => lengthChanges last es'
  end.

Definition isRender (e : ViewEvent) : Prop :=
  match e with Render _ => True | Timeout _ => False end.

(** A row of user "u1" in a given thread, for the scenarios that need
    several threads. *)
Definition scenarioRowIn (thread id text : string) (createdAt : Z) : MessageRow :=
  {| row_id := id; row_threadId := thread; row_userId := "u1";
     row_message := scenarioMessage id text;
     row_createdAt := createdAt; row_updatedAt := createdAt |}.

(** A message with a text, an image and two documents, and a world that
    holds it as object 5, the fetches being answered by [fetched]. *)
Definition scenarioAttachments : ThreadMessage :=
  {| msg_id := "a"; msg_role := "user";
     msg_parts := [TextPart "see"; FilePart "image/png" (url_string "u1");
                   FilePart "application/pdf" (url_string "u2");
                   FilePart "text/plain" (url_string "u3")] |}.

Definition scenarioAttachmentsWorld (fetched : nat -> option (list Byte.byte))
  : World :=
  {| env :=
       {| queryFails := fun _ => false;
          createNewResumableStreamResult := fun _ => None;
          resumableStreamResult := fun _ => None;
          generateTextResult := fun _ => None;
          fetchResult := fetched;
          convertToModelMessages := fun _ => Some [] |};
     db := scenarioDb None [] true 0; nowMs := 0; latches := ∅;
     heap := {[ 5%nat := scenarioAttachments ]};
     calls := 0; trace := [] |}.

(** * Theorems *)

(** ** Usage / limits policy *)

Lemma now_seconds_nonneg ms : (0 <= ms)%Z -> (0 <= now_seconds ms)%Q.
Proof.
  intros H. unfold now_seconds, Qdiv, Qle. simpl. lia.
Qed.

Lemma isPro_iff customer ms :
  (0 <= ms)%Z -> isPro customer ms = true <-> subscribed customer ms.
Proof.
  intros Hms. unfold isPro, subscribed.
  rewrite negb_true_iff, <- not_true_iff_false, Qle_bool_iff.
  destruct (endTimestamp customer) as [e|]; simpl.
  - split.
    + intros H. exists e. split; [reflexivity|]. now apply Qnot_le_lt.
    + intros (e' & He & Hlt). injection He as <-. now apply Qlt_not_le.
  - split.
    + intros H. exfalso. apply H. now apply now_seconds_nonneg.
    + intros (e' & He & _). discriminate.
Qed.

Lemma lapsed_not_subscribed customer ms :
  lapsed customer ms -> ~ subscribed customer ms.
Proof.
  intros [Hnone | (e & He & Hle)] (e' & He' & Hlt).
  - congruence.
  - rewrite He in He'. injection He' as <-.
    apply (Qlt_not_le _ _ Hlt). exact Hle.
Qed.

(** C1. With the clock at or after the epoch, [getLimits] answers [ProLimits]
    exactly when an end-timestamp exists, lies strictly after the current
    time and the caller is not anonymous; [FreeLimits] when the caller is
    neither pro nor anonymous; [AnonymousLimits] in every other case, that
    is for every anonymous caller, the combination pro-and-anonymous
    included.  An absent end-timestamp, or one not after the current time,
    never gives [ProLimits]. *)
Theorem getLimits_tiers (customer : option Customer) (anonymous : bool) (ms : Z) :
  (0 <= ms)%Z ->
  (getLimits customer anonymous ms = ProLimits <->
     subscribed customer ms /\ anonymous = false) /\
  (~ subscribed customer ms -> anonymous = false ->
     getLimits customer anonymous ms = FreeLimits) /\
  (~ (subscribed customer ms /\ anonymous = false) ->
   ~ (~ subscribed customer ms /\ anonymous = false) ->
     getLimits customer anonymous ms = AnonymousLimits) /\
  (subscribed customer ms -> anonymous = true ->
     getLimits customer anonymous ms = AnonymousLimits) /\
  (lapsed customer ms -> getLimits customer anonymous ms <> ProLimits).
Proof.
  intros Hms. pose proof (isPro_iff customer ms Hms) as Hpro.
  unfold getLimits.
  destruct (isPro customer ms) eqn:E; destruct anonymous;
    repeat split; try congruence; try tauto.
  all: try (intros; exfalso; intuition congruence).
  all: try (intros H; apply lapsed_not_subscribed in H; intuition congruence).
Qed.

Lemma getLimits_tiers_witness :
  getLimits (Some {| subscription := Some {| currentPeriodEnd := Some 2000 |} |})
    false 1500000 = ProLimits /\
  getLimits None false 1500000 = FreeLimits /\
  getLimits (Some {| subscription := Some {| currentPeriodEnd := Some 2000 |} |})
    true 1500000 = AnonymousLimits.
Proof.
  pose (c := Some {| subscription := Some {| currentPeriodEnd := Some 2000 |} |}).
  assert (Hs : subscribed c 1500000).
  { exists 2000%Z. split; [reflexivity | reflexivity]. }
  assert (Hn : ~ subscribed None 1500000).
  { intros (e & He & _). discriminate. }
  split; [| split].
  - apply (proj1 (getLimits_tiers c false 1500000 ltac:(lia))). split; [exact Hs | reflexivity].
  - apply (proj1 (proj2 (getLimits_tiers None false 1500000 ltac:(lia)))); [exact Hn | reflexivity].
  - apply (proj1 (proj2 (proj2 (proj2 (getLimits_tiers c true 1500000 ltac:(lia)))))); [exact Hs | reflexivity].
Defined.

(** ** Thread context preparation *)

Lemma mutations_emit e w :
  mutations (emit e w) = (mutations w ++ event_mutations e)%list.
Proof.
  unfold mutations. cbn. rewrite flat_map_app. cbn. now rewrite app_nil_r.
Qed.

Lemma scenario_healthy d : healthy (scenarioWorld scenarioEnv d).
Proof. intros n. reflexivity. Qed.

Ltac run_effect :=
  unfold prepareThreadContext, APIError_map, Database_transaction,
    prepareThreadContext_effect, bind, logInfo, all, query, performAll, bind,
    perform, succeed, fail, clock; cbn.

Ltac run_effect_in H :=
  unfold prepareThreadContext, APIError_map, Database_transaction,
    prepareThreadContext_effect, bind, logInfo, all, query, performAll, bind,
    perform, succeed, fail, clock in H; cbn in H.

Section PrepareThreadContextFacts.

Variable CREDITS : Limits -> Z.

(** C2. Settings, usage and model exist, the thread exists, is [ready] and
    belongs to the caller, and no query is refused.  When the remaining
    credits are negative the call fails with the 403 credit-limit error,
    no write is issued and the thread row is what it was (already before
    the transaction rolls back); when they are zero or more the call
    succeeds and the thread is [streaming] with the new stream id. *)
Theorem prepareThreadContext_credit_check
    (args : PrepareArgs) (w : World) (st : Settings) (us : Usage) (mo : Model)
    (th : Thread) :
  healthy w ->
  settings (db w) !! userId args = Some st ->
  usages (db w) !! userId args = Some us ->
  models (db w) !! modelId args = Some mo ->
  threads (db w) !! threadId args = Some th ->
  thread_status th = ready ->
  thread_userId th = userId args ->
  ((remaining CREDITS args w us mo < 0)%Z ->
     (exists w',
        prepareThreadContext CREDITS args w =
          (Failure (APIError 403 "You have reached your credit limit."), w') /\
        mutations w' = mutations w /\
        threads (db w') !! threadId args = Some th) /\
     (exists w1,
        prepareThreadContext_effect CREDITS args (emit EBegin w) =
          (Failure (APIError 403 "You have reached your credit limit."), w1) /\
        db w1 = db w)) /\
  ((0 <= remaining CREDITS args w us mo)%Z ->
     exists ctx w' th',
       prepareThreadContext CREDITS args w = (Success ctx, w') /\
       threads (db w') !! threadId args = Some th' /\
       thread_status th' = streaming /\
       thread_streamId th' = Some (streamId args) /\
       thread_userId th' = thread_userId th).
Proof.
  intros Hh Hst Hus Hmo Hth Hready Hown. unfold remaining. split; intros Hrem.
  - split.
    + run_effect. rewrite !Hh. cbn. rewrite Hst, Hus, Hmo, Hth. cbn.
      rewrite Hready, Hown, String.eqb_refl. cbn.
      destruct (Z.ltb_spec
        (CREDITS (getLimits (customers (db w) !! userId args) (isAnonymous args)
                    (nowMs w)) - or_zero (usage_credits us) - model_credits mo) 0)
        as [_|Hge]; [|lia].
      cbn. eexists. split; [reflexivity|]. split; [|exact Hth].
      unfold mutations. cbn. rewrite !flat_map_app. cbn. now rewrite !app_nil_r.
    + run_effect. rewrite !Hh. cbn. rewrite Hst, Hus, Hmo, Hth. cbn.
      rewrite Hready, Hown, String.eqb_refl. cbn.
      destruct (Z.ltb_spec
        (CREDITS (getLimits (customers (db w) !! userId args) (isAnonymous args)
                    (nowMs w)) - or_zero (usage_credits us) - model_credits mo) 0)
        as [_|Hge]; [|lia].
      cbn. eexists. split; reflexivity.
  - run_effect. rewrite !Hh. cbn. rewrite Hst, Hus, Hmo, Hth. cbn.
    rewrite Hready, Hown, String.eqb_refl. cbn.
    destruct (Z.ltb_spec
      (CREDITS (getLimits (customers (db w) !! userId args) (isAnonymous args)
                  (nowMs w)) - or_zero (usage_credits us) - model_credits mo) 0)
      as [Hlt|_]; [lia|].
    cbn. rewrite ?Hh. cbn.
    destruct (find _ (messages (db w))) as [stored|] eqn:Hfind; cbn; rewrite ?Hh; cbn.
    + destruct (head _) eqn:Hhead; cbn; rewrite ?Hh; cbn.
      all: eexists _, _, _; split; [reflexivity|]; cbn.
      all: rewrite lookup_alter_eq, Hth; cbn.
      all: split; [reflexivity|]; repeat split; cbn; congruence.
    + eexists _, _, _. split; [reflexivity|]. cbn.
      rewrite lookup_alter_eq, Hth. cbn.
      split; [reflexivity|]. repeat split; cbn; congruence.
Qed.

End PrepareThreadContextFacts.

(** The scenario of the specification at the boundary: an anonymous user, a
    model costing 5, a ceiling of 10.  With 5 used nothing remains and the
    thread ends up [streaming]; with 6 used the request is refused and the
    thread stays [ready]. *)
Lemma prepareThreadContext_credit_check_witness :
  (exists ctx w' th',
     prepareThreadContext scenarioCredits (scenarioArgs "hi")
       (scenarioWorld scenarioEnv
          (scenarioDb (Some (scenarioThread "u1" ready None)) [] true 5))
       = (Success ctx, w') /\
     threads (db w') !! "t1" = Some th' /\ thread_status th' = streaming /\
     thread_streamId th' = Some "s1") /\
  (exists w',
     prepareThreadContext scenarioCredits (scenarioArgs "hi")
       (scenarioWorld scenarioEnv
          (scenarioDb (Some (scenarioThread "u1" ready None)) [] true 6))
       = (Failure (APIError 403 "You have reached your credit limit."), w') /\
     threads (db w') !! "t1" = Some (scenarioThread "u1" ready None)).
Proof.
  split.
  - destruct (prepareThreadContext_credit_check scenarioCredits (scenarioArgs "hi")
      (scenarioWorld scenarioEnv
         (scenarioDb (Some (scenarioThread "u1" ready None)) [] true 5))
      {| settings_userId := "u1" |}
      {| usage_userId := "u1"; usage_credits := Some 5 |}
      {| model_id := "m1"; model_credits := 5 |}
      (scenarioThread "u1" ready None)
      (scenario_healthy _) eq_refl eq_refl eq_refl eq_refl eq_refl eq_refl)
      as [_ Hok].
    destruct Hok as (ctx & w' & th' & Hrun & Hlook & Hstat & Hsid & _).
    + vm_compute. discriminate.
    + exists ctx, w', th'. repeat split; assumption.
  - destruct (prepareThreadContext_credit_check scenarioCredits (scenarioArgs "hi")
      (scenarioWorld scenarioEnv
         (scenarioDb (Some (scenarioThread "u1" ready None)) [] true 6))
      {| settings_userId := "u1" |}
      {| usage_userId := "u1"; usage_credits := Some 6 |}
      {| model_id := "m1"; model_credits := 5 |}
      (scenarioThread "u1" ready None)
      (scenario_healthy _) eq_refl eq_refl eq_refl eq_refl eq_refl eq_refl)
      as [Hno _].
    destruct Hno as [(w' & Hrun & _ & Hlook) _].
    + vm_compute. reflexivity.
    + exists w'. split; assumption.
Defined.

(** The first scenario of the specification as it is written: nothing used
    yet, the call succeeds. *)
Example prepareThreadContext_scenario_unused :
  exists ctx w',
    prepareThreadContext scenarioCredits (scenarioArgs "hi")
      (scenarioWorld scenarioEnv
         (scenarioDb (Some (scenarioThread "u1" ready None)) [] true 0))
      = (Success ctx, w') /\
    thread_status <$> threads (db w') !! "t1" = Some streaming.
Proof. eexists _, _. split; vm_compute; reflexivity. Qed.

Section PrepareThreadContextGuards.

Variable CREDITS : Limits -> Z.

(** C3, as the code has it.  Settings, usage and model exist and no query
    is refused: a fetched thread that is [streaming] makes the call fail
    with the 400 conflict error, whoever owns it, with nothing written. *)
Theorem prepareThreadContext_already_streaming
    (args : PrepareArgs) (w : World) (st : Settings) (us : Usage) (mo : Model)
    (th : Thread) :
  healthy w ->
  settings (db w) !! userId args = Some st ->
  usages (db w) !! userId args = Some us ->
  models (db w) !! modelId args = Some mo ->
  threads (db w) !! threadId args = Some th ->
  thread_status th = streaming ->
  exists w',
    prepareThreadContext CREDITS args w =
      (Failure (APIError 400 "Thread is already streaming"), w') /\
    mutations w' = mutations w /\ db w' = db w.
Proof.
  intros Hh Hst Hus Hmo Hth Hstreaming.
  run_effect. rewrite !Hh. cbn. rewrite Hst, Hus, Hmo, Hth. cbn.
  rewrite Hstreaming. cbn.
  eexists. split; [reflexivity|]. split; [|reflexivity].
  unfold mutations. cbn. rewrite !flat_map_app. cbn. now rewrite !app_nil_r.
Qed.

(** C4, as the code has it.  The fetched thread belongs to somebody else:
    the call fails and no write has been issued, neither when the failure
    is raised nor after the transaction; with settings, usage and model
    present, the thread [ready] and no query refused, the failure is the
    403 ownership error. *)
Theorem prepareThreadContext_not_owner
    (args : PrepareArgs) (w : World) (th : Thread) :
  threads (db w) !! threadId args = Some th ->
  thread_userId th <> userId args ->
  exists e w',
    prepareThreadContext CREDITS args w = (Failure e, w') /\
    mutations w' = mutations w /\ db w' = db w /\
    (exists e1 w1,
       prepareThreadContext_effect CREDITS args (emit EBegin w) = (Failure e1, w1) /\
       mutations w1 = mutations w /\ db w1 = db w) /\
    (healthy w ->
     is_Some (settings (db w) !! userId args) ->
     is_Some (usages (db w) !! userId args) ->
     is_Some (models (db w) !! modelId args) ->
     thread_status th = ready ->
     e = APIError 403 "User is not the owner of the thread").
Proof.
  intros Hth Hown. apply String.eqb_neq in Hown.
  assert (Hinner : exists e1 w1,
    prepareThreadContext_effect CREDITS args (emit EBegin w) = (Failure e1, w1) /\
    mutations w1 = mutations w /\ db w1 = db w /\
    (healthy w ->
     is_Some (settings (db w) !! userId args) ->
     is_Some (usages (db w) !! userId args) ->
     is_Some (models (db w) !! modelId args) ->
     thread_status th = ready ->
     e1 = APIError 403 "User is not the owner of the thread")).
  { run_effect.
    repeat match goal with
    | |- context [queryFails (env w) ?n] =>
        destruct (queryFails (env w) n) eqn:?; cbn
    end.
    all: try (eexists _, _; split; [reflexivity|]; split;
              [unfold mutations; cbn; rewrite !flat_map_app; cbn;
               now rewrite !app_nil_r|];
              split; [reflexivity|];
              intros Hh; rewrite Hh in *; discriminate).
    rewrite Hth.
    destruct (settings (db w) !! userId args) as [st|] eqn:Hst; cbn;
      [destruct (usages (db w) !! userId args) as [us|] eqn:Hus; cbn;
       [destruct (models (db w) !! modelId args) as [mo|] eqn:Hmo; cbn|]|].
    1: destruct (thread_status th) eqn:Hstatus; cbn; rewrite ?Hown; cbn.
    all: eexists _, _; split; [reflexivity|]; split;
      [unfold mutations; cbn; rewrite !flat_map_app; cbn; now rewrite !app_nil_r|];
      split; [reflexivity|].
    all: intros _ Hs Hu Hm Hr;
      try (destruct Hs; discriminate); try (destruct Hu; discriminate);
      try (destruct Hm; discriminate); try discriminate; reflexivity. }
  destruct Hinner as (e1 & w1 & Hrun & Hmut & Hdb & Hcode).
  unfold prepareThreadContext, APIError_map, Database_transaction.
  rewrite Hrun.
  destruct e1 as [status msg| |].
  - exists (APIError status msg), (emit ERollback (set_db (db w) w1)).
    split; [reflexivity|]. split; [rewrite mutations_emit; cbn; rewrite app_nil_r; exact Hmut|].
    split; [reflexivity|]. split; [eauto 10|exact Hcode].
  - exists (APIError 500 "Failed to prepare thread context"),
      (emit ERollback (set_db (db w) w1)).
    split; [reflexivity|]. split; [rewrite mutations_emit; cbn; rewrite app_nil_r; exact Hmut|].
    split; [reflexivity|]. split; [eauto 10|].
    intros; exfalso. assert (UnknownException = APIError 403 "User is not the owner of the thread") by auto. discriminate.
  - exists (APIError 500 "Failed to prepare thread context"),
      (emit ERollback (set_db (db w) w1)).
    split; [reflexivity|]. split; [rewrite mutations_emit; cbn; rewrite app_nil_r; exact Hmut|].
    split; [reflexivity|]. split; [eauto 10|].
    intros; exfalso. assert (SqlError = APIError 403 "User is not the owner of the thread") by auto. discriminate.
Qed.

End PrepareThreadContextGuards.

Lemma prepareThreadContext_already_streaming_witness :
  exists w',
    prepareThreadContext scenarioCredits (scenarioArgs "hi")
      (scenarioWorld scenarioEnv
         (scenarioDb (Some (scenarioThread "u1" streaming (Some "s0"))) [] true 0))
      = (Failure (APIError 400 "Thread is already streaming"), w').
Proof.
  destruct (prepareThreadContext_already_streaming scenarioCredits (scenarioArgs "hi")
    (scenarioWorld scenarioEnv
       (scenarioDb (Some (scenarioThread "u1" streaming (Some "s0"))) [] true 0))
    {| settings_userId := "u1" |}
    {| usage_userId := "u1"; usage_credits := Some 0 |}
    {| model_id := "m1"; model_credits := 5 |}
    (scenarioThread "u1" streaming (Some "s0"))
    (scenario_healthy _) eq_refl eq_refl eq_refl eq_refl eq_refl)
    as (w' & Hrun & _).
  exists w'. exact Hrun.
Defined.

(** C3 as stated fails: the thread is [streaming], but the user has no
    settings row (or no usage row, or the model is unknown), and the call
    fails with the 404 of that check, which comes first, not with the
    conflict error. *)
Lemma prepareThreadContext_streaming_without_settings :
  (exists th,
     threads (scenarioDb (Some (scenarioThread "u1" streaming (Some "s0"))) [] false 0)
       !! "t1" = Some th /\
     thread_status th = streaming) /\
  fst (prepareThreadContext scenarioCredits (scenarioArgs "hi")
         (scenarioWorld scenarioEnv
            (scenarioDb (Some (scenarioThread "u1" streaming (Some "s0"))) [] false 0)))
    = Failure (APIError 404 "Settings for user (userId) does not exist") /\
  fst (prepareThreadContext scenarioCredits (scenarioArgs "hi")
         (scenarioWorld scenarioEnv
            (withoutUsage
               (scenarioDb (Some (scenarioThread "u1" streaming (Some "s0"))) [] true 0))))
    = Failure (APIError 404 "Usage for user (userId) does not exist") /\
  fst (prepareThreadContext scenarioCredits (scenarioArgs "hi")
         (scenarioWorld scenarioEnv
            (withoutModel
               (scenarioDb (Some (scenarioThread "u1" streaming (Some "s0"))) [] true 0))))
    = Failure (APIError 404 "Model with (modelId) does not exist") /\
  fst (prepareThreadContext scenarioCredits (scenarioArgs "hi")
         (scenarioWorld scenarioEnv
            (scenarioDb (Some (scenarioThread "u1" streaming (Some "s0"))) [] false 0)))
    <> Failure (APIError 400 "Thread is already streaming").
Proof.
  split; [|split; [|split; [|split]]].
  - eexists. split; reflexivity.
  - vm_compute. reflexivity.
  - vm_compute. reflexivity.
  - vm_compute. reflexivity.
  - vm_compute. discriminate.
Qed.

Lemma prepareThreadContext_not_owner_witness :
  exists w',
    prepareThreadContext scenarioCredits (scenarioArgs "hi")
      (scenarioWorld scenarioEnv
         (scenarioDb (Some (scenarioThread "u2" ready None)) [] true 0))
      = (Failure (APIError 403 "User is not the owner of the thread"), w') /\
    db w' = scenarioDb (Some (scenarioThread "u2" ready None)) [] true 0.
Proof.
  destruct (prepareThreadContext_not_owner scenarioCredits (scenarioArgs "hi")
    (scenarioWorld scenarioEnv
       (scenarioDb (Some (scenarioThread "u2" ready None)) [] true 0))
    (scenarioThread "u2" ready None) eq_refl ltac:(discriminate))
    as (e & w' & Hrun & _ & Hdb & _ & Hcode).
  exists w'. split; [|exact Hdb].
  rewrite Hrun. f_equal. f_equal.
  apply Hcode; [apply scenario_healthy | eexists; reflexivity ..| reflexivity].
Defined.

(** C4 as stated fails: the thread belongs to "u2" and the caller is "u1".
    When "u1" has no settings row the call fails with the 404 of the
    settings check, and when the thread is [streaming] with the conflict
    error of the status check; both checks come before the ownership
    check. *)
Lemma prepareThreadContext_not_owner_other_error :
  (exists th,
     threads (scenarioDb (Some (scenarioThread "u2" ready None)) [] false 0)
       !! "t1" = Some th /\
     thread_userId th <> userId (scenarioArgs "hi")) /\
  fst (prepareThreadContext scenarioCredits (scenarioArgs "hi")
         (scenarioWorld scenarioEnv
            (scenarioDb (Some (scenarioThread "u2" ready None)) [] false 0)))
    = Failure (APIError 404 "Settings for user (userId) does not exist") /\
  fst (prepareThreadContext scenarioCredits (scenarioArgs "hi")
         (scenarioWorld scenarioEnv
            (scenarioDb (Some (scenarioThread "u2" ready None)) [] false 0)))
    <> Failure (APIError 403 "User is not the owner of the thread") /\
  fst (prepareThreadContext scenarioCredits (scenarioArgs "hi")
         (scenarioWorld scenarioEnv
            (scenarioDb (Some (scenarioThread "u2" streaming (Some "s0"))) [] true 0)))
    = Failure (APIError 400 "Thread is already streaming").
Proof.
  split; [|split; [|split]].
  - eexists. split; [reflexivity | discriminate].
  - vm_compute. reflexivity.
  - vm_compute. discriminate.
  - vm_compute. reflexivity.
Qed.

(** *** Truncate on edit *)

Lemma patch_row_id messageId m updatedAt r :
  row_id (patch_row messageId m updatedAt r) = row_id r.
Proof. unfold patch_row. destruct (String.eqb _ _); reflexivity. Qed.

Lemma patch_row_threadId messageId m updatedAt r :
  row_threadId (patch_row messageId m updatedAt r) = row_threadId r.
Proof. unfold patch_row. destruct (String.eqb _ _); reflexivity. Qed.

Lemma patch_row_createdAt messageId m updatedAt r :
  row_createdAt (patch_row messageId m updatedAt r) = row_createdAt r.
Proof. unfold patch_row. destruct (String.eqb _ _); reflexivity. Qed.

Lemma patch_row_trailing messageId m updatedAt threadId t r :
  trailing threadId t (patch_row messageId m updatedAt r) = trailing threadId t r.
Proof.
  unfold trailing. now rewrite patch_row_threadId, patch_row_createdAt.
Qed.

(** The update answers a row whenever the message was found. *)
Lemma updateMessage_returns_row messageId m updatedAt rows stored :
  List.find (fun r => String.eqb (row_id r) messageId) rows = Some stored ->
  head (List.filter (fun r => String.eqb (row_id r) messageId)
          (List.map (patch_row messageId m updatedAt) rows)) <> None.
Proof.
  induction rows as [|r rows IH]; cbn; [discriminate|].
  rewrite patch_row_id.
  destruct (String.eqb (row_id r) messageId); cbn; [discriminate | exact IH].
Qed.

(** The two writes of the edit commute: issued in either order they leave
    the same table. *)
Lemma update_delete_commute messageId m updatedAt threadId t rows :
  List.filter (fun r => negb (trailing threadId t r))
    (List.map (patch_row messageId m updatedAt) rows) =
  List.map (patch_row messageId m updatedAt)
    (List.filter (fun r => negb (trailing threadId t r)) rows).
Proof.
  induction rows as [|r rows IH]; cbn; [reflexivity|].
  rewrite patch_row_trailing.
  destruct (trailing threadId t r); cbn; now rewrite IH.
Qed.

Lemma find_some_row messageId rows stored :
  List.find (fun r => String.eqb (row_id r) messageId) rows = Some stored ->
  In stored rows /\ row_id stored = messageId.
Proof.
  intros H. apply List.find_some in H as [Hin Heq].
  split; [exact Hin | now apply String.eqb_eq].
Qed.

Section PrepareThreadContextEdit.

Variable CREDITS : Limits -> Z.

(** What a successful run that found the message stored has done. *)
Lemma prepareThreadContext_effect_edit args w ctx w' stored :
  prepareThreadContext_effect CREDITS args w = (Success ctx, w') ->
  List.find (fun r => String.eqb (row_id r) (msg_id (message args)))
    (messages (db w)) = Some stored ->
  In (EAll [ updateMessage (msg_id (message args)) (message args) (nowMs w);
             deleteTrailingMessages (threadId args) (msg_id (message args))
               (row_createdAt stored) ]) (trace w') /\
  messages (db w') =
    List.filter (fun r => negb (trailing (threadId args) (row_createdAt stored) r))
      (List.map (patch_row (msg_id (message args)) (message args) (nowMs w))
         (messages (db w))).
Proof.
  intros Hrun Hfind.
  pose proof (updateMessage_returns_row _ (message args) (nowMs w) _ _ Hfind) as Hhead.
  run_effect_in Hrun.
  repeat match type of Hrun with
  | context [queryFails (env w) ?n] =>
      destruct (queryFails (env w) n) eqn:?; cbn in Hrun; [discriminate Hrun|]
  end.
  rewrite Hfind in Hrun.
  destruct (settings (db w) !! userId args) as [st|]; cbn in Hrun; [|discriminate].
  destruct (usages (db w) !! userId args) as [us|]; cbn in Hrun; [|discriminate].
  destruct (models (db w) !! modelId args) as [mo|]; cbn in Hrun; [|discriminate].
  destruct (threads (db w) !! threadId args) as [th|]; cbn in Hrun.
  - destruct (status_eqb (thread_status th) streaming); cbn in Hrun; [discriminate|].
    destruct (negb _); cbn in Hrun; [discriminate|].
    destruct (_ <? 0)%Z; cbn in Hrun; [discriminate|].
    repeat match type of Hrun with
    | context [queryFails (env w) ?n] =>
        destruct (queryFails (env w) n) eqn:?; cbn in Hrun; [discriminate Hrun|]
    end.
    destruct (head _) as [row|] eqn:Hrow; [|contradiction].
    cbn in Hrun.
    repeat match type of Hrun with
    | context [queryFails (env w) ?n] =>
        destruct (queryFails (env w) n) eqn:?; cbn in Hrun; [discriminate Hrun|]
    end.
    injection Hrun as _ <-. cbn. split; [|reflexivity].
    rewrite !in_app_iff. cbn. tauto.
  - repeat match type of Hrun with
    | context [queryFails (env w) ?n] =>
        destruct (queryFails (env w) n) eqn:?; cbn in Hrun; [discriminate Hrun|]
    end.
    destruct (negb _); cbn in Hrun; [discriminate|].
    destruct (_ <? 0)%Z; cbn in Hrun; [discriminate|].
    repeat match type of Hrun with
    | context [queryFails (env w) ?n] =>
        destruct (queryFails (env w) n) eqn:?; cbn in Hrun; [discriminate Hrun|]
    end.
    destruct (head _) as [row|] eqn:Hrow; [|contradiction].
    cbn in Hrun.
    repeat match type of Hrun with
    | context [queryFails (env w) ?n] =>
        destruct (queryFails (env w) n) eqn:?; cbn in Hrun; [discriminate Hrun|]
    end.
    injection Hrun as _ <-. cbn. split; [|reflexivity].
    rewrite !in_app_iff. cbn. tauto.
Qed.

End PrepareThreadContextEdit.

Section PrepareThreadContextTruncate.

Variable CREDITS : Limits -> Z.

(** A successful call whose message was already stored has issued
    [updateMessage] and [deleteTrailingMessages] as one concurrent group;
    the message table is the old one with the message replaced and the
    later messages of the thread of the call removed, whichever of the two
    writes lands first. *)
Lemma prepareThreadContext_edit_table
    (args : PrepareArgs) (w : World) (ctx : ThreadContext) (w' : World)
    (stored : MessageRow) :
  prepareThreadContext CREDITS args w = (Success ctx, w') ->
  List.find (fun r => String.eqb (row_id r) (msg_id (message args)))
    (messages (db w)) = Some stored ->
  In (EAll [ updateMessage (msg_id (message args)) (message args) (nowMs w);
             deleteTrailingMessages (threadId args) (msg_id (message args))
               (row_createdAt stored) ]) (trace w') /\
  messages (db w') =
    List.filter (fun r => negb (trailing (threadId args) (row_createdAt stored) r))
      (List.map (patch_row (msg_id (message args)) (message args) (nowMs w))
         (messages (db w))) /\
  messages (db w') =
    List.map (patch_row (msg_id (message args)) (message args) (nowMs w))
      (List.filter (fun r => negb (trailing (threadId args) (row_createdAt stored) r))
         (messages (db w))) /\
  (forall r, In r (messages (db w')) -> row_threadId r = threadId args ->
     (row_createdAt r <= row_createdAt stored)%Z) /\
  (exists r, In r (messages (db w')) /\ row_id r = msg_id (message args) /\
     row_message r = message args /\ row_createdAt r = row_createdAt stored).
Proof.
  intros Hrun Hfind.
  unfold prepareThreadContext, APIError_map, Database_transaction in Hrun.
  destruct (prepareThreadContext_effect CREDITS args (emit EBegin w))
    as [[c | e |] w1] eqn:Heff; try discriminate.
  2: { destruct e; discriminate. }
  injection Hrun as -> <-.
  destruct (prepareThreadContext_effect_edit CREDITS args (emit EBegin w) ctx w1
              stored Heff Hfind) as [Htrace Hrows].
  cbn in Htrace, Hrows.
  split; [cbn; rewrite in_app_iff; now left|].
  split; [exact Hrows|].
  split; [cbn; rewrite Hrows; apply update_delete_commute|].
  destruct (find_some_row _ _ _ Hfind) as [Hin Hid].
  split.
  - intros r Hr Hthread. cbn in Hr. rewrite Hrows in Hr.
    apply filter_In in Hr as [_ Hkeep].
    unfold trailing in Hkeep. rewrite Hthread, String.eqb_refl in Hkeep. cbn in Hkeep.
    apply negb_true_iff, Z.ltb_ge in Hkeep. exact Hkeep.
  - exists (patch_row (msg_id (message args)) (message args) (nowMs w) stored).
    split; [|split; [|split]].
    + cbn. rewrite Hrows. apply filter_In. split.
      * now apply in_map.
      * rewrite patch_row_trailing. unfold trailing.
        rewrite Z.ltb_irrefl, andb_false_r. reflexivity.
    + now rewrite patch_row_id.
    + unfold patch_row. rewrite Hid, String.eqb_refl. reflexivity.
    + apply patch_row_createdAt.
Qed.

(** X22. A successful call whose message is stored in the thread of the
    call truncates that thread on the edit: [updateMessage] and
    [deleteTrailingMessages] are issued as one concurrent group, no message
    of the thread is newer than the edited one afterwards, every other row
    (older ones of the thread, and all rows of other threads) is kept, and
    the edited message is kept with the supplied content. *)
Theorem prepareThreadContext_edit_truncates
    (args : PrepareArgs) (w : World) (ctx : ThreadContext) (w' : World)
    (stored : MessageRow) :
  prepareThreadContext CREDITS args w = (Success ctx, w') ->
  List.find (fun r => String.eqb (row_id r) (msg_id (message args)))
    (messages (db w)) = Some stored ->
  row_threadId stored = threadId args ->
  In (EAll [ updateMessage (msg_id (message args)) (message args) (nowMs w);
             deleteTrailingMessages (row_threadId stored) (msg_id (message args))
               (row_createdAt stored) ]) (trace w') /\
  (forall r, In r (messages (db w')) -> row_threadId r = row_threadId stored ->
     (row_createdAt r <= row_createdAt stored)%Z) /\
  (forall r, In r (messages (db w)) ->
     row_threadId r <> row_threadId stored \/
     (row_createdAt r <= row_createdAt stored)%Z ->
     In (patch_row (msg_id (message args)) (message args) (nowMs w) r)
        (messages (db w'))) /\
  (forall r', In r' (messages (db w')) ->
     exists r, In r (messages (db w)) /\
       r' = patch_row (msg_id (message args)) (message args) (nowMs w) r) /\
  (exists r, In r (messages (db w')) /\ row_id r = msg_id (message args) /\
     row_message r = message args /\ row_createdAt r = row_createdAt stored /\
     row_threadId r = row_threadId stored).
Proof.
  intros Hrun Hfind Hthread.
  destruct (prepareThreadContext_edit_table args w ctx w' stored Hrun Hfind)
    as (Htrace & Hrows & _ & Hbound & (r0 & Hin0 & Hid0 & Hmsg0 & Hat0)).
  rewrite Hthread. split; [exact Htrace|]. split; [exact Hbound|].
  split; [|split].
  - intros r Hr Hkeep. rewrite Hrows. apply filter_In. split; [now apply in_map|].
    rewrite patch_row_trailing. unfold trailing.
    destruct Hkeep as [Hne | Hle].
    + apply String.eqb_neq in Hne. now rewrite Hne.
    + apply Z.ltb_ge in Hle. rewrite Hle, andb_false_r. reflexivity.
  - intros r' Hr'. rewrite Hrows in Hr'. apply filter_In in Hr' as [Hr' _].
    apply in_map_iff in Hr' as (r & <- & Hr). eauto.
  - destruct (find_some_row _ _ _ Hfind) as [Hin Hid].
    exists (patch_row (msg_id (message args)) (message args) (nowMs w) stored).
    split; [|split; [|split; [|split]]].
    + rewrite Hrows. apply filter_In. split; [now apply in_map|].
      rewrite patch_row_trailing. unfold trailing.
      rewrite Z.ltb_irrefl, andb_false_r. reflexivity.
    + now rewrite patch_row_id.
    + unfold patch_row. rewrite Hid, String.eqb_refl. reflexivity.
    + apply patch_row_createdAt.
    + rewrite patch_row_threadId. exact Hthread.
Qed.

End PrepareThreadContextTruncate.

(** An edit of message "a" (created at 100) in a thread that also holds "b"
    (created at 200): the call succeeds and "b" is gone. *)
Lemma prepareThreadContext_edit_truncates_witness :
  exists ctx w',
    prepareThreadContext scenarioCredits (scenarioArgs "edited")
      (scenarioWorld scenarioEnv
         (scenarioDb (Some (scenarioThread "u1" ready None))
            [scenarioRow "a" "first" 100; scenarioRow "b" "second" 200] true 0))
      = (Success ctx, w') /\
    (forall r, In r (messages (db w')) -> row_threadId r = "t1" ->
       (row_createdAt r <= 100)%Z) /\
    In (patch_row "a" (scenarioMessage "a" "edited") 1700000000000
          (scenarioRow "a" "first" 100)) (messages (db w')).
Proof.
  destruct (prepareThreadContext scenarioCredits (scenarioArgs "edited")
      (scenarioWorld scenarioEnv
         (scenarioDb (Some (scenarioThread "u1" ready None))
            [scenarioRow "a" "first" 100; scenarioRow "b" "second" 200] true 0)))
    as [[ctx|e|] w'] eqn:Hrun; [|vm_compute in Hrun; discriminate ..].
  exists ctx, w'. split; [reflexivity|].
  destruct (prepareThreadContext_edit_truncates scenarioCredits
              (scenarioArgs "edited") _ ctx w' (scenarioRow "a" "first" 100)
              Hrun eq_refl eq_refl) as (_ & Hbound & Hkeep & _).
  split; [exact Hbound|].
  apply (Hkeep (scenarioRow "a" "first" 100)); [now left | right; cbn; lia].
Defined.

(** C5. The code misses the case of a stored message that belongs to
    another thread than the one of the call.  Thread "t2" holds "a"
    (created at 100) and "b" (created at 200), thread "t1" holds "c"
    (created at 300), all of user "u1", who edits "a" through a call for
    "t1".  The call succeeds and "a" has the new content, but "b", the
    later message of the thread of "a", is still there, and it is "c", in
    the thread of the call, that has been deleted. *)
Theorem prepareThreadContext_edit_other_thread :
  List.find (fun r => String.eqb (row_id r) (msg_id (message (scenarioArgs "edited"))))
    [scenarioRowIn "t2" "a" "first" 100; scenarioRowIn "t2" "b" "second" 200;
     scenarioRowIn "t1" "c" "third" 300]
    = Some (scenarioRowIn "t2" "a" "first" 100) /\
  exists ctx w',
    prepareThreadContext scenarioCredits (scenarioArgs "edited")
      (scenarioWorld scenarioEnv
         (scenarioDb (Some (scenarioThread "u1" ready None))
            [scenarioRowIn "t2" "a" "first" 100; scenarioRowIn "t2" "b" "second" 200;
             scenarioRowIn "t1" "c" "third" 300] true 0))
      = (Success ctx, w') /\
    List.map (fun r => (row_id r, row_threadId r, row_message r)) (messages (db w'))
      = [("a", "t2", scenarioMessage "a" "edited");
         ("b", "t2", scenarioMessage "b" "second")] /\
    In (deleteTrailingMessages "t1" "a" 100) (mutations w').
Proof.
  split; [reflexivity|].
  eexists _, _. split; [vm_compute; reflexivity|].
  split; [reflexivity|]. vm_compute. tauto.
Qed.

(** ** Resume-context validation *)

Lemma truthy_false s : truthy s = false <-> s = None \/ s = Some "".
Proof.
  destruct s as [s|]; cbn.
  - rewrite negb_false_iff, String.eqb_eq. split.
    + intros ->. now right.
    + intros [H|H]; congruence.
  - split; [now left | reflexivity].
Qed.

Lemma prepareResumeThreadContext_run threadId userId w :
  healthy w ->
  fst (prepareResumeThreadContext threadId userId w) =
    match threads (db w) !! threadId with
    | None => Failure (APIError 404 "Thread not found")
    | Some th =>
        if negb (String.eqb (thread_userId th) userId) then
          Failure (APIError 403 "User is not the owner of the thread")
        else if negb (status_eqb (thread_status th) streaming) then
          Failure (APIError 400 "Thread is not streaming")
        else if negb (truthy (thread_streamId th)) then
          Failure (APIError 404 "Thread is not streaming")
        else Success (nullish_or (thread_streamId th) "")
    end /\
  db (snd (prepareResumeThreadContext threadId userId w)) = db w /\
  mutations (snd (prepareResumeThreadContext threadId userId w)) = mutations w.
Proof.
  intros Hh. unfold prepareResumeThreadContext, bind, query, perform, fail, succeed.
  cbn. rewrite Hh. cbn.
  assert (Hm : flat_map event_mutations
                 (trace w ++ [EQuery (getThreadById threadId)])%list = mutations w).
  { unfold mutations. rewrite flat_map_app. cbn. now rewrite app_nil_r. }
  destruct (threads (db w) !! threadId) as [th|]; cbn; [|now rewrite Hm].
  destruct (negb (String.eqb _ _)); cbn; [now rewrite Hm|].
  destruct (negb (status_eqb _ _)); cbn; [now rewrite Hm|].
  destruct (negb (truthy _)); cbn; now rewrite Hm.
Qed.

Lemma status_eqb_streaming s : status_eqb s streaming = true <-> s = streaming.
Proof. destruct s; cbn; split; congruence. Qed.

(** C6. With the thread query answered, [prepareResumeThreadContext] fails
    exactly when the thread is missing, or belongs to somebody else, or is
    not [streaming], or has no recorded stream id; the checks are made in
    that order, with 404 for a missing thread, 403 for a foreign one, 400
    (conflict) for one that is not streaming and 404 for a streaming one
    without stream id.  Otherwise the answer is the recorded stream id.
    Nothing is written. *)
Theorem prepareResumeThreadContext_outcome (threadId userId : string) (w : World) :
  healthy w ->
  ((exists e, fst (prepareResumeThreadContext threadId userId w) = Failure e) <->
     resumeRefused threadId userId w) /\
  (forall sid,
     fst (prepareResumeThreadContext threadId userId w) = Success sid <->
     exists th, threads (db w) !! threadId = Some th /\ thread_userId th = userId /\
       thread_status th = streaming /\ thread_streamId th = Some sid /\ sid <> "") /\
  (threads (db w) !! threadId = None ->
     fst (prepareResumeThreadContext threadId userId w) =
       Failure (APIError 404 "Thread not found")) /\
  (forall th, threads (db w) !! threadId = Some th ->
     (thread_userId th <> userId ->
        fst (prepareResumeThreadContext threadId userId w) =
          Failure (APIError 403 "User is not the owner of the thread")) /\
     (thread_userId th = userId -> thread_status th <> streaming ->
        fst (prepareResumeThreadContext threadId userId w) =
          Failure (APIError 400 "Thread is not streaming")) /\
     (thread_userId th = userId -> thread_status th = streaming -> noStreamId th ->
        fst (prepareResumeThreadContext threadId userId w) =
          Failure (APIError 404 "Thread is not streaming"))) /\
  db (snd (prepareResumeThreadContext threadId userId w)) = db w /\
  mutations (snd (prepareResumeThreadContext threadId userId w)) = mutations w.
Proof.
  intros Hh.
  destruct (prepareResumeThreadContext_run threadId userId w Hh) as (Hrun & Hdb & Hmut).
  rewrite Hrun. unfold resumeRefused.
  split; [|split; [|split; [|split; [|split; assumption]]]].
  - destruct (threads (db w) !! threadId) as [th|] eqn:Hth.
    + destruct (String.eqb (thread_userId th) userId) eqn:Hown; cbn.
      * apply String.eqb_eq in Hown.
        destruct (status_eqb (thread_status th) streaming) eqn:Hst; cbn.
        -- apply status_eqb_streaming in Hst.
           destruct (truthy (thread_streamId th)) eqn:Hsid; cbn.
           ++ split; [intros [e He]; discriminate|].
              intros [H|(th' & Heq & H)]; [discriminate|].
              injection Heq as <-. destruct H as [H|[H|H]]; try contradiction.
              apply truthy_false in H. congruence.
           ++ split; [|eauto]. intros _. right. exists th. split; [reflexivity|].
              right. right. now apply truthy_false.
        -- split; [|eauto]. intros _. right. exists th. split; [reflexivity|].
           right. left. intros H. apply status_eqb_streaming in H. congruence.
      * apply String.eqb_neq in Hown.
        split; [|eauto]. intros _. right. exists th. split; [reflexivity|]. now left.
    + split; [intros _; now left | eauto].
  - intros sid. destruct (threads (db w) !! threadId) as [th|] eqn:Hth.
    + destruct (String.eqb (thread_userId th) userId) eqn:Hown; cbn.
      * apply String.eqb_eq in Hown.
        destruct (status_eqb (thread_status th) streaming) eqn:Hst; cbn.
        -- apply status_eqb_streaming in Hst.
           destruct (thread_streamId th) as [s|] eqn:Hsid; cbn.
           ++ destruct (String.eqb s "") eqn:Hs; cbn.
              ** apply String.eqb_eq in Hs. split; [discriminate|].
                 intros (th' & Heq & _ & _ & Hs' & Hne). injection Heq as <-.
                 congruence.
              ** apply String.eqb_neq in Hs. split.
                 --- intros H. injection H as <-. exists th. now repeat split.
                 --- intros (th' & Heq & _ & _ & Hs' & Hne). injection Heq as <-.
                     congruence.
           ++ split; [discriminate|].
              intros (th' & Heq & _ & _ & Hs' & _). injection Heq as <-. congruence.
        -- split; [discriminate|].
           intros (th' & Heq & _ & Hs' & _). injection Heq as <-.
           apply status_eqb_streaming in Hs'. congruence.
      * apply String.eqb_neq in Hown. split; [discriminate|].
        intros (th' & Heq & Ho & _). injection Heq as <-. contradiction.
    + split; [discriminate|]. intros (th' & Heq & _). discriminate.
  - intros ->. reflexivity.
  - intros th ->. split; [|split].
    + intros Hne. apply String.eqb_neq in Hne. now rewrite Hne.
    + intros Ho Hs. apply String.eqb_eq in Ho. rewrite Ho. cbn.
      destruct (status_eqb (thread_status th) streaming) eqn:E; [|reflexivity].
      apply status_eqb_streaming in E. contradiction.
    + intros Ho Hs Hn. apply String.eqb_eq in Ho. rewrite Ho. cbn.
      apply status_eqb_streaming in Hs. rewrite Hs. cbn.
      apply truthy_false in Hn. now rewrite Hn.
Qed.

Lemma prepareResumeThreadContext_outcome_witness :
  fst (prepareResumeThreadContext "t1" "u1"
         (scenarioWorld scenarioEnv
            (scenarioDb (Some (scenarioThread "u1" streaming (Some "s0"))) [] true 0)))
    = Success "s0".
Proof.
  apply (proj1 (proj2 (prepareResumeThreadContext_outcome "t1" "u1"
    (scenarioWorld scenarioEnv
       (scenarioDb (Some (scenarioThread "u1" streaming (Some "s0"))) [] true 0))
    (scenario_healthy _)))).
  exists (scenarioThread "u1" streaming (Some "s0")).
  repeat split; discriminate.
Defined.

(** ** Resumable stream bridge *)

(** The policy allows three retries, after 200, 400 and 800 ms. *)
Lemma retryPolicy_delays :
  retryPolicy 0%nat = Some 200%Z /\ retryPolicy 1%nat = Some 400%Z /\
  retryPolicy 2%nat = Some 800%Z /\ forall n, (3 <= n)%nat -> retryPolicy n = None.
Proof.
  repeat split; try reflexivity.
  intros n Hn. unfold retryPolicy, Schedule_compose, Schedule_recurs, Schedule_exponential.
  destruct (Nat.ltb_spec n 3); [lia | reflexivity].
Qed.

Lemma attempt_terminates {A} ev (oracle : Env -> nat -> option A) msg :
  terminates (tapError (tryPromise ev oracle) (fun _ => logError msg)).
Proof.
  intros w. unfold tapError, tryPromise, logError.
  destruct (oracle (env w) (calls w)); cbn; discriminate.
Qed.

Lemma retry_from_terminates {A} (m : Effect A) fuel :
  terminates m ->
  forall n, (3 <= fuel + n)%nat -> terminates (retry_from fuel n m retryPolicy).
Proof.
  intros Hm. induction fuel as [|fuel IH]; intros n Hn w; cbn -[retryPolicy].
  - specialize (Hm w).
    destruct (m w) as [[a|e|] w1]; cbn -[retryPolicy] in *; try congruence.
    rewrite (proj2 (proj2 (proj2 retryPolicy_delays)) n) by lia. cbn. discriminate.
  - specialize (Hm w).
    destruct (m w) as [[a|e|] w1]; cbn -[retryPolicy] in *; try congruence.
    destruct (retryPolicy n) as [d|]; cbn -[retryPolicy]; [|discriminate].
    unfold bind, sleep. apply IH. lia.
Qed.

Lemma catchAll_succeeds {A} (m : Effect A) (a : A) w :
  terminates m ->
  exists r w', catchAll m (fun _ => succeed a) w = (Success r, w').
Proof.
  intros Hm. unfold catchAll, succeed. specialize (Hm w).
  destruct (m w) as [[r|e|] w1]; cbn in *; [eauto | eauto | congruence].
Qed.

Lemma retry_exhausted {A} ev (oracle : Env -> nat -> option A) msg fuel w :
  (3 <= fuel)%nat ->
  (forall n, (calls w <= n < calls w + 4)%nat -> oracle (env w) n = None) ->
  exists w',
    retry fuel (tapError (tryPromise ev oracle) (fun _ => logError msg)) retryPolicy w
      = (Failure UnknownException, w') /\
    calls w' = (calls w + 4)%nat /\
    trace w' = (trace w ++ exhausted ev msg)%list /\
    nowMs w' = (nowMs w + 1400)%Z /\ db w' = db w.
Proof.
  intros Hfuel Hfail.
  destruct fuel as [|[|[|fuel]]]; try lia.
  unfold retry. cbn. unfold tapError, tryPromise, logError, bind, sleep. cbn.
  rewrite (Hfail (calls w)) by lia. cbn.
  rewrite (Hfail (S (calls w))) by lia. cbn.
  rewrite (Hfail (S (S (calls w)))) by lia. cbn.
  destruct fuel; cbn; rewrite (Hfail (S (S (S (calls w))))) by lia; cbn.
  all: eexists; split; [reflexivity|]; cbn.
  all: split; [lia|]; split; [now rewrite <- !app_assoc|]; split; [lia | reflexivity].
Qed.

(** C7. Given fuel for the three retries of the policy, neither bridge
    function fails, whatever the stream context does.  When registration
    is refused at the first attempt and at the three retries (made after
    200, 400 and 800 ms), [createResumableStream] succeeds with the stream
    it was given; when resumption is refused four times,
    [getResumableStream] succeeds with null. *)
Theorem resumable_stream_fail_open
    (fuel : nat) (streamId : string) (stream : ReadableStream) (w : World) :
  (3 <= fuel)%nat ->
  (exists r w', createResumableStream fuel streamId stream w = (Success r, w')) /\
  (exists r w', getResumableStream fuel streamId w = (Success r, w')) /\
  ((forall n, (calls w <= n < calls w + 4)%nat ->
      createNewResumableStreamResult (env w) n = None) ->
   exists w',
     createResumableStream fuel streamId stream w = (Success (Some stream), w') /\
     trace w' =
       (trace w ++ exhausted (ECreateNewResumableStream streamId)
                     "Error creating resumable stream")%list) /\
  ((forall n, (calls w <= n < calls w + 4)%nat ->
      resumableStreamResult (env w) n = None) ->
   exists w',
     getResumableStream fuel streamId w = (Success None, w') /\
     trace w' =
       (trace w ++ exhausted (EResumableStream streamId)
                     "Error getting resumable stream")%list).
Proof.
  intros Hfuel. split; [|split; [|split]].
  - apply catchAll_succeeds. apply retry_from_terminates; [|lia].
    apply attempt_terminates.
  - apply catchAll_succeeds. apply retry_from_terminates; [|lia].
    apply attempt_terminates.
  - intros Hfail.
    destruct (retry_exhausted (ECreateNewResumableStream streamId)
                createNewResumableStreamResult "Error creating resumable stream"
                fuel w Hfuel Hfail) as (w' & Hrun & _ & Htrace & _).
    exists w'. unfold createResumableStream, catchAll. rewrite Hrun.
    split; [reflexivity | exact Htrace].
  - intros Hfail.
    destruct (retry_exhausted (EResumableStream streamId)
                resumableStreamResult "Error getting resumable stream"
                fuel w Hfuel Hfail) as (w' & Hrun & _ & Htrace & _).
    exists w'. unfold getResumableStream, catchAll. rewrite Hrun.
    split; [reflexivity | exact Htrace].
Qed.

Lemma resumable_stream_fail_open_witness :
  fst (createResumableStream 3 "s1" (stream_ref 7)
         (scenarioWorld scenarioEnv (scenarioDb None [] true 0)))
    = Success (Some (stream_ref 7)) /\
  fst (getResumableStream 3 "s1"
         (scenarioWorld scenarioEnv (scenarioDb None [] true 0)))
    = Success None.
Proof.
  destruct (resumable_stream_fail_open 3 "s1" (stream_ref 7)
              (scenarioWorld scenarioEnv (scenarioDb None [] true 0))
              ltac:(lia)) as (_ & _ & Hcreate & Hget).
  destruct Hcreate as (w1 & H1 & _); [reflexivity|].
  destruct Hget as (w2 & H2 & _); [reflexivity|].
  rewrite H1, H2. split; reflexivity.
Defined.

(** ** Title generation *)

(** C8. [generateThreadTitle] always succeeds.  Its first step closes the
    latch and its last step opens it again, and the latch is open
    afterwards; between the two, where the latch is not touched, it asks
    the model and issues [updateThreadTitle] with the generated text, or
    with the empty title when the model call fails; when the update is
    refused the failure is logged and dropped, the tables being left as
    they were. *)
Theorem generateThreadTitle_never_fails
    (threadId : string) (message : ThreadMessage) (latch : nat) (w : World) :
  exists w',
    generateThreadTitle threadId message latch w = (Success tt, w') /\
    trace w' =
      (trace w ++ [ELatchClose latch] ++ titleSteps threadId message w
         ++ [ELatchOpen latch])%list /\
    latches w' !! latch = Some true /\
    (forall l, ~ In (ELatchOpen l) (titleSteps threadId message w) /\
               ~ In (ELatchClose l) (titleSteps threadId message w)) /\
    In (EQuery (updateThreadTitle threadId (titleOf w))) (titleSteps threadId message w) /\
    (generateTextResult (env w) (calls w) = None -> titleOf w = "") /\
    (forall text, generateTextResult (env w) (calls w) = Some text -> titleOf w = text) /\
    (queryFails (env w) (S (calls w)) = true -> db w' = db w) /\
    (queryFails (env w) (S (calls w)) = false ->
       threads (db w') = alter (retitle (titleOf w)) threadId (threads (db w))).
Proof.
  unfold generateThreadTitle, titleSteps, titleOf, bind, latch_close, latch_open,
    logInfo, catchAll, tapError, tryPromise, logError, query, perform, succeed.
  cbn.
  destruct (generateTextResult (env w) (calls w)) as [text|] eqn:Htext; cbn;
    destruct (queryFails (env w) (S (calls w))) eqn:Hq; cbn.
  all: eexists; split; [reflexivity|]; cbn.
  all: split; [rewrite <- !app_assoc; reflexivity|].
  all: split; [apply lookup_insert_eq|].
  all: split; [intros l; split; intros H; intuition discriminate|].
  all: split; [tauto|].
  all: repeat split; try discriminate; try reflexivity; try congruence.
Qed.

(** The model call is refused and the database is up: the thread gets the
    empty title and the latch ends open. *)
Lemma generateThreadTitle_never_fails_witness :
  exists w',
    generateThreadTitle "t1" (scenarioMessage "a" "hi") 0
      (scenarioWorld scenarioEnv
         (scenarioDb (Some (scenarioThread "u1" ready None)) [] true 0))
      = (Success tt, w') /\
    latches w' !! 0%nat = Some true /\
    thread_title <$> threads (db w') !! "t1" = Some (Some "").
Proof.
  destruct (generateThreadTitle_never_fails "t1" (scenarioMessage "a" "hi") 0
    (scenarioWorld scenarioEnv
       (scenarioDb (Some (scenarioThread "u1" ready None)) [] true 0)))
    as (w' & Hrun & _ & Hlatch & _ & _ & _ & _ & _ & Hdb).
  exists w'. split; [exact Hrun|]. split; [exact Hlatch|].
  rewrite (Hdb eq_refl). vm_compute. reflexivity.
Defined.

(** ** Saving the answer *)

(** C9. With no query refused, [saveMessageAndResetThreadStatus] succeeds:
    inside one transaction it issues, as one group, [createMessage] for the
    message and [updateThread] with status [ready] and a null stream id;
    afterwards the message is the last row of the table, in the given
    thread, and the thread, if it exists, is [ready] with no stream id.
    A failed call leaves the tables as they were. *)
Theorem saveMessageAndResetThreadStatus_resets
    (threadId userId : string) (message : ThreadMessage) (w : World) :
  (healthy w ->
   exists w',
     saveMessageAndResetThreadStatus threadId userId message w = (Success tt, w') /\
     trace w' =
       (trace w ++
        [EBegin; ELogInfo "Saving message and resetting thread status";
         EAll [createMessage threadId userId message;
               updateThread threadId ready None None];
         ECommit])%list /\
     messages (db w') =
       (messages (db w) ++ [new_row threadId userId message (nowMs w)])%list /\
     row_threadId (new_row threadId userId message (nowMs w)) = threadId /\
     row_message (new_row threadId userId message (nowMs w)) = message /\
     (forall th, threads (db w) !! threadId = Some th ->
        exists th', threads (db w') !! threadId = Some th' /\
          thread_status th' = ready /\ thread_streamId th' = None /\
          thread_userId th' = thread_userId th) /\
     (forall other, other <> threadId ->
        threads (db w') !! other = threads (db w) !! other)) /\
  (forall e w',
     saveMessageAndResetThreadStatus threadId userId message w = (Failure e, w') ->
     db w' = db w).
Proof.
  unfold saveMessageAndResetThreadStatus, Database_transaction, bind, logInfo, all,
    performAll, bind, perform, succeed.
  cbn. split.
  - intros Hh. rewrite !Hh. cbn. eexists. split; [reflexivity|]. cbn.
    split; [now rewrite <- !app_assoc|]. split; [reflexivity|].
    split; [reflexivity|]. split; [reflexivity|]. split.
    + intros th Hth. rewrite lookup_alter_eq, Hth. cbn.
      eexists. split; [reflexivity|]. repeat split.
    + intros other Hne. now rewrite lookup_alter_ne.
  - intros e w'.
    destruct (queryFails (env w) (calls w)); cbn.
    + intros H. injection H as _ <-. reflexivity.
    + destruct (queryFails (env w) (S (calls w))); cbn.
      * intros H. injection H as _ <-. reflexivity.
      * discriminate.
Qed.

Lemma saveMessageAndResetThreadStatus_resets_witness :
  exists w',
    saveMessageAndResetThreadStatus "t1" "u1" (scenarioMessage "b" "answer")
      (scenarioWorld scenarioEnv
         (scenarioDb (Some (scenarioThread "u1" streaming (Some "s1"))) [] true 0))
      = (Success tt, w') /\
    List.map row_id (messages (db w')) = ["b"] /\
    exists th', threads (db w') !! "t1" = Some th' /\
      thread_status th' = ready /\ thread_streamId th' = None.
Proof.
  destruct (proj1 (saveMessageAndResetThreadStatus_resets "t1" "u1"
    (scenarioMessage "b" "answer")
    (scenarioWorld scenarioEnv
       (scenarioDb (Some (scenarioThread "u1" streaming (Some "s1"))) [] true 0)))
    (scenario_healthy _))
    as (w' & Hrun & _ & Hrows & _ & _ & Hthread & _).
  exists w'. split; [exact Hrun|]. split; [rewrite Hrows; reflexivity|].
  destruct (Hthread (scenarioThread "u1" streaming (Some "s1")) eq_refl)
    as (th' & Hlook & Hst & Hsid & _).
  exists th'. repeat split; assumption.
Defined.

(** ** Conversion to model messages *)

Lemma samePart_refl p : samePart p p.
Proof. destruct p; reflexivity. Qed.

Lemma samePart_trans p q r : samePart p q -> samePart q r -> samePart p r.
Proof. destruct p, q, r; cbn; congruence. Qed.

Lemma samePart_with_url u p : samePart p (with_url u p).
Proof. destruct p; reflexivity. Qed.

Lemma sameParts_refl l : Forall2 samePart l l.
Proof. induction l; constructor; auto using samePart_refl. Qed.

Lemma sameParts_trans l1 l2 l3 :
  Forall2 samePart l1 l2 -> Forall2 samePart l2 l3 -> Forall2 samePart l1 l3.
Proof.
  intros H. revert l3. induction H; intros l3 H3; inversion H3; subst; constructor;
    eauto using samePart_trans.
Qed.

Lemma sameParts_alter u i l : Forall2 samePart l (alter (with_url u) i l).
Proof.
  revert i. induction l as [|p l IH]; intros [|i]; cbn; constructor;
    auto using samePart_refl, samePart_with_url, sameParts_refl.
Qed.

Lemma sameMessage_refl m : sameMessage m m.
Proof. repeat split. apply sameParts_refl. Qed.

Lemma sameMessage_trans m1 m2 m3 :
  sameMessage m1 m2 -> sameMessage m2 m3 -> sameMessage m1 m3.
Proof.
  intros (? & ? & ?) (? & ? & ?). repeat split; try congruence.
  eauto using sameParts_trans.
Qed.

Lemma sameHeap_refl refs h : sameHeap refs h h.
Proof. intros r. destruct (h !! r); auto using sameMessage_refl. Qed.

Lemma sameHeap_trans refs h1 h2 h3 :
  sameHeap refs h1 h2 -> sameHeap refs h2 h3 -> sameHeap refs h1 h3.
Proof.
  intros H12 H23 r. specialize (H12 r). specialize (H23 r).
  destruct (h1 !! r), (h2 !! r), (h3 !! r); try tauto.
  destruct H12 as [Ha Hb], H23 as [Hc Hd]. split.
  - eauto using sameMessage_trans.
  - intros Hr. rewrite (Hd Hr). auto.
Qed.

Lemma stable_frame refs {A} (m : Effect A) :
  (forall w, heap (snd (m w)) = heap w) -> stable refs m.
Proof. intros H w. rewrite H. apply sameHeap_refl. Qed.

Lemma stable_bind refs {A B} (m : Effect A) (k : A -> Effect B) :
  stable refs m -> (forall a, stable refs (k a)) -> stable refs (bind m k).
Proof.
  intros Hm Hk w. unfold bind. specialize (Hm w).
  destruct (m w) as [[a|e|] w1]; cbn in *; try exact Hm.
  eapply sameHeap_trans; [exact Hm | apply Hk].
Qed.

Lemma stable_set_url refs ref i u : In ref refs -> stable refs (set_url ref i u).
Proof.
  intros Hin w r. cbn. rewrite lookup_alter.
  destruct (decide (ref = r)) as [<-|Hne].
  - destruct (heap w !! ref) as [m|]; cbn; [|exact I]. split; [|tauto].
    repeat split. cbn. apply sameParts_alter.
  - destruct (heap w !! r); auto using sameMessage_refl.
Qed.

Lemma stable_fetchDocuments refs ref parts :
  In ref refs -> forall i, stable refs (fetchDocuments ref i parts).
Proof.
  intros Hin. induction parts as [|p parts IH]; intros i; cbn.
  - apply stable_frame. reflexivity.
  - apply stable_bind; [|intros; apply IH].
    destruct p as [| mediaType url |]; try (apply stable_frame; reflexivity).
    destruct (isDocument mediaType); [|apply stable_frame; reflexivity].
    apply stable_bind; [|intros; now apply stable_set_url].
    apply stable_frame. intros w. unfold tryPromise.
    destruct (fetchResult (env w) (calls w)); reflexivity.
Qed.

Lemma stable_forEach refs {A} (f : A -> Effect unit) l :
  (forall a, In a l -> stable refs (f a)) -> stable refs (forEach f l).
Proof.
  induction l as [|a l IH]; intros Hf; cbn.
  - apply stable_frame. reflexivity.
  - apply stable_bind; [apply Hf; now left|]. intros _. apply IH.
    intros b Hb. apply Hf. now right.
Qed.

Lemma filter_twice {A} (f : A -> bool) l :
  List.filter f (List.filter f l) = List.filter f l.
Proof.
  induction l as [|a l IH]; cbn; [reflexivity|].
  destruct (f a) eqn:E; cbn; rewrite ?E, IH; reflexivity.
Qed.

Lemma filtered_twice options m : filtered options (filtered options m) = filtered options m.
Proof. unfold filtered, with_parts. cbn. now rewrite filter_twice. Qed.

(** The filters cannot fail; they replace every listed object, and only
    those, by its filtered version (once, however often it is listed). *)
Lemma filterParts_all options refs w :
  exists w1,
    forEach (filterParts options) refs w = (Success tt, w1) /\
    env w1 = env w /\ calls w1 = calls w /\
    forall r,
      (In r refs -> heap w1 !! r = filtered options <$> heap w !! r) /\
      (~ In r refs -> heap w1 !! r = heap w !! r).
Proof.
  revert w. induction refs as [|a refs IH]; intros w; cbn.
  - eexists. split; [reflexivity|]. repeat split; tauto.
  - unfold bind, filterParts at 1. cbn.
    destruct (IH (set_heap
      (alter (fun m => with_parts (List.filter (keepPart options) (msg_parts m)) m)
         a (heap w)) w)) as (w1 & Hrun & Henv & Hcalls & Hheap).
    exists w1. split; [exact Hrun|]. split; [exact Henv|]. split; [exact Hcalls|].
    intros r. destruct (Hheap r) as [Hin Hout]. cbn in Hin, Hout.
    rewrite lookup_alter in Hin, Hout. fold (filtered options) in Hin, Hout.
    destruct (in_dec Nat.eq_dec r refs) as [Hr|Hr];
      destruct (decide (a = r)) as [->|Hne]; split; intros H.
    all: try (exfalso; tauto).
    + rewrite (Hin Hr). destruct (heap w !! r); cbn; [now rewrite filtered_twice | reflexivity].
    + now rewrite (Hin Hr).
    + exact (Hout Hr).
    + exact (Hout Hr).
Qed.

Lemma fetchDocuments_documentFree ref parts :
  documentFree parts -> forall i w, fetchDocuments ref i parts w = (Success tt, w).
Proof.
  induction parts as [|p parts IH]; intros Hfree i w; cbn; [reflexivity|].
  unfold bind.
  assert (Hrest : documentFree parts).
  { intros mt u Hin. apply (Hfree mt u). now right. }
  destruct p as [| mediaType url |]; cbn; try now apply IH.
  rewrite (Hfree mediaType url) by now left. cbn. now apply IH.
Qed.

Lemma fetch_documentFree refs w :
  (forall r m, In r refs -> heap w !! r = Some m -> documentFree (msg_parts m)) ->
  forEach (fun ref => let* parts := partsOf ref in fetchDocuments ref 0 parts) refs w
    = (Success tt, w).
Proof.
  induction refs as [|a refs IH]; intros Hfree; cbn; [reflexivity|].
  unfold bind at 1. unfold bind at 1. unfold partsOf at 1. cbn.
  rewrite fetchDocuments_documentFree.
  - apply IH. intros r m Hin. apply Hfree. now right.
  - destruct (heap w !! a) as [m|] eqn:Hm.
    + apply (Hfree a m); [now left | exact Hm].
    + intros mt u [].
Qed.

Lemma keepPart_false options part :
  keepPart options part = false <->
  exists mediaType url, part = FilePart mediaType url /\
    ((isDocument mediaType = true /\ nullish_or (supportsDocuments options) false = false) \/
     (String.prefix "image/" mediaType = true /\
      nullish_or (supportsImages options) false = false)).
Proof.
  destruct part as [text | mediaType url | type]; cbn.
  - split; [discriminate | intros (? & ? & ? & _); discriminate].
  - split.
    + intros H. exists mediaType, url. split; [reflexivity|].
      destruct (isDocument mediaType); cbn in H.
      * destruct (nullish_or (supportsDocuments options) false); cbn in H; [|tauto].
        destruct (String.prefix "image/" mediaType); cbn in H; [|discriminate].
        destruct (nullish_or (supportsImages options) false); cbn in H;
          [discriminate | tauto].
      * destruct (String.prefix "image/" mediaType); cbn in H; [|discriminate].
        destruct (nullish_or (supportsImages options) false); cbn in H;
          [discriminate | tauto].
    + intros (mt & u & Heq & H). injection Heq as <- <-.
      destruct H as [[-> ->]|[-> ->]]; cbn; [reflexivity|].
      destruct (isDocument mediaType && _); reflexivity.
  - split; [discriminate | intros (? & ? & ? & _); discriminate].
Qed.

Lemma filtered_documentFree options m :
  nullish_or (supportsDocuments options) false = false ->
  documentFree (msg_parts (filtered options m)).
Proof.
  intros Hdocs mediaType url Hin. cbn in Hin. apply filter_In in Hin as [_ Hkeep].
  cbn in Hkeep. rewrite Hdocs in Hkeep.
  destruct (isDocument mediaType); [discriminate | reflexivity].
Qed.

(** C10. Whatever the outcome of the call, every listed message object has
    been filtered in place: its parts are those the predicate keeps, in
    order (with the url of a fetched document replaced by its bytes, and
    unchanged altogether when documents are not supported).  The predicate
    drops exactly the file parts whose media type starts with
    'application/pdf' or 'text/plain' when [supportsDocuments] is not true,
    and those whose media type starts with 'image/' when [supportsImages]
    is not true; the default options have both flags false.  Objects that
    are not listed are untouched, and the converter gets the objects as
    they are after the filter. *)
Theorem convertUIMessagesToModelMessages_filters
    (messages : list nat) (options : option ConvertOptions) (w : World) :
  (forall ref m, In ref messages -> heap w !! ref = Some m ->
     exists m',
       heap (snd (convertUIMessagesToModelMessages messages options w)) !! ref
         = Some m' /\
       msg_id m' = msg_id m /\ msg_role m' = msg_role m /\
       Forall2 samePart
         (List.filter (keepPart (nullish_or options defaultOptions)) (msg_parts m))
         (msg_parts m') /\
       (nullish_or (supportsDocuments (nullish_or options defaultOptions)) false = false ->
        msg_parts m' =
          List.filter (keepPart (nullish_or options defaultOptions)) (msg_parts m))) /\
  (forall ref, ~ In ref messages ->
     heap (snd (convertUIMessagesToModelMessages messages options w)) !! ref
       = heap w !! ref) /\
  (forall r,
     fst (convertUIMessagesToModelMessages messages options w) = Success r ->
     convertToModelMessages
       (env (snd (convertUIMessagesToModelMessages messages options w)))
       (omap (fun ref =>
                heap (snd (convertUIMessagesToModelMessages messages options w)) !! ref)
          messages) = Some r) /\
  (forall part,
     keepPart (nullish_or options defaultOptions) part = false <->
     exists mediaType url, part = FilePart mediaType url /\
       ((isDocument mediaType = true /\
         nullish_or (supportsDocuments (nullish_or options defaultOptions)) false = false) \/
        (String.prefix "image/" mediaType = true /\
         nullish_or (supportsImages (nullish_or options defaultOptions)) false = false))) /\
  (options = None ->
     nullish_or (supportsDocuments (nullish_or options defaultOptions)) false = false /\
     nullish_or (supportsImages (nullish_or options defaultOptions)) false = false).
Proof.
  set (opts := nullish_or options defaultOptions).
  destruct (filterParts_all opts messages w) as (w1 & Hfilter & _ & _ & Hheap1).
  set (rest :=
    let* _ := forEach (fun ref => let* parts := partsOf ref in
                                  fetchDocuments ref 0 parts) messages in
    let* ms := deref messages in
    (fun w0 : World =>
       match convertToModelMessages (env w0) ms with
       | Some r => (Success r, w0)
       | None => (Failure UnknownException, w0)
       end) : Effect (list ModelMessage)).
  assert (Hout : convertUIMessagesToModelMessages messages options w = rest w1).
  { unfold convertUIMessagesToModelMessages. fold opts. unfold bind at 1.
    rewrite Hfilter. reflexivity. }
  assert (Hstable : sameHeap messages (heap w1) (heap (snd (rest w1)))).
  { apply (stable_bind messages).
    - apply stable_forEach. intros ref Hin. apply stable_bind.
      + apply stable_frame. reflexivity.
      + intros parts. now apply stable_fetchDocuments.
    - intros _. apply stable_bind; [apply stable_frame; reflexivity|].
      intros ms. apply stable_frame. intros w0.
      destruct (convertToModelMessages (env w0) ms); reflexivity. }
  rewrite Hout. split; [|split; [|split; [|split]]].
  - intros ref m Hin Hm. specialize (Hstable ref). specialize (Hheap1 ref).
    apply proj1 in Hheap1. specialize (Hheap1 Hin). rewrite Hm in Hheap1.
    cbn in Hheap1.
    rewrite Hheap1 in Hstable.
    destruct (heap (snd (rest w1)) !! ref) as [m'|] eqn:Hm'; [|contradiction].
    destruct Hstable as [(Hid & Hrole & Hparts) _].
    exists m'. split; [reflexivity|]. split; [now rewrite <- Hid|].
    split; [now rewrite <- Hrole|]. split; [exact Hparts|].
    intros Hdocs.
    assert (Hnoop : forEach (fun ref => let* parts := partsOf ref in
                                        fetchDocuments ref 0 parts) messages w1
                    = (Success tt, w1)).
    { apply fetch_documentFree. intros r m0 Hr Hm0.
      specialize (filterParts_all opts messages w) as (w1' & Hf' & _ & _ & Hh').
      rewrite Hfilter in Hf'. injection Hf' as <-.
      rewrite (proj1 (Hh' r) Hr) in Hm0.
      destruct (heap w !! r) as [m1|]; [|discriminate]. injection Hm0 as <-.
      now apply filtered_documentFree. }
    assert (Hsame : heap (snd (rest w1)) = heap w1).
    { unfold rest. unfold bind at 1. rewrite Hnoop. unfold bind, deref. cbn.
      destruct (convertToModelMessages _ _); reflexivity. }
    rewrite Hsame, Hheap1 in Hm'. injection Hm' as <-. reflexivity.
  - intros ref Hnin. specialize (Hstable ref). specialize (Hheap1 ref).
    apply proj2 in Hheap1. specialize (Hheap1 Hnin). rewrite Hheap1 in Hstable.
    destruct (heap w !! ref), (heap (snd (rest w1)) !! ref); try contradiction.
    + destruct Hstable as [_ Heq]. now rewrite Heq.
    + reflexivity.
  - intros r. unfold rest, bind, deref.
    destruct (forEach _ messages w1) as [[[]|e|] w2]; cbn; try discriminate.
    destruct (convertToModelMessages (env w2) _) eqn:Hconv; cbn; [|discriminate].
    intros H. injection H as <-. exact Hconv.
  - intros part. apply keepPart_false.
  - intros ->. split; reflexivity.
Qed.

(** A message with a text, an image, a PDF and an audio part, converted
    with the default options: the image and the PDF are dropped from the
    caller's object. *)
Lemma convertUIMessagesToModelMessages_filters_witness :
  exists m',
    heap (snd (convertUIMessagesToModelMessages [5%nat] None
      {| env := scenarioEnv; db := scenarioDb None [] true 0; nowMs := 0;
         latches := ∅;
         heap := {[ 5%nat :=
           {| msg_id := "a"; msg_role := "user";
              msg_parts := [TextPart "see"; FilePart "image/png" (url_string "u1");
                            FilePart "application/pdf" (url_string "u2");
                            FilePart "audio/mpeg" (url_string "u3")] |} ]};
         calls := 0; trace := [] |})) !! 5%nat = Some m' /\
    msg_parts m' = [TextPart "see"; FilePart "audio/mpeg" (url_string "u3")].
Proof.
  destruct (proj1 (convertUIMessagesToModelMessages_filters [5%nat] None
    {| env := scenarioEnv; db := scenarioDb None [] true 0; nowMs := 0;
       latches := ∅;
       heap := {[ 5%nat :=
         {| msg_id := "a"; msg_role := "user";
            msg_parts := [TextPart "see"; FilePart "image/png" (url_string "u1");
                          FilePart "application/pdf" (url_string "u2");
                          FilePart "audio/mpeg" (url_string "u3")] |} ]};
       calls := 0; trace := [] |}) 5%nat _ ltac:(now left) eq_refl)
    as (m' & Hm' & _ & _ & _ & Hparts).
  exists m'. split; [exact Hm'|]. rewrite Hparts; reflexivity.
Defined.

(** * Further properties of the service *)

(** ** The guards of thread context preparation *)

Lemma healthy_env w w' : env w' = env w -> healthy w -> healthy w'.
Proof. intros He Hh n. rewrite He. apply Hh. Qed.

Ltac close_mutations :=
  unfold mutations; cbn; rewrite ?flat_map_app; cbn;
  rewrite ?app_nil_r, <- ?app_assoc; cbn; try reflexivity.

Section Admission.

Variable CREDITS : Limits -> Z.

(** A refused request, with every query answered: the error is the one of
    the decision table, only a thread creation can have been issued, and
    the tables are those of before. *)
Lemma prepare_refused args w e :
  healthy w ->
  refusal CREDITS args w = Some e ->
  exists w',
    prepareThreadContext CREDITS args w = (Failure e, w') /\
    db w' = db w /\ env w' = env w /\
    mutations w' = (mutations w ++ refusedWrites args w e)%list.
Proof.
  intros Hh. unfold refusal, refusedWrites, guardedThread, remaining.
  run_effect. rewrite !Hh. cbn.
  destruct (settings (db w) !! userId args) as [st|]; cbn.
  2: { intros H. injection H as <-. eexists. repeat split.
       destruct (threads (db w) !! threadId args); close_mutations. }
  destruct (usages (db w) !! userId args) as [us|]; cbn.
  2: { intros H. injection H as <-. eexists. repeat split.
       destruct (threads (db w) !! threadId args); close_mutations. }
  destruct (models (db w) !! modelId args) as [mo|]; cbn.
  2: { intros H. injection H as <-. eexists. repeat split.
       destruct (threads (db w) !! threadId args); close_mutations. }
  destruct (threads (db w) !! threadId args) as [th|]; cbn.
  - destruct (status_eqb (thread_status th) streaming); cbn.
    { intros H. injection H as <-. eexists. repeat split. close_mutations. }
    destruct (negb (String.eqb (thread_userId th) (userId args))); cbn.
    { intros H. injection H as <-. eexists. repeat split. close_mutations. }
    destruct (_ <? 0)%Z; cbn; [|discriminate].
    intros H. injection H as <-. eexists. repeat split. close_mutations.
  - rewrite !Hh. cbn. rewrite String.eqb_refl. cbn.
    destruct (_ <? 0)%Z; cbn; [|discriminate].
    intros H. injection H as <-. eexists. repeat split. close_mutations.
Qed.

(** A request that passes the guards, with every query answered, succeeds. *)
Lemma prepare_admitted args w :
  healthy w ->
  refusal CREDITS args w = None ->
  exists ctx w', prepareThreadContext CREDITS args w = (Success ctx, w').
Proof.
  intros Hh. unfold refusal, guardedThread, remaining. run_effect. rewrite !Hh. cbn.
  destruct (settings (db w) !! userId args) as [st|]; cbn; [|discriminate].
  destruct (usages (db w) !! userId args) as [us|]; cbn; [|discriminate].
  destruct (models (db w) !! modelId args) as [mo|]; cbn; [|discriminate].
  destruct (threads (db w) !! threadId args) as [th|]; cbn; rewrite ?Hh; cbn.
  - destruct (status_eqb (thread_status th) streaming); cbn; [discriminate|].
    destruct (negb (String.eqb (thread_userId th) (userId args))); cbn; [discriminate|].
    destruct (_ <? 0)%Z; cbn; [discriminate|]. intros _. rewrite ?Hh. cbn.
    destruct (find _ (messages (db w))) as [stored|]; cbn; rewrite ?Hh; cbn.
    + destruct (head _); cbn; rewrite ?Hh; cbn; eauto.
    + eauto.
  - rewrite String.eqb_refl. cbn.
    destruct (_ <? 0)%Z; cbn; [discriminate|]. intros _. rewrite ?Hh. cbn.
    destruct (find _ (messages (db w))) as [stored|]; cbn; rewrite ?Hh; cbn.
    + destruct (head _); cbn; rewrite ?Hh; cbn; eauto.
    + eauto.
Qed.

End Admission.

Ltac split_queries H :=
  repeat match type of H with
  | context [queryFails (env ?w) ?n] =>
      destruct (queryFails (env w) n) eqn:?; cbn in H; [discriminate H|]
  end.

Section PreparationInversion.

Variable CREDITS : Limits -> Z.

(** Everything a successful run of the generator has done. *)
Lemma prepareThreadContext_effect_success args w ctx w' :
  prepareThreadContext_effect CREDITS args w = (Success ctx, w') ->
  refusal CREDITS args w = None /\
  settings (db w) !! userId args = Some (ctx_settings ctx) /\
  usages (db w) !! userId args = Some (ctx_usage ctx) /\
  models (db w) !! modelId args = Some (ctx_model ctx) /\
  ctx_thread ctx = guardedThread args w /\
  ctx_limits ctx =
    getLimits (customers (db w) !! userId args) (isAnonymous args) (nowMs w) /\
  ctx_history ctx =
    List.map row_message
      (List.filter (fun r => String.eqb (row_threadId r) (threadId args))
         (messages (db w'))) /\
  threads (db w') = admittedThreads args w /\
  messages (db w') = admittedMessages args w /\
  (settings (db w') = settings (db w) /\ usages (db w') = usages (db w) /\
   models (db w') = models (db w) /\ customers (db w') = customers (db w)) /\
  (env w' = env w /\ nowMs w' = nowMs w /\ latches w' = latches w /\
   heap w' = heap w) /\
  mutations w' = (mutations w ++ admittedWrites args w)%list.
Proof.
  intros Hrun. unfold refusal, guardedThread, remaining, admittedThreads,
    admittedMessages, admittedWrites.
  run_effect_in Hrun. split_queries Hrun.
  destruct (settings (db w) !! userId args) as [st|]; cbn in Hrun; [|discriminate].
  destruct (usages (db w) !! userId args) as [us|]; cbn in Hrun; [|discriminate].
  destruct (models (db w) !! modelId args) as [mo|]; cbn in Hrun; [|discriminate].
  destruct (threads (db w) !! threadId args) as [th|]; cbn in Hrun.
  - destruct (status_eqb (thread_status th) streaming); cbn in Hrun; [discriminate|].
    destruct (negb (String.eqb (thread_userId th) (userId args)));
      cbn in Hrun; [discriminate|].
    destruct (_ <? 0)%Z; cbn in Hrun; [discriminate|].
    split_queries Hrun.
    destruct (find _ (messages (db w))) as [stored|] eqn:Hfind; cbn in Hrun.
    + pose proof (updateMessage_returns_row _ (message args) (nowMs w) _ _ Hfind)
        as Hhead.
      split_queries Hrun.
      destruct (head _) as [row|] eqn:Hrow; [|contradiction].
      cbn in Hrun. split_queries Hrun.
      injection Hrun as <- <-. cbn. repeat split. close_mutations.
    + split_queries Hrun.
      injection Hrun as <- <-. cbn. repeat split. close_mutations.
  - split_queries Hrun. rewrite String.eqb_refl in *. cbn in Hrun.
    destruct (_ <? 0)%Z; cbn in Hrun; [discriminate|].
    split_queries Hrun.
    destruct (find _ (messages (db w))) as [stored|] eqn:Hfind; cbn in Hrun.
    + pose proof (updateMessage_returns_row _ (message args) (nowMs w) _ _ Hfind)
        as Hhead.
      split_queries Hrun.
      destruct (head _) as [row|] eqn:Hrow; [|contradiction].
      cbn in Hrun. split_queries Hrun.
      injection Hrun as <- <-. cbn. repeat split. close_mutations.
    + split_queries Hrun.
      injection Hrun as <- <-. cbn. repeat split. close_mutations.
Qed.

(** The same for the call, transaction included. *)
Lemma prepareThreadContext_success args w ctx w' :
  prepareThreadContext CREDITS args w = (Success ctx, w') ->
  refusal CREDITS args w = None /\
  settings (db w) !! userId args = Some (ctx_settings ctx) /\
  usages (db w) !! userId args = Some (ctx_usage ctx) /\
  models (db w) !! modelId args = Some (ctx_model ctx) /\
  ctx_thread ctx = guardedThread args w /\
  ctx_limits ctx =
    getLimits (customers (db w) !! userId args) (isAnonymous args) (nowMs w) /\
  ctx_history ctx =
    List.map row_message
      (List.filter (fun r => String.eqb (row_threadId r) (threadId args))
         (messages (db w'))) /\
  threads (db w') = admittedThreads args w /\
  messages (db w') = admittedMessages args w /\
  (settings (db w') = settings (db w) /\ usages (db w') = usages (db w) /\
   models (db w') = models (db w) /\ customers (db w') = customers (db w)) /\
  (env w' = env w /\ nowMs w' = nowMs w /\ latches w' = latches w /\
   heap w' = heap w) /\
  mutations w' = (mutations w ++ admittedWrites args w)%list.
Proof.
  intros Hrun.
  unfold prepareThreadContext, APIError_map, Database_transaction in Hrun.
  destruct (prepareThreadContext_effect CREDITS args (emit EBegin w))
    as [[c | e |] w1] eqn:Heff; try discriminate.
  2: { destruct e; discriminate. }
  injection Hrun as -> <-.
  pose proof (prepareThreadContext_effect_success args (emit EBegin w) ctx w1 Heff)
    as H.
  rewrite mutations_emit in H. cbn in H. rewrite mutations_emit. cbn.
  rewrite !app_nil_r in *. exact H.
Qed.

End PreparationInversion.

Ltac split_queries_failing H :=
  repeat match type of H with
  | context [queryFails (env ?w) ?n] =>
      let Hq := fresh "Hq" in
      destruct (queryFails (env w) n) eqn:Hq; cbn in H;
      [injection H as <- <-; left; split; [reflexivity|];
       intros Hh; rewrite Hh in Hq; discriminate Hq|]
  end.

Lemma refusal_status CREDITS args w e :
  refusal CREDITS args w = Some e ->
  exists status msg, e = APIError status msg /\
    (status = 400 \/ status = 403 \/ status = 404)%Z.
Proof.
  unfold refusal.
  destruct (settings (db w) !! userId args); [|intros H; injection H as <-; eauto 10].
  destruct (usages (db w) !! userId args); [|intros H; injection H as <-; eauto 10].
  destruct (models (db w) !! modelId args); [|intros H; injection H as <-; eauto 10].
  destruct (status_eqb _ _); [intros H; injection H as <-; eauto 10|].
  destruct (negb _); [intros H; injection H as <-; eauto 10|].
  destruct (_ <? 0)%Z; [intros H; injection H as <-; eauto 10 | discriminate].
Qed.

Section PreparationFailure.

Variable CREDITS : Limits -> Z.

(** A failed run of the generator was refused by a guard, or by the
    database. *)
Lemma prepareThreadContext_effect_failure args w e w' :
  prepareThreadContext_effect CREDITS args w = (Failure e, w') ->
  (e = SqlError /\ ~ healthy w) \/ refusal CREDITS args w = Some e.
Proof.
  intros Hrun. unfold refusal, guardedThread, remaining.
  run_effect_in Hrun. split_queries_failing Hrun.
  destruct (settings (db w) !! userId args) as [st|]; cbn in Hrun;
    [|injection Hrun as <- <-; now right].
  destruct (usages (db w) !! userId args) as [us|]; cbn in Hrun;
    [|injection Hrun as <- <-; now right].
  destruct (models (db w) !! modelId args) as [mo|]; cbn in Hrun;
    [|injection Hrun as <- <-; now right].
  destruct (threads (db w) !! threadId args) as [th|]; cbn in Hrun.
  - destruct (status_eqb (thread_status th) streaming); cbn in Hrun;
      [injection Hrun as <- <-; now right|].
    destruct (negb (String.eqb (thread_userId th) (userId args))); cbn in Hrun;
      [injection Hrun as <- <-; now right|].
    destruct (_ <? 0)%Z; cbn in Hrun; [injection Hrun as <- <-; now right|].
    split_queries_failing Hrun.
    destruct (find _ (messages (db w))) as [stored|] eqn:Hfind; cbn in Hrun.
    + split_queries_failing Hrun.
      destruct (head _) as [row|]; cbn in Hrun; split_queries_failing Hrun;
        discriminate.
    + split_queries_failing Hrun. discriminate.
  - split_queries_failing Hrun. rewrite String.eqb_refl in *. cbn in Hrun.
    destruct (_ <? 0)%Z; cbn in Hrun; [injection Hrun as <- <-; now right|].
    split_queries_failing Hrun.
    destruct (find _ (messages (db w))) as [stored|] eqn:Hfind; cbn in Hrun.
    + split_queries_failing Hrun.
      destruct (head _) as [row|]; cbn in Hrun; split_queries_failing Hrun;
        discriminate.
    + split_queries_failing Hrun. discriminate.
Qed.

Lemma prepareThreadContext_effect_ends args w :
  fst (prepareThreadContext_effect CREDITS args w) <> OutOfFuel.
Proof.
  run_effect.
  repeat match goal with
  | |- context [queryFails (env ?w) ?n] =>
      destruct (queryFails (env w) n); cbn; [discriminate|]
  | |- context [match ?x !! ?k with _ => _ end] =>
      destruct (x !! k); cbn; try discriminate
  | |- context [if status_eqb ?a ?b then _ else _] =>
      destruct (status_eqb a b); cbn; try discriminate
  | |- context [if negb ?a then _ else _] =>
      destruct (negb a); cbn; try discriminate
  | |- context [if (?a <? ?b)%Z then _ else _] =>
      destruct (a <? b)%Z; cbn; try discriminate
  | |- context [match find ?f ?l with _ => _ end] =>
      destruct (find f l); cbn; try discriminate
  | |- context [match head ?l with _ => _ end] =>
      destruct (head l); cbn; try discriminate
  end.
  all: discriminate.
Qed.

End PreparationFailure.

Lemma admittedThreads_lookup args w :
  admittedThreads args w !! threadId args =
    Some (patch_thread streaming (Some (streamId args)) (Some (nowMs w))
            (guardedThread args w)).
Proof.
  unfold admittedThreads, guardedThread. rewrite lookup_alter_eq.
  destruct (threads (db w) !! threadId args) as [th|] eqn:Hth.
  - now rewrite Hth.
  - now rewrite lookup_insert_eq.
Qed.

Lemma admittedThreads_other args w other :
  other <> threadId args ->
  admittedThreads args w !! other = threads (db w) !! other.
Proof.
  intros Hne. unfold admittedThreads. rewrite lookup_alter_ne by congruence.
  destruct (threads (db w) !! threadId args); [reflexivity|].
  now rewrite lookup_insert_ne by congruence.
Qed.

(** What passing the guards means. *)
Lemma refusal_none CREDITS args w :
  refusal CREDITS args w = None <->
  exists st us mo,
    settings (db w) !! userId args = Some st /\
    usages (db w) !! userId args = Some us /\
    models (db w) !! modelId args = Some mo /\
    thread_status (guardedThread args w) = ready /\
    thread_userId (guardedThread args w) = userId args /\
    (0 <= remaining CREDITS args w us mo)%Z.
Proof.
  unfold refusal. split.
  - destruct (settings (db w) !! userId args) as [st|]; [|discriminate].
    destruct (usages (db w) !! userId args) as [us|]; [|discriminate].
    destruct (models (db w) !! modelId args) as [mo|]; [|discriminate].
    destruct (thread_status (guardedThread args w)) eqn:Hs; cbn; [|discriminate].
    destruct (String.eqb _ _) eqn:Ho; cbn; [|discriminate].
    destruct (Z.ltb_spec (remaining CREDITS args w us mo) 0); [discriminate|].
    intros _. exists st, us, mo. apply String.eqb_eq in Ho. repeat split; auto.
  - intros (st & us & mo & -> & -> & -> & -> & -> & Hrem). cbn.
    rewrite String.eqb_refl. cbn.
    destruct (Z.ltb_spec (remaining CREDITS args w us mo) 0); [lia | reflexivity].
Qed.

(** The run of [saveMessageAndResetThreadStatus] with both queries answered. *)
Lemma saveMessageAndResetThreadStatus_run threadId userId message w :
  healthy w ->
  exists w',
    saveMessageAndResetThreadStatus threadId userId message w = (Success tt, w') /\
    threads (db w') = alter (patch_thread ready None None) threadId (threads (db w)) /\
    messages (db w') =
      (messages (db w) ++ [new_row threadId userId message (nowMs w)])%list /\
    (settings (db w') = settings (db w) /\ usages (db w') = usages (db w) /\
     models (db w') = models (db w) /\ customers (db w') = customers (db w)) /\
    env w' = env w /\ nowMs w' = nowMs w.
Proof.
  intros Hh.
  unfold saveMessageAndResetThreadStatus, Database_transaction, bind, logInfo, all,
    performAll, bind, perform, succeed.
  cbn. rewrite !Hh. cbn. eexists. repeat split.
Qed.

Section PreparationProperties.

Variable CREDITS : Limits -> Z.

(** X1. With every query answered, a missing settings row, usage row or
    model makes the call fail with the 404 of that row, settings before
    usage before model; the failure comes before any write, the creation
    of a missing thread included. *)
Theorem prepareThreadContext_missing_rows (args : PrepareArgs) (w : World) :
  healthy w ->
  (settings (db w) !! userId args = None ->
   exists w',
     prepareThreadContext CREDITS args w =
       (Failure (APIError 404 "Settings for user (userId) does not exist"), w') /\
     db w' = db w /\ mutations w' = mutations w) /\
  (is_Some (settings (db w) !! userId args) ->
   usages (db w) !! userId args = None ->
   exists w',
     prepareThreadContext CREDITS args w =
       (Failure (APIError 404 "Usage for user (userId) does not exist"), w') /\
     db w' = db w /\ mutations w' = mutations w) /\
  (is_Some (settings (db w) !! userId args) ->
   is_Some (usages (db w) !! userId args) ->
   models (db w) !! modelId args = None ->
   exists w',
     prepareThreadContext CREDITS args w =
       (Failure (APIError 404 "Model with (modelId) does not exist"), w') /\
     db w' = db w /\ mutations w' = mutations w).
Proof.
  intros Hh. split; [|split].
  - intros Hst.
    destruct (prepare_refused CREDITS args w
                (APIError 404 "Settings for user (userId) does not exist") Hh)
      as (w' & Hrun & Hdb & _ & Hmut).
    { unfold refusal. now rewrite Hst. }
    exists w'. split; [exact Hrun|]. split; [exact Hdb|].
    rewrite Hmut. unfold refusedWrites.
    destruct (threads (db w) !! threadId args); cbn; now rewrite app_nil_r.
  - intros [st Hst] Hus.
    destruct (prepare_refused CREDITS args w
                (APIError 404 "Usage for user (userId) does not exist") Hh)
      as (w' & Hrun & Hdb & _ & Hmut).
    { unfold refusal. now rewrite Hst, Hus. }
    exists w'. split; [exact Hrun|]. split; [exact Hdb|].
    rewrite Hmut. unfold refusedWrites.
    destruct (threads (db w) !! threadId args); cbn; now rewrite app_nil_r.
  - intros [st Hst] [us Hus] Hmo.
    destruct (prepare_refused CREDITS args w
                (APIError 404 "Model with (modelId) does not exist") Hh)
      as (w' & Hrun & Hdb & _ & Hmut).
    { unfold refusal. now rewrite Hst, Hus, Hmo. }
    exists w'. split; [exact Hrun|]. split; [exact Hdb|].
    rewrite Hmut. unfold refusedWrites.
    destruct (threads (db w) !! threadId args); cbn; now rewrite app_nil_r.
Qed.

(** X2. A request for a thread that does not exist yet, refused for lack
    of credits: by the time the credits are checked the thread has been
    created, so the refusal comes after a write; inside the transaction the
    new thread is in the table, and it is the rollback that leaves the
    table without it. *)
Theorem prepareThreadContext_refused_after_thread_creation
    (args : PrepareArgs) (w : World) (st : Settings) (us : Usage) (mo : Model) :
  healthy w ->
  settings (db w) !! userId args = Some st ->
  usages (db w) !! userId args = Some us ->
  models (db w) !! modelId args = Some mo ->
  threads (db w) !! threadId args = None ->
  (remaining CREDITS args w us mo < 0)%Z ->
  (exists w',
     prepareThreadContext CREDITS args w =
       (Failure (APIError 403 "You have reached your credit limit."), w') /\
     mutations w' =
       (mutations w ++ [createThread (threadId args) (userId args)])%list /\
     threads (db w') !! threadId args = None) /\
  (exists w1,
     prepareThreadContext_effect CREDITS args (emit EBegin w) =
       (Failure (APIError 403 "You have reached your credit limit."), w1) /\
     threads (db w1) !! threadId args =
       Some (new_thread (threadId args) (userId args) (nowMs w))).
Proof.
  intros Hh Hst Hus Hmo Hth Hrem. split.
  - destruct (prepare_refused CREDITS args w
                (APIError 403 "You have reached your credit limit.") Hh)
      as (w' & Hrun & Hdb & _ & Hmut).
    { unfold refusal, guardedThread. rewrite Hst, Hus, Hmo, Hth. cbn.
      rewrite String.eqb_refl. cbn.
      destruct (Z.ltb_spec (remaining CREDITS args w us mo) 0); [reflexivity | lia]. }
    exists w'. split; [exact Hrun|]. split.
    + rewrite Hmut. unfold refusedWrites. now rewrite Hth.
    + now rewrite Hdb.
  - unfold remaining in Hrem. run_effect. rewrite !Hh. cbn.
    rewrite Hst, Hus, Hmo, Hth. cbn. rewrite !Hh. cbn. rewrite String.eqb_refl. cbn.
    destruct (Z.ltb_spec
      (CREDITS (getLimits (customers (db w) !! userId args) (isAnonymous args)
                  (nowMs w)) - or_zero (usage_credits us) - model_credits mo) 0)
      as [_|Hge]; [|lia].
    cbn. eexists. split; [reflexivity|]. cbn. apply lookup_insert_eq.
Qed.

(** X3. Whatever the database does, a failed call leaves the tables as
    they were and fails with an [APIError] whose status is 400, 403, 404 or
    500; the 500 is the generic "Failed to prepare thread context" and
    occurs only when a query was refused.  The call always ends. *)
Theorem prepareThreadContext_failure_taxonomy
    (args : PrepareArgs) (w : World) (e : Error) (w' : World) :
  prepareThreadContext CREDITS args w = (Failure e, w') ->
  db w' = db w /\
  exists status msg,
    e = APIError status msg /\ preparationStatus status /\
    (status = 500%Z -> msg = "Failed to prepare thread context" /\ ~ healthy w) /\
    (status <> 500%Z -> refusal CREDITS args w = Some e).
Proof.
  intros Hrun.
  unfold prepareThreadContext, APIError_map, Database_transaction in Hrun.
  destruct (prepareThreadContext_effect CREDITS args (emit EBegin w))
    as [[c | e1 |] w1] eqn:Heff; try discriminate.
  apply prepareThreadContext_effect_failure in Heff.
  assert (Hh : healthy (emit EBegin w) -> healthy w) by (intros H n; apply H).
  destruct Heff as [[-> Hsick] | Href].
  - injection Hrun as <- <-. split; [reflexivity|].
    exists 500%Z, "Failed to prepare thread context".
    split; [reflexivity|]. split; [unfold preparationStatus; tauto|].
    split; [intros _; split; [reflexivity | exact Hsick] | congruence].
  - change (refusal CREDITS args (emit EBegin w)) with (refusal CREDITS args w) in Href.
    destruct (refusal_status _ _ _ _ Href) as (status & msg & -> & Hstatus).
    injection Hrun as <- <-. split; [reflexivity|].
    exists status, msg. split; [reflexivity|].
    split; [unfold preparationStatus; tauto|].
    split; [intros ->; lia | intros _; exact Href].
Qed.

(** X4. A successful call for a message that is not stored yet appends it:
    the table is the old one followed by one new row for the message, in
    the given thread and for the caller; nothing is updated or deleted, and
    the history handed back is the thread's old history followed by the
    message. *)
Theorem prepareThreadContext_appends_new_message
    (args : PrepareArgs) (w : World) (ctx : ThreadContext) (w' : World) :
  prepareThreadContext CREDITS args w = (Success ctx, w') ->
  List.find (fun r => String.eqb (row_id r) (msg_id (message args)))
    (messages (db w)) = None ->
  messages (db w') =
    (messages (db w)
       ++ [new_row (threadId args) (userId args) (message args) (nowMs w)])%list /\
  ctx_history ctx =
    (List.map row_message
       (List.filter (fun r => String.eqb (row_threadId r) (threadId args))
          (messages (db w)))
     ++ [message args])%list /\
  In (createMessage (threadId args) (userId args) (message args)) (mutations w') /\
  (forall q, In q (mutations w') -> ~ In q (mutations w) ->
     match q with
     | updateMessage _ _ _ | deleteTrailingMessages _ _ _ => False
     | _ => True
     end).
Proof.
  intros Hrun Hfind.
  destruct (prepareThreadContext_success CREDITS args w ctx w' Hrun)
    as (_ & _ & _ & _ & _ & _ & Hhist & _ & Hrows & _ & _ & Hmut).
  unfold admittedMessages in Hrows. rewrite Hfind in Hrows.
  unfold admittedWrites in Hmut. rewrite Hfind in Hmut.
  split; [exact Hrows|]. split; [|split].
  - rewrite Hhist, Hrows, List.filter_app, List.map_app. cbn.
    rewrite String.eqb_refl. reflexivity.
  - rewrite Hmut, !in_app_iff. cbn. tauto.
  - intros q Hq Hold. rewrite Hmut, !in_app_iff in Hq.
    destruct Hq as [Hq | [Hq | [Hq | Hq]]]; [contradiction| | |].
    + destruct (threads (db w) !! threadId args); cbn in Hq; [contradiction|].
      destruct Hq as [<- | []]. exact I.
    + destruct Hq as [<- | []]. exact I.
    + destruct Hq as [<- | []]. exact I.
Qed.

(** X5. The thread handed back by a successful call is the thread as it
    was fetched (or created), before the status update: it is [ready] and
    belongs to the caller, while the stored thread is [streaming] with the
    new stream id; settings, usage and model are the fetched rows. *)
Theorem prepareThreadContext_returns_thread_before_update
    (args : PrepareArgs) (w : World) (ctx : ThreadContext) (w' : World) :
  prepareThreadContext CREDITS args w = (Success ctx, w') ->
  thread_status (ctx_thread ctx) = ready /\
  thread_userId (ctx_thread ctx) = userId args /\
  (forall th, threads (db w) !! threadId args = Some th -> ctx_thread ctx = th) /\
  threads (db w') !! threadId args =
    Some (patch_thread streaming (Some (streamId args)) (Some (nowMs w))
            (ctx_thread ctx)) /\
  settings (db w) !! userId args = Some (ctx_settings ctx) /\
  usages (db w) !! userId args = Some (ctx_usage ctx) /\
  models (db w) !! modelId args = Some (ctx_model ctx) /\
  (forall other, other <> threadId args ->
     threads (db w') !! other = threads (db w) !! other).
Proof.
  intros Hrun.
  destruct (prepareThreadContext_success CREDITS args w ctx w' Hrun)
    as (Href & Hst & Hus & Hmo & Hth & _ & _ & Hthreads & _).
  apply refusal_none in Href as (_ & _ & _ & _ & _ & _ & Hready & Hown & _).
  rewrite Hth, Hthreads. split; [exact Hready|]. split; [exact Hown|].
  split; [|split; [apply admittedThreads_lookup|]].
  - intros th Hlook. unfold guardedThread. now rewrite Hlook.
  - repeat split; try assumption. intros other Hne. now apply admittedThreads_other.
Qed.

End PreparationProperties.

Lemma prepareThreadContext_missing_rows_witness :
  exists w',
    prepareThreadContext scenarioCredits (scenarioArgs "hi")
      (scenarioWorld scenarioEnv (scenarioDb None [] false 0))
      = (Failure (APIError 404 "Settings for user (userId) does not exist"), w') /\
    threads (db w') !! "t1" = None.
Proof.
  destruct (proj1 (prepareThreadContext_missing_rows scenarioCredits (scenarioArgs "hi")
    (scenarioWorld scenarioEnv (scenarioDb None [] false 0)) (scenario_healthy _))
    eq_refl) as (w' & Hrun & Hdb & _).
  exists w'. split; [exact Hrun|]. rewrite Hdb. reflexivity.
Defined.

Lemma prepareThreadContext_refused_after_thread_creation_witness :
  exists w',
    prepareThreadContext scenarioCredits (scenarioArgs "hi")
      (scenarioWorld scenarioEnv (scenarioDb None [] true 6))
      = (Failure (APIError 403 "You have reached your credit limit."), w') /\
    mutations w' = [createThread "t1" "u1"] /\
    threads (db w') !! "t1" = None.
Proof.
  destruct (proj1 (prepareThreadContext_refused_after_thread_creation scenarioCredits
    (scenarioArgs "hi")
    (scenarioWorld scenarioEnv (scenarioDb None [] true 6))
    {| settings_userId := "u1" |}
    {| usage_userId := "u1"; usage_credits := Some 6 |}
    {| model_id := "m1"; model_credits := 5 |}
    (scenario_healthy _) eq_refl eq_refl eq_refl eq_refl ltac:(vm_compute; reflexivity)))
    as (w' & Hrun & Hmut & Hth).
  exists w'. repeat split; assumption.
Defined.

Lemma prepareThreadContext_failure_taxonomy_witness :
  exists e w',
    prepareThreadContext scenarioCredits (scenarioArgs "hi")
      (scenarioWorld scenarioEnv
         (scenarioDb (Some (scenarioThread "u2" ready None)) [] true 0))
      = (Failure e, w') /\
    db w' = scenarioDb (Some (scenarioThread "u2" ready None)) [] true 0.
Proof.
  destruct (prepareThreadContext scenarioCredits (scenarioArgs "hi")
      (scenarioWorld scenarioEnv
         (scenarioDb (Some (scenarioThread "u2" ready None)) [] true 0)))
    as [[ctx|e|] w'] eqn:Hrun; [vm_compute in Hrun; discriminate| |
                                vm_compute in Hrun; discriminate].
  exists e, w'. split; [reflexivity|].
  exact (proj1 (prepareThreadContext_failure_taxonomy scenarioCredits _ _ e w' Hrun)).
Defined.

Lemma prepareThreadContext_appends_new_message_witness :
  exists ctx w',
    prepareThreadContext scenarioCredits (scenarioArgs "hi")
      (scenarioWorld scenarioEnv
         (scenarioDb (Some (scenarioThread "u1" ready None))
            [scenarioRow "z" "earlier" 100] true 0))
      = (Success ctx, w') /\
    List.map row_id (messages (db w')) = ["z"; "a"] /\
    ctx_history ctx = [scenarioMessage "z" "earlier"; scenarioMessage "a" "hi"].
Proof.
  destruct (prepareThreadContext scenarioCredits (scenarioArgs "hi")
      (scenarioWorld scenarioEnv
         (scenarioDb (Some (scenarioThread "u1" ready None))
            [scenarioRow "z" "earlier" 100] true 0)))
    as [[ctx|e|] w'] eqn:Hrun; [|vm_compute in Hrun; discriminate ..].
  exists ctx, w'. split; [reflexivity|].
  destruct (prepareThreadContext_appends_new_message scenarioCredits _ _ ctx w' Hrun
              eq_refl) as (Hrows & Hhist & _).
  rewrite Hrows, Hhist. split; reflexivity.
Defined.

Lemma prepareThreadContext_returns_thread_before_update_witness :
  exists ctx w',
    prepareThreadContext scenarioCredits (scenarioArgs "hi")
      (scenarioWorld scenarioEnv
         (scenarioDb (Some (scenarioThread "u1" ready None)) [] true 0))
      = (Success ctx, w') /\
    thread_status (ctx_thread ctx) = ready /\
    thread_status <$> threads (db w') !! "t1" = Some streaming.
Proof.
  destruct (prepareThreadContext scenarioCredits (scenarioArgs "hi")
      (scenarioWorld scenarioEnv
         (scenarioDb (Some (scenarioThread "u1" ready None)) [] true 0)))
    as [[ctx|e|] w'] eqn:Hrun; [|vm_compute in Hrun; discriminate ..].
  exists ctx, w'. split; [reflexivity|].
  destruct (prepareThreadContext_returns_thread_before_update scenarioCredits _ _
              ctx w' Hrun) as (Hready & _ & _ & Hstored & _).
  split; [exact Hready|]. change (threadId (scenarioArgs "hi")) with "t1" in Hstored.
  rewrite Hstored. reflexivity.
Defined.

(** ** One request after the other *)

Section RequestCycle.

Variable CREDITS : Limits -> Z.

(** X6. At most one active stream per thread: once a call has succeeded,
    any further call for the same thread, by the owner or by anybody else
    whose settings, usage and model exist, is refused with the 400 conflict
    error and changes nothing, as long as the queries are answered. *)
Theorem prepareThreadContext_second_request_conflicts
    (args args2 : PrepareArgs) (w : World) (ctx : ThreadContext) (w1 : World) :
  healthy w ->
  prepareThreadContext CREDITS args w = (Success ctx, w1) ->
  threadId args2 = threadId args ->
  is_Some (settings (db w) !! userId args2) ->
  is_Some (usages (db w) !! userId args2) ->
  is_Some (models (db w) !! modelId args2) ->
  exists w2,
    prepareThreadContext CREDITS args2 w1 =
      (Failure (APIError 400 "Thread is already streaming"), w2) /\
    db w2 = db w1 /\ mutations w2 = mutations w1.
Proof.
  intros Hh Hrun Htid [st Hst] [us Hus] [mo Hmo].
  destruct (prepareThreadContext_success CREDITS args w ctx w1 Hrun)
    as (_ & _ & _ & _ & _ & _ & _ & Hthreads & _ & (Hs & Hu & Hm & _) & (Henv & _) & _).
  assert (Hh1 : healthy w1) by (eapply healthy_env; eauto).
  destruct (prepare_refused CREDITS args2 w1
              (APIError 400 "Thread is already streaming") Hh1)
    as (w2 & Hrun2 & Hdb & _ & Hmut).
  { unfold refusal, guardedThread.
    rewrite Hs, Hu, Hm, Hst, Hus, Hmo, Hthreads, Htid, admittedThreads_lookup.
    reflexivity. }
  exists w2. split; [exact Hrun2|]. split; [exact Hdb|].
  rewrite Hmut. unfold refusedWrites.
  rewrite Hthreads, Htid, admittedThreads_lookup. now rewrite app_nil_r.
Qed.

(** X7. What a successful call records is what a resume finds: with the
    thread query answered, [prepareResumeThreadContext] for the same thread
    and caller answers the stream id of the call.  The empty string is the
    exception: recorded as it is, it is taken for a missing stream id and
    the resume fails with 404. *)
Theorem prepareThreadContext_then_resume
    (args : PrepareArgs) (w : World) (ctx : ThreadContext) (w1 : World) :
  healthy w ->
  prepareThreadContext CREDITS args w = (Success ctx, w1) ->
  (streamId args <> "" ->
   fst (prepareResumeThreadContext (threadId args) (userId args) w1)
     = Success (streamId args)) /\
  (streamId args = "" ->
   fst (prepareResumeThreadContext (threadId args) (userId args) w1)
     = Failure (APIError 404 "Thread is not streaming")) /\
  (forall other, other <> userId args ->
   fst (prepareResumeThreadContext (threadId args) other w1)
     = Failure (APIError 403 "User is not the owner of the thread")).
Proof.
  intros Hh Hrun.
  destruct (prepareThreadContext_success CREDITS args w ctx w1 Hrun)
    as (Href & _ & _ & _ & _ & _ & _ & Hthreads & _ & _ & (Henv & _) & _).
  apply refusal_none in Href as (_ & _ & _ & _ & _ & _ & _ & Hown & _).
  assert (Hh1 : healthy w1) by (eapply healthy_env; eauto).
  assert (Hres : forall u,
    fst (prepareResumeThreadContext (threadId args) u w1) =
      if negb (String.eqb (userId args) u) then
        Failure (APIError 403 "User is not the owner of the thread")
      else if negb (truthy (Some (streamId args))) then
        Failure (APIError 404 "Thread is not streaming")
      else Success (streamId args)).
  { intros u.
    rewrite (proj1 (prepareResumeThreadContext_run (threadId args) u w1 Hh1)).
    rewrite Hthreads, admittedThreads_lookup. cbn. now rewrite Hown. }
  split; [|split].
  - intros Hne. rewrite Hres, String.eqb_refl. cbn.
    apply String.eqb_neq in Hne. now rewrite Hne.
  - intros Heq. rewrite Hres, String.eqb_refl. cbn. now rewrite Heq.
  - intros other Hne. rewrite Hres.
    assert (Hneq : String.eqb (userId args) other = false)
      by (apply String.eqb_neq; congruence).
    now rewrite Hneq.
Qed.

(** X8. The request/answer cycle closes: after a successful call, saving
    the answer (queries answered) puts the thread back to [ready] with no
    stream id, so that a resume is refused as not streaming.  From then on
    the thread no longer stands in the way of its owner: in any later
    world that holds the thread as the save left it, whatever its clock,
    its usage counters and its customer record, a request by the owner
    with settings, usage and model present is decided by the credit check
    alone; it succeeds when the credits remaining at that moment are not
    negative and fails with the credit-limit 403 when they are. *)
Theorem prepareThreadContext_after_answer
    (args : PrepareArgs) (answer : ThreadMessage)
    (w : World) (ctx : ThreadContext) (w1 : World) :
  healthy w ->
  prepareThreadContext CREDITS args w = (Success ctx, w1) ->
  exists w2,
    saveMessageAndResetThreadStatus (threadId args) (userId args) answer w1
      = (Success tt, w2) /\
    (exists th, threads (db w2) !! threadId args = Some th /\
       thread_status th = ready /\ thread_streamId th = None /\
       thread_userId th = userId args) /\
    fst (prepareResumeThreadContext (threadId args) (userId args) w2)
      = Failure (APIError 400 "Thread is not streaming") /\
    forall (w3 : World) (us : Usage) (mo : Model),
      healthy w3 ->
      threads (db w3) !! threadId args = threads (db w2) !! threadId args ->
      is_Some (settings (db w3) !! userId args) ->
      usages (db w3) !! userId args = Some us ->
      models (db w3) !! modelId args = Some mo ->
      ((0 <= remaining CREDITS args w3 us mo)%Z ->
       exists ctx' w4, prepareThreadContext CREDITS args w3 = (Success ctx', w4)) /\
      ((remaining CREDITS args w3 us mo < 0)%Z ->
       exists w4,
         prepareThreadContext CREDITS args w3 =
           (Failure (APIError 403 "You have reached your credit limit."), w4)).
Proof.
  intros Hh Hrun.
  destruct (prepareThreadContext_success CREDITS args w ctx w1 Hrun)
    as (Href & _ & _ & _ & _ & _ & _ & Hthreads & _ & _ & (Henv & _) & _).
  apply refusal_none in Href as (_ & _ & _ & _ & _ & _ & _ & Hown & _).
  assert (Hh1 : healthy w1) by (eapply healthy_env; eauto).
  destruct (saveMessageAndResetThreadStatus_run (threadId args) (userId args) answer
              w1 Hh1)
    as (w2 & Hsave & Hthreads2 & _ & _ & Henv2 & _).
  assert (Hh2 : healthy w2) by (eapply healthy_env; eauto).
  assert (Hlook : threads (db w2) !! threadId args =
    Some (patch_thread ready None None
            (patch_thread streaming (Some (streamId args)) (Some (nowMs w))
               (guardedThread args w)))).
  { rewrite Hthreads2, lookup_alter_eq, Hthreads, admittedThreads_lookup.
    reflexivity. }
  exists w2. split; [exact Hsave|]. split; [|split].
  - eexists. split; [exact Hlook|]. cbn. repeat split. exact Hown.
  - rewrite (proj1 (prepareResumeThreadContext_run _ _ w2 Hh2)), Hlook. cbn.
    rewrite Hown, String.eqb_refl. reflexivity.
  - intros w3 us mo Hh3 Hsame [st Hst] Hus Hmo.
    assert (Hguard : guardedThread args w3 =
      patch_thread ready None None
        (patch_thread streaming (Some (streamId args)) (Some (nowMs w))
           (guardedThread args w))).
    { unfold guardedThread at 1. now rewrite Hsame, Hlook. }
    split; intros Hrem.
    + apply prepare_admitted; [exact Hh3|]. apply refusal_none.
      exists st, us, mo. rewrite Hguard. cbn. repeat split; assumption.
    + destruct (prepare_refused CREDITS args w3
                  (APIError 403 "You have reached your credit limit.") Hh3)
        as (w4 & Hrun4 & _).
      { unfold refusal. rewrite Hst, Hus, Hmo, Hguard. cbn.
        rewrite Hown, String.eqb_refl. cbn.
        destruct (Z.ltb_spec (remaining CREDITS args w3 us mo) 0);
          [reflexivity | lia]. }
      eauto.
Qed.

(** X9. The edit path finds the message by its id alone.  Whatever thread
    and whatever user the stored message belongs to, a successful call
    replaces its content by the caller's message; the row stays in its own
    thread, under its own user, with its creation time. *)
Theorem prepareThreadContext_edit_ignores_message_owner
    (args : PrepareArgs) (w : World) (ctx : ThreadContext) (w' : World)
    (stored : MessageRow) :
  prepareThreadContext CREDITS args w = (Success ctx, w') ->
  List.find (fun r => String.eqb (row_id r) (msg_id (message args)))
    (messages (db w)) = Some stored ->
  In {| row_id := row_id stored; row_threadId := row_threadId stored;
        row_userId := row_userId stored; row_message := message args;
        row_createdAt := row_createdAt stored; row_updatedAt := nowMs w |}
     (messages (db w')) /\
  In (updateMessage (msg_id (message args)) (message args) (nowMs w))
     (mutations w').
Proof.
  intros Hrun Hfind.
  destruct (prepareThreadContext_success CREDITS args w ctx w' Hrun)
    as (_ & _ & _ & _ & _ & _ & _ & _ & Hrows & _ & _ & Hmut).
  unfold admittedMessages in Hrows. rewrite Hfind in Hrows.
  unfold admittedWrites in Hmut. rewrite Hfind in Hmut.
  destruct (find_some_row _ _ _ Hfind) as [Hin Hid].
  split.
  - rewrite Hrows. apply filter_In. split.
    + apply in_map_iff. exists stored. split; [|exact Hin].
      unfold patch_row. rewrite Hid, String.eqb_refl. reflexivity.
    + unfold trailing. cbn. rewrite Z.ltb_irrefl, andb_false_r. reflexivity.
  - rewrite Hmut, !in_app_iff. cbn. tauto.
Qed.

End RequestCycle.

Lemma prepareThreadContext_second_request_conflicts_witness :
  exists ctx w1 w2,
    prepareThreadContext scenarioCredits (scenarioArgs "hi")
      (scenarioWorld scenarioEnv
         (scenarioDb (Some (scenarioThread "u1" ready None)) [] true 0))
      = (Success ctx, w1) /\
    prepareThreadContext scenarioCredits (scenarioArgs "again") w1
      = (Failure (APIError 400 "Thread is already streaming"), w2).
Proof.
  destruct (prepareThreadContext scenarioCredits (scenarioArgs "hi")
      (scenarioWorld scenarioEnv
         (scenarioDb (Some (scenarioThread "u1" ready None)) [] true 0)))
    as [[ctx|e|] w1] eqn:Hrun; [|vm_compute in Hrun; discriminate ..].
  destruct (prepareThreadContext_second_request_conflicts scenarioCredits
              (scenarioArgs "hi") (scenarioArgs "again") _ ctx w1
              (scenario_healthy _) Hrun eq_refl
              ltac:(eexists; reflexivity) ltac:(eexists; reflexivity)
              ltac:(eexists; reflexivity))
    as (w2 & Hrun2 & _).
  exists ctx, w1, w2. split; [reflexivity | exact Hrun2].
Defined.

Lemma prepareThreadContext_then_resume_witness :
  exists ctx w1,
    prepareThreadContext scenarioCredits (scenarioArgs "hi")
      (scenarioWorld scenarioEnv
         (scenarioDb (Some (scenarioThread "u1" ready None)) [] true 0))
      = (Success ctx, w1) /\
    fst (prepareResumeThreadContext "t1" "u1" w1) = Success "s1".
Proof.
  destruct (prepareThreadContext scenarioCredits (scenarioArgs "hi")
      (scenarioWorld scenarioEnv
         (scenarioDb (Some (scenarioThread "u1" ready None)) [] true 0)))
    as [[ctx|e|] w1] eqn:Hrun; [|vm_compute in Hrun; discriminate ..].
  exists ctx, w1. split; [reflexivity|].
  apply (proj1 (prepareThreadContext_then_resume scenarioCredits (scenarioArgs "hi")
                  _ ctx w1 (scenario_healthy _) Hrun)).
  discriminate.
Defined.

(** The same request one second after the answer was saved. *)
Lemma prepareThreadContext_after_answer_witness :
  exists ctx w1 w2 ctx' w4,
    prepareThreadContext scenarioCredits (scenarioArgs "hi")
      (scenarioWorld scenarioEnv
         (scenarioDb (Some (scenarioThread "u1" ready None)) [] true 0))
      = (Success ctx, w1) /\
    saveMessageAndResetThreadStatus "t1" "u1" (scenarioMessage "b" "answer") w1
      = (Success tt, w2) /\
    prepareThreadContext scenarioCredits (scenarioArgs "hi") (advance 1000 w2)
      = (Success ctx', w4).
Proof.
  destruct (prepareThreadContext scenarioCredits (scenarioArgs "hi")
      (scenarioWorld scenarioEnv
         (scenarioDb (Some (scenarioThread "u1" ready None)) [] true 0)))
    as [[ctx|e|] w1] eqn:Hrun; [|vm_compute in Hrun; discriminate ..].
  destruct (prepareThreadContext_after_answer scenarioCredits (scenarioArgs "hi")
              (scenarioMessage "b" "answer") _ ctx w1 (scenario_healthy _) Hrun)
    as (w2 & Hsave & _ & _ & Hnext).
  pose proof Hrun as Hw1. vm_compute in Hw1. injection Hw1 as _ Hw1.
  pose proof Hsave as Hw2. rewrite <- Hw1 in Hw2. vm_compute in Hw2.
  injection Hw2 as Hw2.
  destruct (Hnext (advance 1000 w2)
              {| usage_userId := "u1"; usage_credits := Some 0 |}
              {| model_id := "m1"; model_credits := 5 |}) as [Hok _].
  - intros n. rewrite <- Hw2. reflexivity.
  - reflexivity.
  - rewrite <- Hw2. eexists. reflexivity.
  - rewrite <- Hw2. reflexivity.
  - rewrite <- Hw2. reflexivity.
  - destruct Hok as (ctx' & w4 & Hrun4).
    + rewrite <- Hw2. vm_compute. discriminate.
    + exists ctx, w1, w2, ctx', w4. split; [reflexivity|]. split; assumption.
Defined.

(** User "u1" edits, from the own thread "t1", the message "a" that user
    "u2" wrote in thread "t2": the call succeeds and the row of "t2" now
    holds the text of "u1". *)
Lemma prepareThreadContext_edit_ignores_message_owner_witness :
  exists ctx w',
    prepareThreadContext scenarioCredits (scenarioArgs "overwritten")
      (scenarioWorld scenarioEnv
         (scenarioDb (Some (scenarioThread "u1" ready None))
            [{| row_id := "a"; row_threadId := "t2"; row_userId := "u2";
                row_message := scenarioMessage "a" "private";
                row_createdAt := 100; row_updatedAt := 100 |}] true 0))
      = (Success ctx, w') /\
    In {| row_id := "a"; row_threadId := "t2"; row_userId := "u2";
          row_message := scenarioMessage "a" "overwritten";
          row_createdAt := 100; row_updatedAt := 1700000000000 |}
       (messages (db w')).
Proof.
  destruct (prepareThreadContext scenarioCredits (scenarioArgs "overwritten")
      (scenarioWorld scenarioEnv
         (scenarioDb (Some (scenarioThread "u1" ready None))
            [{| row_id := "a"; row_threadId := "t2"; row_userId := "u2";
                row_message := scenarioMessage "a" "private";
                row_createdAt := 100; row_updatedAt := 100 |}] true 0)))
    as [[ctx|e|] w'] eqn:Hrun; [|vm_compute in Hrun; discriminate ..].
  exists ctx, w'. split; [reflexivity|].
  exact (proj1 (prepareThreadContext_edit_ignores_message_owner scenarioCredits
                  (scenarioArgs "overwritten") _ ctx w' _ Hrun eq_refl)).
Defined.

(** ** More on the resumable stream bridge *)

(** The retry loop when attempt number [k] (counting from 0) is the first
    to resolve. *)
Lemma retry_first_success {A} ev (oracle : Env -> nat -> option A) msg fuel w k r :
  (3 <= fuel)%nat -> (k <= 3)%nat ->
  (forall n, (calls w <= n < calls w + k)%nat -> oracle (env w) n = None) ->
  oracle (env w) (calls w + k)%nat = Some r ->
  exists w',
    retry fuel (tapError (tryPromise ev oracle) (fun _ => logError msg)) retryPolicy w
      = (Success r, w') /\
    calls w' = (calls w + k + 1)%nat /\
    nowMs w' = (nowMs w + 200 * (2 ^ Z.of_nat k - 1))%Z /\
    db w' = db w.
Proof.
  intros Hfuel Hk Hfail Hok.
  destruct fuel as [|[|[|fuel]]]; try lia.
  unfold retry. cbn. unfold tapError, tryPromise, logError, bind, sleep. cbn.
  destruct k as [|[|[|[|k]]]]; try lia.
  - replace (calls w + 0)%nat with (calls w) in Hok by lia. rewrite Hok. cbn.
    eexists. repeat split; cbn; lia.
  - replace (calls w + 1)%nat with (S (calls w)) in Hok by lia.
    rewrite (Hfail (calls w)) by lia. cbn. rewrite Hok. cbn.
    eexists. repeat split; cbn; lia.
  - replace (calls w + 2)%nat with (S (S (calls w))) in Hok by lia.
    rewrite (Hfail (calls w)) by lia. cbn.
    rewrite (Hfail (S (calls w))) by lia. cbn. rewrite Hok. cbn.
    eexists. repeat split; cbn; lia.
  - replace (calls w + 3)%nat with (S (S (S (calls w)))) in Hok by lia.
    rewrite (Hfail (calls w)) by lia. cbn.
    rewrite (Hfail (S (calls w))) by lia. cbn.
    rewrite (Hfail (S (S (calls w)))) by lia. cbn.
    destruct fuel; cbn; rewrite Hok; cbn; eexists; repeat split; cbn; lia.
Qed.

(** X10. Given fuel for the three retries: when the stream context
    refuses the first [k] attempts ([k] at most 3) and resolves the next
    one, each bridge function answers what the context resolved with, null
    included, and not the fallback; it has made [k] + 1 attempts and waited
    200 * (2^k - 1) ms, nothing when the first attempt resolves. *)
Theorem resumable_stream_first_success
    (fuel : nat) (streamId : string) (stream : ReadableStream) (w : World)
    (k : nat) (r : option ReadableStream) :
  (3 <= fuel)%nat -> (k <= 3)%nat ->
  ((forall n, (calls w <= n < calls w + k)%nat ->
      createNewResumableStreamResult (env w) n = None) ->
   createNewResumableStreamResult (env w) (calls w + k)%nat = Some r ->
   exists w',
     createResumableStream fuel streamId stream w = (Success r, w') /\
     calls w' = (calls w + k + 1)%nat /\
     nowMs w' = (nowMs w + 200 * (2 ^ Z.of_nat k - 1))%Z) /\
  ((forall n, (calls w <= n < calls w + k)%nat ->
      resumableStreamResult (env w) n = None) ->
   resumableStreamResult (env w) (calls w + k)%nat = Some r ->
   exists w',
     getResumableStream fuel streamId w = (Success r, w') /\
     calls w' = (calls w + k + 1)%nat /\
     nowMs w' = (nowMs w + 200 * (2 ^ Z.of_nat k - 1))%Z).
Proof.
  intros Hfuel Hk. split; intros Hfail Hok.
  - destruct (retry_first_success (ECreateNewResumableStream streamId)
                createNewResumableStreamResult "Error creating resumable stream"
                fuel w k r Hfuel Hk Hfail Hok) as (w' & Hrun & Hcalls & Hnow & _).
    exists w'. unfold createResumableStream, catchAll. rewrite Hrun. auto.
  - destruct (retry_first_success (EResumableStream streamId)
                resumableStreamResult "Error getting resumable stream"
                fuel w k r Hfuel Hk Hfail Hok) as (w' & Hrun & Hcalls & Hnow & _).
    exists w'. unfold getResumableStream, catchAll. rewrite Hrun. auto.
Qed.

Lemma retry_bounded {A} ev (oracle : Env -> nat -> option A) msg fuel w :
  (3 <= fuel)%nat ->
  let out :=
    retry fuel (tapError (tryPromise ev oracle) (fun _ => logError msg)) retryPolicy w in
  (calls w < calls (snd out) <= calls w + 4)%nat /\
  (nowMs w <= nowMs (snd out) <= nowMs w + 1400)%Z /\
  db (snd out) = db w /\ latches (snd out) = latches w /\ heap (snd out) = heap w /\
  env (snd out) = env w.
Proof.
  intros Hfuel.
  destruct fuel as [|[|[|fuel]]]; try lia.
  unfold retry. cbn. unfold tapError, tryPromise, logError, bind, sleep. cbn.
  destruct (oracle (env w) (calls w)); cbn; [repeat split; lia|].
  destruct (oracle (env w) (S (calls w))); cbn; [repeat split; lia|].
  destruct (oracle (env w) (S (S (calls w)))); cbn; [repeat split; lia|].
  destruct fuel; cbn;
    destruct (oracle (env w) (S (S (S (calls w))))); cbn; repeat split; lia.
Qed.

(** X11. Given fuel for the three retries, and whatever the stream context
    does, a bridge call makes between one and four attempts, waits at most
    1400 ms in all, and touches neither the tables nor the latches nor the
    message objects. *)
Theorem resumable_stream_bounded
    (fuel : nat) (streamId : string) (stream : ReadableStream) (w : World) :
  (3 <= fuel)%nat ->
  ((calls w < calls (snd (createResumableStream fuel streamId stream w))
      <= calls w + 4)%nat /\
   (nowMs w <= nowMs (snd (createResumableStream fuel streamId stream w))
      <= nowMs w + 1400)%Z /\
   db (snd (createResumableStream fuel streamId stream w)) = db w /\
   latches (snd (createResumableStream fuel streamId stream w)) = latches w /\
   heap (snd (createResumableStream fuel streamId stream w)) = heap w) /\
  ((calls w < calls (snd (getResumableStream fuel streamId w)) <= calls w + 4)%nat /\
   (nowMs w <= nowMs (snd (getResumableStream fuel streamId w)) <= nowMs w + 1400)%Z /\
   db (snd (getResumableStream fuel streamId w)) = db w /\
   latches (snd (getResumableStream fuel streamId w)) = latches w /\
   heap (snd (getResumableStream fuel streamId w)) = heap w).
Proof.
  intros Hfuel. split.
  - pose proof (retry_bounded (ECreateNewResumableStream streamId)
                  createNewResumableStreamResult "Error creating resumable stream"
                  fuel w Hfuel) as H.
    cbn zeta in H. unfold createResumableStream, catchAll, succeed.
    destruct (retry _ _ _ w) as [[r|e|] w']; cbn in *; tauto.
  - pose proof (retry_bounded (EResumableStream streamId)
                  resumableStreamResult "Error getting resumable stream"
                  fuel w Hfuel) as H.
    cbn zeta in H. unfold getResumableStream, catchAll, succeed.
    destruct (retry _ _ _ w) as [[r|e|] w']; cbn in *; tauto.
Qed.

(** The context refuses twice and then resolves with null: the answer is
    null, after three attempts and 600 ms. *)
Lemma resumable_stream_first_success_witness :
  exists w',
    createResumableStream 3 "s1" (stream_ref 7)
      (scenarioWorld
         {| queryFails := fun _ => false;
            createNewResumableStreamResult :=
              fun n => if (n <? 2)%nat then None else Some None;
            resumableStreamResult := fun _ => None;
            generateTextResult := fun _ => None;
            fetchResult := fun _ => None;
            convertToModelMessages := fun _ => None |}
         (scenarioDb None [] true 0))
      = (Success None, w') /\
    calls w' = 3%nat /\ nowMs w' = 1700000000600%Z.
Proof.
  destruct (proj1 (resumable_stream_first_success 3 "s1" (stream_ref 7)
    (scenarioWorld
       {| queryFails := fun _ => false;
          createNewResumableStreamResult :=
            fun n => if (n <? 2)%nat then None else Some None;
          resumableStreamResult := fun _ => None;
          generateTextResult := fun _ => None;
          fetchResult := fun _ => None;
          convertToModelMessages := fun _ => None |}
       (scenarioDb None [] true 0))
    2 None ltac:(lia) ltac:(lia)))
    as (w' & Hrun & Hcalls & Hnow).
  - intros n Hn. cbn in *. destruct n as [|[|n]]; [reflexivity | reflexivity | lia].
  - reflexivity.
  - exists w'. split; [exact Hrun|]. split; [exact Hcalls | exact Hnow].
Defined.

Lemma resumable_stream_bounded_witness :
  (calls (snd (createResumableStream 3 "s1" (stream_ref 7)
                 (scenarioWorld scenarioEnv (scenarioDb None [] true 0)))) <= 4)%nat.
Proof.
  exact (proj2 (proj1 (proj1 (resumable_stream_bounded 3 "s1" (stream_ref 7)
    (scenarioWorld scenarioEnv (scenarioDb None [] true 0)) ltac:(lia))))).
Defined.

(** ** More on title generation *)

(** X12. Whatever the model and the database do, [generateThreadTitle]
    makes exactly two external calls (no retry) and issues exactly one
    write, the title update of its thread: messages and the other tables
    are untouched, no thread is created, the other threads and the status,
    stream id and owner of its own thread are what they were, and no latch
    but its own changes. *)
Theorem generateThreadTitle_only_title
    (threadId : string) (message : ThreadMessage) (latch : nat) (w : World) :
  mutations (snd (generateThreadTitle threadId message latch w))
    = (mutations w ++ [updateThreadTitle threadId (titleOf w)])%list /\
  calls (snd (generateThreadTitle threadId message latch w)) = (calls w + 2)%nat /\
  messages (db (snd (generateThreadTitle threadId message latch w)))
    = messages (db w) /\
  (forall other, other <> threadId ->
     threads (db (snd (generateThreadTitle threadId message latch w))) !! other
       = threads (db w) !! other) /\
  (forall th, threads (db w) !! threadId = Some th ->
     exists th',
       threads (db (snd (generateThreadTitle threadId message latch w))) !! threadId
         = Some th' /\
       thread_status th' = thread_status th /\
       thread_streamId th' = thread_streamId th /\
       thread_userId th' = thread_userId th) /\
  (threads (db w) !! threadId = None ->
     threads (db (snd (generateThreadTitle threadId message latch w))) !! threadId
       = None) /\
  (forall l, l <> latch ->
     latches (snd (generateThreadTitle threadId message latch w)) !! l
       = latches w !! l).
Proof.
  unfold generateThreadTitle, titleOf, bind, latch_close, latch_open,
    logInfo, catchAll, tapError, tryPromise, logError, query, perform, succeed.
  cbn.
  destruct (generateTextResult (env w) (calls w)) as [text|] eqn:Htext; cbn;
    destruct (queryFails (env w) (S (calls w))) eqn:Hq; cbn.
  all: split; [close_mutations|].
  all: split; [lia|].
  all: split; [reflexivity|].
  all: split; [intros other Hne; rewrite ?lookup_alter_ne by congruence; reflexivity|].
  all: split; [intros th Hth; rewrite ?lookup_alter_eq, Hth; cbn; eauto|].
  all: split; [intros Hth; rewrite ?lookup_alter_eq, Hth; reflexivity|].
  all: intros l Hne; rewrite !lookup_insert_ne by congruence; reflexivity.
Qed.

(** ** More on the conversion to model messages *)

Lemma with_parts_same m parts : msg_parts m = parts -> with_parts parts m = m.
Proof. intros <-. destruct m. reflexivity. Qed.

(** The loop over the parts when every fetch it makes is answered: each
    document is fetched once, in order, and gets the bytes of its fetch. *)
Lemma fetchDocuments_answered ref bytes parts :
  forall pre i k w m,
    i = length pre ->
    heap w !! ref = Some m ->
    msg_parts m = (pre ++ parts)%list ->
    (forall j, (j < length (documentUrls parts))%nat ->
       fetchResult (env w) (calls w + j)%nat = Some (bytes (k + j)%nat)) ->
    exists w',
      fetchDocuments ref i parts w = (Success tt, w') /\
      heap w' !! ref = Some (with_parts (pre ++ withBytes bytes k parts) m) /\
      (forall r, r <> ref -> heap w' !! r = heap w !! r) /\
      trace w' = (trace w ++ List.map EFetch (documentUrls parts))%list /\
      calls w' = (calls w + length (documentUrls parts))%nat /\
      env w' = env w.
Proof.
  induction parts as [|p rest IH]; intros pre i k w m Hi Hm Hparts Hfetch.
  - cbn. exists w. split; [reflexivity|]. rewrite !app_nil_r.
    rewrite app_nil_r in Hparts. rewrite (with_parts_same m pre Hparts).
    repeat split; auto.
  - assert (Hskip :
      documentUrls (p :: rest) = documentUrls rest ->
      withBytes bytes k (p :: rest) = p :: withBytes bytes k rest ->
      fetchDocuments ref i (p :: rest) w = fetchDocuments ref (S i) rest w ->
      exists w',
        fetchDocuments ref i (p :: rest) w = (Success tt, w') /\
        heap w' !! ref = Some (with_parts (pre ++ withBytes bytes k (p :: rest)) m) /\
        (forall r, r <> ref -> heap w' !! r = heap w !! r) /\
        trace w' = (trace w ++ List.map EFetch (documentUrls (p :: rest)))%list /\
        calls w' = (calls w + length (documentUrls (p :: rest)))%nat /\
        env w' = env w).
    { intros Hu Hb Hrun. rewrite Hu, Hb, Hrun. rewrite Hu in Hfetch.
      destruct (IH (pre ++ [p])%list (S i) k w m) as (w' & H); auto.
      - rewrite length_app. cbn. lia.
      - now rewrite <- app_assoc.
      - exists w'. now rewrite <- app_assoc in H. }
    destruct p as [text | mediaType url | type]; try (apply Hskip; reflexivity).
    destruct (isDocument mediaType) eqn:Hdoc.
    2: { apply Hskip; cbn; rewrite Hdoc; reflexivity. }
    cbn. rewrite ?Hdoc. unfold bind, tryPromise, set_url. cbn in Hfetch.
    rewrite ?Hdoc in Hfetch. cbn in Hfetch.
    pose proof (Hfetch 0%nat ltac:(lia)) as H0.
    replace (calls w + 0)%nat with (calls w) in H0 by lia.
    replace (k + 0)%nat with k in H0 by lia.
    rewrite H0. cbn.
    match goal with
    | |- exists w', fetchDocuments _ _ _ ?w1 = _ /\ _ =>
        destruct (IH (pre ++ [FilePart mediaType (url_buffer (bytes k))])%list
                    (S i) (S k) w1
                    (with_parts
                       (pre ++ FilePart mediaType (url_buffer (bytes k)) :: rest)%list m))
          as (w' & Hrun & Hheap & Hother & Htrace & Hcalls & Henv)
    end.
    + rewrite length_app. cbn. lia.
    + cbn. rewrite lookup_alter_eq, Hm. cbn. f_equal. unfold with_parts. f_equal.
      rewrite Hparts, Hi.
      replace (length pre) with (length pre + 0)%nat by lia.
      rewrite alter_app_r. reflexivity.
    + cbn. now rewrite <- app_assoc.
    + intros j Hj. cbn.
      pose proof (Hfetch (S j) ltac:(lia)) as Hj'.
      rewrite !Nat.add_succ_r in Hj'. exact Hj'.
    + exists w'. split; [exact Hrun|]. split; [|split; [|split; [|split]]].
      * rewrite Hheap. unfold with_parts. cbn. now rewrite <- app_assoc.
      * intros r Hne. rewrite (Hother r Hne). cbn.
        now rewrite lookup_alter_ne by congruence.
      * rewrite Htrace. cbn. now rewrite <- app_assoc.
      * rewrite Hcalls. cbn. lia.
      * rewrite Henv. reflexivity.
Qed.

(** The loop when the fetch of one document is refused: the documents
    before it are loaded, the loop stops there. *)
Lemma fetchDocuments_refused ref bytes before :
  forall pre i k w m mediaType url after,
    i = length pre ->
    heap w !! ref = Some m ->
    msg_parts m = (pre ++ before ++ FilePart mediaType url :: after)%list ->
    isDocument mediaType = true ->
    (forall j, (j < length (documentUrls before))%nat ->
       fetchResult (env w) (calls w + j)%nat = Some (bytes (k + j)%nat)) ->
    fetchResult (env w) (calls w + length (documentUrls before))%nat = None ->
    exists w',
      fetchDocuments ref i (before ++ FilePart mediaType url :: after) w
        = (Failure UnknownException, w') /\
      heap w' !! ref =
        Some (with_parts
                (pre ++ withBytes bytes k before ++ FilePart mediaType url :: after) m) /\
      (forall r, r <> ref -> heap w' !! r = heap w !! r) /\
      trace w' = (trace w ++ List.map EFetch (documentUrls before ++ [url]))%list /\
      calls w' = (calls w + length (documentUrls before) + 1)%nat.
Proof.
  induction before as [|p rest IH];
    intros pre i k w m mediaType url after Hi Hm Hparts Hdoc Hfetch Hrefused.
  - cbn in *. rewrite ?Hdoc. unfold bind, tryPromise.
    replace (calls w + 0)%nat with (calls w) in Hrefused by lia.
    rewrite Hrefused. cbn. eexists. split; [reflexivity|]. cbn.
    rewrite (with_parts_same m _ Hparts). repeat split; auto. lia.
  - assert (Hskip :
      documentUrls (p :: rest) = documentUrls rest ->
      withBytes bytes k (p :: rest) = p :: withBytes bytes k rest ->
      fetchDocuments ref i ((p :: rest) ++ FilePart mediaType url :: after) w
        = fetchDocuments ref (S i) (rest ++ FilePart mediaType url :: after) w ->
      exists w',
        fetchDocuments ref i ((p :: rest) ++ FilePart mediaType url :: after) w
          = (Failure UnknownException, w') /\
        heap w' !! ref =
          Some (with_parts
                  (pre ++ withBytes bytes k (p :: rest)
                       ++ FilePart mediaType url :: after) m) /\
        (forall r, r <> ref -> heap w' !! r = heap w !! r) /\
        trace w' =
          (trace w ++ List.map EFetch (documentUrls (p :: rest) ++ [url]))%list /\
        calls w' = (calls w + length (documentUrls (p :: rest)) + 1)%nat).
    { intros Hu Hb Hrun. rewrite Hu, Hb, Hrun. rewrite Hu in Hfetch, Hrefused.
      destruct (IH (pre ++ [p])%list (S i) k w m mediaType url after)
        as (w' & H); auto.
      - rewrite length_app. cbn. lia.
      - rewrite Hparts. cbn. now rewrite <- app_assoc.
      - exists w'. rewrite <- app_assoc in H. exact H. }
    destruct p as [text | mediaType0 url0 | type]; try (apply Hskip; reflexivity).
    destruct (isDocument mediaType0) eqn:Hdoc0.
    2: { apply Hskip; cbn; rewrite Hdoc0; reflexivity. }
    cbn. rewrite ?Hdoc0. unfold bind, tryPromise, set_url. cbn in Hfetch, Hrefused.
    rewrite ?Hdoc0 in Hfetch, Hrefused. cbn in Hfetch, Hrefused.
    pose proof (Hfetch 0%nat ltac:(lia)) as H0.
    replace (calls w + 0)%nat with (calls w) in H0 by lia.
    replace (k + 0)%nat with k in H0 by lia.
    rewrite H0. cbn.
    match goal with
    | |- exists w', fetchDocuments _ _ _ ?w1 = _ /\ _ =>
        destruct (IH (pre ++ [FilePart mediaType0 (url_buffer (bytes k))])%list
                    (S i) (S k) w1
                    (with_parts
                       (pre ++ FilePart mediaType0 (url_buffer (bytes k))
                            :: rest ++ FilePart mediaType url :: after)%list m)
                    mediaType url after)
          as (w' & Hrun & Hheap & Hother & Htrace & Hcalls)
    end.
    + rewrite length_app. cbn. lia.
    + cbn. rewrite lookup_alter_eq, Hm. cbn. f_equal. unfold with_parts. f_equal.
      rewrite Hparts, Hi. cbn.
      replace (length pre) with (length pre + 0)%nat by lia.
      rewrite alter_app_r. reflexivity.
    + cbn. now rewrite <- app_assoc.
    + exact Hdoc.
    + intros j Hj. cbn.
      pose proof (Hfetch (S j) ltac:(lia)) as Hj'.
      rewrite !Nat.add_succ_r in Hj'. exact Hj'.
    + cbn. rewrite Nat.add_succ_r in Hrefused. exact Hrefused.
    + exists w'. split; [exact Hrun|]. split; [|split; [|split]].
      * rewrite Hheap. unfold with_parts. cbn. now rewrite <- app_assoc.
      * intros r Hne. rewrite (Hother r Hne). cbn.
        now rewrite lookup_alter_ne by congruence.
      * rewrite Htrace. cbn. now rewrite <- app_assoc.
      * rewrite Hcalls. cbn. lia.
Qed.

(** The call for one message: the filter, then the loop, then the
    converter. *)
Lemma convertUIMessagesToModelMessages_single ref options w :
  convertUIMessagesToModelMessages [ref] options w =
    let w1 := set_heap (alter (filtered (nullish_or options defaultOptions)) ref
                          (heap w)) w in
    match fetchDocuments ref 0
            (match heap w1 !! ref with Some m => msg_parts m | None => [] end) w1 with
    | (Success _, w2) =>
        match convertToModelMessages (env w2)
                (omap (fun r => heap w2 !! r) [ref]) with
        | Some r => (Success r, w2)
        | None => (Failure UnknownException, w2)
        end
    | (Failure e, w2) => (Failure e, w2)
    | (OutOfFuel, w2) => (OutOfFuel, w2)
    end.
Proof.
  unfold convertUIMessagesToModelMessages, filtered. cbn [forEach].
  unfold bind, filterParts, partsOf, deref, succeed. cbn.
  destruct (fetchDocuments ref 0 _ _) as [[[]|e|] w2]; reflexivity.
Qed.

(** X13. A call for one message, all of whose fetches are answered: the
    loop fetches the url of each document left by the filter once, in the
    order of the parts, and gives each document the bytes of its own fetch;
    the other parts and the other objects are left alone, and the converter
    gets the object in that state.  (With one message the loop awaits its
    fetches one after the other, in the code as here.) *)
Theorem convertUIMessagesToModelMessages_loads_documents
    (ref : nat) (options : option ConvertOptions) (w : World) (m : ThreadMessage)
    (bytes : nat -> list Byte.byte) :
  heap w !! ref = Some m ->
  (forall j,
     (j < length (documentUrls
                    (List.filter (keepPart (nullish_or options defaultOptions))
                       (msg_parts m))))%nat ->
     fetchResult (env w) (calls w + j)%nat = Some (bytes j)) ->
  exists w',
    convertUIMessagesToModelMessages [ref] options w =
      (match convertToModelMessages (env w)
               [with_parts
                  (withBytes bytes 0
                     (List.filter (keepPart (nullish_or options defaultOptions))
                        (msg_parts m))) m] with
       | Some r => Success r
       | None => Failure UnknownException
       end, w') /\
    heap w' !! ref =
      Some (with_parts
              (withBytes bytes 0
                 (List.filter (keepPart (nullish_or options defaultOptions))
                    (msg_parts m))) m) /\
    (forall r, r <> ref -> heap w' !! r = heap w !! r) /\
    trace w' =
      (trace w ++ List.map EFetch
                    (documentUrls
                       (List.filter (keepPart (nullish_or options defaultOptions))
                          (msg_parts m))))%list /\
    calls w' =
      (calls w + length (documentUrls
                           (List.filter (keepPart (nullish_or options defaultOptions))
                              (msg_parts m))))%nat.
Proof.
  intros Hm Hfetch. rewrite convertUIMessagesToModelMessages_single. cbn zeta.
  set (opts := nullish_or options defaultOptions) in *.
  set (w1 := set_heap (alter (filtered opts) ref (heap w)) w).
  assert (Hm1 : heap w1 !! ref = Some (filtered opts m)).
  { unfold w1. cbn. now rewrite lookup_alter_eq, Hm. }
  rewrite Hm1.
  destruct (fetchDocuments_answered ref bytes (msg_parts (filtered opts m))
              [] 0%nat 0%nat w1 (filtered opts m) eq_refl Hm1 eq_refl)
    as (w2 & Hrun & Hheap & Hother & Htrace & Hcalls & Henv).
  { intros j Hj. exact (Hfetch j Hj). }
  rewrite Hrun. cbn in Hheap. cbn [omap list_omap]. rewrite Hheap, Henv. cbn.
  unfold filtered, with_parts in *. cbn in *.
  exists w2. split; [destruct (convertToModelMessages _ _); reflexivity|].
  split; [exact Hheap|]. split; [|split; assumption].
  intros r Hne. rewrite (Hother r Hne). unfold w1. cbn.
  now rewrite lookup_alter_ne by congruence.
Qed.

(** X14. A call for one message in which the fetch of one document is
    refused: the call fails with the [UnknownException] of
    [Effect.tryPromise] and the converter is not consulted; the filter has
    been applied, the documents before the refused one carry the bytes of
    their fetches, the refused document and the parts after it are as the
    filter left them, and no fetch is made for the documents after it. *)
Theorem convertUIMessagesToModelMessages_refused_fetch
    (ref : nat) (options : option ConvertOptions) (w : World) (m : ThreadMessage)
    (bytes : nat -> list Byte.byte)
    (before : list Part) (mediaType : string) (url : Url) (after : list Part) :
  heap w !! ref = Some m ->
  List.filter (keepPart (nullish_or options defaultOptions)) (msg_parts m)
    = (before ++ FilePart mediaType url :: after)%list ->
  isDocument mediaType = true ->
  (forall j, (j < length (documentUrls before))%nat ->
     fetchResult (env w) (calls w + j)%nat = Some (bytes j)) ->
  fetchResult (env w) (calls w + length (documentUrls before))%nat = None ->
  exists w',
    convertUIMessagesToModelMessages [ref] options w
      = (Failure UnknownException, w') /\
    heap w' !! ref =
      Some (with_parts
              (withBytes bytes 0 before ++ FilePart mediaType url :: after) m) /\
    (forall r, r <> ref -> heap w' !! r = heap w !! r) /\
    trace w' = (trace w ++ List.map EFetch (documentUrls before ++ [url]))%list /\
    calls w' = (calls w + length (documentUrls before) + 1)%nat.
Proof.
  intros Hm Hkept Hdoc Hfetch Hrefused.
  rewrite convertUIMessagesToModelMessages_single. cbn zeta.
  set (opts := nullish_or options defaultOptions) in *.
  set (w1 := set_heap (alter (filtered opts) ref (heap w)) w).
  assert (Hm1 : heap w1 !! ref = Some (filtered opts m)).
  { unfold w1. cbn. now rewrite lookup_alter_eq, Hm. }
  rewrite Hm1.
  assert (Hparts : msg_parts (filtered opts m)
                   = (before ++ FilePart mediaType url :: after)%list)
    by exact Hkept.
  rewrite Hparts.
  destruct (fetchDocuments_refused ref bytes before [] 0%nat 0%nat w1
              (filtered opts m) mediaType url after eq_refl Hm1 Hparts Hdoc)
    as (w2 & Hrun & Hheap & Hother & Htrace & Hcalls).
  { intros j Hj. exact (Hfetch j Hj). }
  { exact Hrefused. }
  rewrite Hrun. exists w2. split; [reflexivity|]. split; [exact Hheap|].
  split; [|split; assumption].
  intros r Hne. rewrite (Hother r Hne). unfold w1. cbn.
  now rewrite lookup_alter_ne by congruence.
Qed.

(** One message with a text, an image and two documents, documents
    supported, images not: the image is dropped, the two urls are fetched
    in order and each document gets the bytes of its own fetch. *)
Lemma convertUIMessagesToModelMessages_loads_documents_witness :
  exists w',
    heap w' !! 5%nat
      = Some {| msg_id := "a"; msg_role := "user";
                msg_parts :=
                  [TextPart "see";
                   FilePart "application/pdf" (url_buffer [Byte.x2a]);
                   FilePart "text/plain" (url_buffer [Byte.x2a; Byte.x2a])] |} /\
    trace w' = [EFetch (url_string "u2"); EFetch (url_string "u3")] /\
    snd (convertUIMessagesToModelMessages [5%nat]
           (Some {| supportsImages := None; supportsDocuments := Some true |})
           (scenarioAttachmentsWorld (fun n => Some (repeat Byte.x2a (S n))))) = w'.
Proof.
  destruct (convertUIMessagesToModelMessages_loads_documents 5%nat
    (Some {| supportsImages := None; supportsDocuments := Some true |})
    (scenarioAttachmentsWorld (fun n => Some (repeat Byte.x2a (S n))))
    scenarioAttachments (fun j => repeat Byte.x2a (S j)) eq_refl)
    as (w' & Hrun & Hheap & _ & Htrace & _).
  - intros j Hj. reflexivity.
  - exists w'. rewrite Hrun. split; [exact Hheap|]. split; [exact Htrace | reflexivity].
Defined.

(** The same message when the second fetch is refused: the call fails, the
    PDF carries its bytes, the text document keeps its url. *)
Lemma convertUIMessagesToModelMessages_refused_fetch_witness :
  exists w',
    convertUIMessagesToModelMessages [5%nat]
      (Some {| supportsImages := None; supportsDocuments := Some true |})
      (scenarioAttachmentsWorld
         (fun n => if (n =? 0)%nat then Some [Byte.x2a] else None))
      = (Failure UnknownException, w') /\
    heap w' !! 5%nat
      = Some {| msg_id := "a"; msg_role := "user";
                msg_parts :=
                  [TextPart "see";
                   FilePart "application/pdf" (url_buffer [Byte.x2a]);
                   FilePart "text/plain" (url_string "u3")] |}.
Proof.
  destruct (convertUIMessagesToModelMessages_refused_fetch 5%nat
    (Some {| supportsImages := None; supportsDocuments := Some true |})
    (scenarioAttachmentsWorld
       (fun n => if (n =? 0)%nat then Some [Byte.x2a] else None))
    scenarioAttachments (fun _ => [Byte.x2a])
    [TextPart "see"; FilePart "application/pdf" (url_string "u2")]
    "text/plain" (url_string "u3") [] eq_refl eq_refl eq_refl)
    as (w' & Hrun & Hheap & _).
  - intros j Hj. cbn in Hj. destruct j as [|j]; [reflexivity | lia].
  - reflexivity.
  - exists w'. split; [exact Hrun | exact Hheap].
Defined.

(** X15. When documents are not supported (the default), no fetch is
    made: the call makes no external call and records nothing, and its
    outcome is the converter's, applied to the filtered objects. *)
Theorem convertUIMessagesToModelMessages_without_documents
    (messages : list nat) (options : option ConvertOptions) (w : World) :
  nullish_or (supportsDocuments (nullish_or options defaultOptions)) false = false ->
  calls (snd (convertUIMessagesToModelMessages messages options w)) = calls w /\
  trace (snd (convertUIMessagesToModelMessages messages options w)) = trace w /\
  fst (convertUIMessagesToModelMessages messages options w) =
    match convertToModelMessages (env w)
            (omap (fun ref =>
                     heap (snd (convertUIMessagesToModelMessages messages options w))
                       !! ref) messages) with
    | Some r => Success r
    | None => Failure UnknownException
    end.
Proof.
  intros Hdocs.
  destruct (filterParts_all (nullish_or options defaultOptions) messages w)
    as (w1 & Hfilter & Henv & Hcalls & Hheap).
  assert (Htrace : forall refs w0,
    trace (snd (forEach (filterParts (nullish_or options defaultOptions)) refs w0))
      = trace w0).
  { induction refs as [|a refs IH]; intros w0; cbn; [reflexivity|].
    unfold bind, filterParts at 1. cbn. now rewrite IH. }
  assert (Hnoop : forEach (fun ref => let* parts := partsOf ref in
                                      fetchDocuments ref 0 parts) messages w1
                  = (Success tt, w1)).
  { apply fetch_documentFree. intros r m0 Hr Hm0.
    rewrite (proj1 (Hheap r) Hr) in Hm0.
    destruct (heap w !! r) as [m1|]; [|discriminate]. injection Hm0 as <-.
    now apply filtered_documentFree. }
  specialize (Htrace messages w). rewrite Hfilter in Htrace. cbn in Htrace.
  set (rest :=
    let* _ := forEach (fun ref => let* parts := partsOf ref in
                                  fetchDocuments ref 0 parts) messages in
    let* ms := deref messages in
    (fun w0 : World =>
       match convertToModelMessages (env w0) ms with
       | Some r => (Success r, w0)
       | None => (Failure UnknownException, w0)
       end) : Effect (list ModelMessage)).
  assert (Hout : convertUIMessagesToModelMessages messages options w = rest w1).
  { unfold convertUIMessagesToModelMessages. unfold bind at 1.
    rewrite Hfilter. reflexivity. }
  assert (Hrest : rest w1 =
    match convertToModelMessages (env w) (omap (fun ref => heap w1 !! ref) messages) with
    | Some r => (Success r, w1)
    | None => (Failure UnknownException, w1)
    end).
  { unfold rest. unfold bind at 1. rewrite Hnoop. unfold bind, deref. cbn.
    now rewrite Henv. }
  rewrite Hout, Hrest.
  destruct (convertToModelMessages (env w) _) eqn:Hconv; cbn; rewrite ?Hconv; auto.
Qed.

Lemma convertUIMessagesToModelMessages_without_documents_witness :
  calls (snd (convertUIMessagesToModelMessages [5%nat] None
    {| env := scenarioEnv; db := scenarioDb None [] true 0; nowMs := 0;
       latches := ∅;
       heap := {[ 5%nat :=
         {| msg_id := "a"; msg_role := "user";
            msg_parts := [FilePart "application/pdf" (url_string "u2")] |} ]};
       calls := 0; trace := [] |})) = 0%nat.
Proof.
  exact (proj1 (convertUIMessagesToModelMessages_without_documents [5%nat] None
    {| env := scenarioEnv; db := scenarioDb None [] true 0; nowMs := 0;
       latches := ∅;
       heap := {[ 5%nat :=
         {| msg_id := "a"; msg_role := "user";
            msg_parts := [FilePart "application/pdf" (url_string "u2")] |} ]};
       calls := 0; trace := [] |} eq_refl)).
Defined.

(** ** The stream context singleton *)

Lemma getStreamContext_set factory s c :
  streamContext s = Some c -> getStreamContext factory s = (Some c, s).
Proof. intros H. unfold getStreamContext. now rewrite H. Qed.

Lemma getStreamContexts_set factory n s c :
  streamContext s = Some c ->
  getStreamContexts factory n s = (repeat (Some c) n, s).
Proof.
  intros H. induction n as [|n IH]; cbn; [reflexivity|].
  now rewrite (getStreamContext_set factory s c H), IH.
Qed.

(** X16. The stream context is created once: after a call of
    [getStreamContext] has answered a context, every further call answers
    that same context and the factory is not called again.  A call in which
    the factory throws leaves the variable unset, so that the next call
    tries again. *)
Theorem getStreamContext_singleton
    (factory : nat -> option nat) (s : ContextModule) (n : nat) :
  (forall c, fst (getStreamContext factory s) = Some c ->
     getStreamContexts factory n (snd (getStreamContext factory s))
       = (repeat (Some c) n, snd (getStreamContext factory s)) /\
     (contextsCreated (snd (getStreamContext factory s)) <= S (contextsCreated s))%nat) /\
  (fst (getStreamContext factory s) = None ->
     streamContext (snd (getStreamContext factory s)) = None /\
     contextsCreated (snd (getStreamContext factory s)) = S (contextsCreated s)).
Proof.
  unfold getStreamContext. split.
  - intros c. destruct (streamContext s) as [c0|] eqn:Hs; cbn.
    + intros H. injection H as ->. split; [now apply getStreamContexts_set | lia].
    + destruct (factory (contextsCreated s)) as [c1|]; cbn; [|discriminate].
      intros H. injection H as ->. split; [now apply getStreamContexts_set | lia].
  - destruct (streamContext s) as [c0|]; cbn; [discriminate|].
    destruct (factory (contextsCreated s)); cbn; [discriminate | auto].
Qed.

Lemma getStreamContext_singleton_witness :
  getStreamContexts (fun n => Some (10 + n)%nat) 3
    (snd (getStreamContext (fun n => Some (10 + n)%nat)
            {| streamContext := None; contextsCreated := 0 |}))
  = ([Some 10%nat; Some 10%nat; Some 10%nat],
     {| streamContext := Some 10%nat; contextsCreated := 1 |}).
Proof.
  exact (proj1 (proj1 (getStreamContext_singleton (fun n => Some (10 + n)%nat)
    {| streamContext := None; contextsCreated := 0 |} 3) 10%nat eq_refl)).
Defined.

(** ** The message list *)

Lemma runView_cons e es v : runView (e :: es) v = runView es (stepView e v).
Proof. reflexivity. Qed.

(** X17. Once the list is marked as mounted, nothing scrolls it through
    this effect again: whatever renders and timeouts follow, the flag
    stays set, no [scrollToIndex] is made and no timer is set. *)
Theorem messageList_mounted_is_quiet (es : list ViewEvent) (v : ListView) :
  mounted v = true ->
  mounted (runView es v) = true /\
  scrolls (runView es v) = scrolls v /\
  nextTimer (runView es v) = nextTimer v.
Proof.
  revert v. induction es as [|e es IH]; intros v Hm; [auto|].
  rewrite runView_cons.
  assert (Hstep : mounted (stepView e v) = true /\
                  scrolls (stepView e v) = scrolls v /\
                  nextTimer (stepView e v) = nextTimer v).
  { destruct e as [len | t]; cbn.
    - destruct (decide (deps v = Some len)); [auto|].
      unfold mountEffect, runCleanup.
      destruct (cleanup v); cbn; rewrite Hm; cbn; auto.
    - destruct (decide (t ∈ timers v)); cbn; auto. }
  destruct Hstep as (Hm1 & Hs1 & Hn1).
  destruct (IH _ Hm1) as (Hm2 & Hs2 & Hn2).
  rewrite Hm2, Hs2, Hn2. auto.
Qed.

Lemma messageList_mounted_is_quiet_witness :
  scrolls (runView [Render 4; Timeout 1; Render 5]
             (runView [Render 3; Timeout 0] newView)) = [2%Z].
Proof.
  rewrite (proj1 (proj2 (messageList_mounted_is_quiet
    [Render 4; Timeout 1; Render 5] (runView [Render 3; Timeout 0] newView)
    eq_refl))).
  reflexivity.
Defined.

Lemma pending_timer_step e v :
  (forall t, t ∈ timers v -> cleanup v = Some t /\ mounted v = false) ->
  forall t, t ∈ timers (stepView e v) ->
    cleanup (stepView e v) = Some t /\ mounted (stepView e v) = false.
Proof.
  intros Hv t. destruct e as [len | t0]; cbn.
  - destruct (decide (deps v = Some len)); [apply Hv|].
    assert (Hempty : forall t1, t1 ∉ timers (runCleanup v)).
    { intros t1. unfold runCleanup. destruct (cleanup v) as [t2|] eqn:Hc; cbn.
      - intros Hin. apply elem_of_difference in Hin as [Hin Hne].
        destruct (Hv t1 Hin) as [Heq _]. rewrite ?Hc in Heq. injection Heq as ->.
        apply Hne. now apply elem_of_singleton.
      - intros Hin. destruct (Hv t1 Hin) as [Heq _]. congruence. }
    unfold mountEffect. destruct (mounted (runCleanup v)); cbn.
    + intros Hin. now apply Hempty in Hin.
    + intros Hin. apply elem_of_union in Hin as [Hin | Hin].
      * apply elem_of_singleton in Hin as ->. auto.
      * now apply Hempty in Hin.
  - destruct (decide (t0 ∈ timers v)) as [Hin0|]; cbn; [|apply Hv].
    intros Hin. apply elem_of_difference in Hin as [Hin Hne].
    destruct (Hv t Hin) as [Heq _]. destruct (Hv t0 Hin0) as [Heq0 _].
    rewrite Heq in Heq0. injection Heq0 as ->.
    exfalso. apply Hne. now apply elem_of_singleton.
Qed.

(** X18. At any moment at most one timeout is pending, the one set by
    the latest run of the effect, and while it is pending the list is not
    marked as mounted: a timeout set by an earlier run has been cleared and
    can no longer set the flag. *)
Theorem messageList_single_pending_timer (es : list ViewEvent) (t : nat) :
  t ∈ timers (runView es newView) ->
  cleanup (runView es newView) = Some t /\
  mounted (runView es newView) = false /\
  timers (runView es newView) = {[ t ]}.
Proof.
  assert (Hinv : forall es v,
    (forall t, t ∈ timers v -> cleanup v = Some t /\ mounted v = false) ->
    forall t, t ∈ timers (runView es v) ->
      cleanup (runView es v) = Some t /\ mounted (runView es v) = false).
  { clear. induction es as [|e es IH]; intros v Hv; [exact Hv|].
    rewrite runView_cons. apply IH. now apply pending_timer_step. }
  intros Hin.
  assert (Hnew : forall t0, t0 ∈ timers newView ->
                   cleanup newView = Some t0 /\ mounted newView = false).
  { intros t0 H0. cbn in H0. now apply not_elem_of_empty in H0. }
  destruct (Hinv es newView Hnew t Hin) as [Hc Hm].
  split; [exact Hc|]. split; [exact Hm|].
  apply set_eq. intros t1. rewrite elem_of_singleton. split.
  - intros H1. destruct (Hinv es newView Hnew t1 H1) as [Hc1 _]. congruence.
  - intros ->. exact Hin.
Qed.

Lemma messageList_single_pending_timer_witness :
  timers (runView [Render 3; Render 4; Render 5] newView) = {[ 2%nat ]}.
Proof.
  apply (messageList_single_pending_timer [Render 3; Render 4; Render 5] 2%nat).
  vm_compute. reflexivity.
Defined.

Lemma messageList_renders_scroll es :
  Forall isRender es ->
  forall v,
    mounted v = false -> attached v = true ->
    mounted (runView es v) = false /\
    scrolls (runView es v) =
      (scrolls v ++ List.map (fun len => Z.of_nat len - 1)%Z
                     (lengthChanges (deps v) es))%list.
Proof.
  induction 1 as [|e es He Hes IH]; intros v Hm Ha.
  - cbn. now rewrite app_nil_r.
  - destruct e as [len | t]; [|contradiction]. rewrite runView_cons. cbn.
    destruct (decide (deps v = Some len)) as [Heq | Hne].
    + now apply IH.
    + assert (Hm1 : mounted (mountEffect len (runCleanup v)) = false).
      { unfold mountEffect, runCleanup. destruct (cleanup v); cbn; now rewrite Hm. }
      assert (Ha1 : attached (mountEffect len (runCleanup v)) = true).
      { unfold mountEffect, runCleanup. destruct (cleanup v); cbn; now rewrite Hm. }
      destruct (IH _ Hm1 Ha1) as [Hm2 Hs2]. split; [exact Hm2|].
      rewrite Hs2. unfold mountEffect, runCleanup.
      destruct (cleanup v); cbn; rewrite Hm, Ha; cbn; now rewrite <- app_assoc.
Qed.

(** X19. Until a timeout has passed the list follows its end: with no
    timeout among the events, the effect has scrolled once for the first
    render and once for every render that changed the number of messages,
    each time to the index of the last message (-1 for an empty list), and
    the list is still not marked as mounted. *)
Theorem messageList_follows_until_timeout (es : list ViewEvent) :
  Forall isRender es ->
  mounted (runView es newView) = false /\
  scrolls (runView es newView) =
    List.map (fun len => Z.of_nat len - 1)%Z (lengthChanges None es).
Proof.
  intros Hes.
  exact (messageList_renders_scroll es Hes newView eq_refl eq_refl).
Qed.

Lemma messageList_follows_until_timeout_witness :
  scrolls (runView [Render 0; Render 0; Render 1; Render 3] newView)
    = [(-1)%Z; 0%Z; 2%Z].
Proof.
  apply (messageList_follows_until_timeout
           [Render 0; Render 0; Render 1; Render 3]).
  repeat constructor.
Defined.

(** ** Refused queries and the passing of time *)

(** X20. Only [prepareThreadContext] maps the failure of a query: when the
    database refuses the first query, it fails with the generic 500
    [APIError] and the tables as they were, while
    [prepareResumeThreadContext] and [saveMessageAndResetThreadStatus] hand
    the failure of the query on as it is; the latter also leaves the tables
    as they were. *)
Theorem refused_query_errors
    (CREDITS : Limits -> Z) (args : PrepareArgs) (answer : ThreadMessage) (w : World) :
  queryFails (env w) (calls w) = true ->
  (exists w',
     prepareThreadContext CREDITS args w =
       (Failure (APIError 500 "Failed to prepare thread context"), w') /\
     db w' = db w) /\
  fst (prepareResumeThreadContext (threadId args) (userId args) w) = Failure SqlError /\
  (exists w',
     saveMessageAndResetThreadStatus (threadId args) (userId args) answer w =
       (Failure SqlError, w') /\
     db w' = db w).
Proof.
  intros Hq. split; [|split].
  - run_effect. rewrite Hq. cbn. eexists. split; reflexivity.
  - unfold prepareResumeThreadContext, bind, query, perform. cbn. now rewrite Hq.
  - unfold saveMessageAndResetThreadStatus, Database_transaction, bind, logInfo, all,
      performAll, bind, perform. cbn. rewrite Hq. cbn. eexists. split; reflexivity.
Qed.

Lemma refused_query_errors_witness :
  fst (prepareResumeThreadContext "t1" "u1"
         (scenarioWorld
            {| queryFails := fun _ => true;
               createNewResumableStreamResult := fun _ => None;
               resumableStreamResult := fun _ => None;
               generateTextResult := fun _ => None;
               fetchResult := fun _ => None;
               convertToModelMessages := fun _ => None |}
            (scenarioDb (Some (scenarioThread "u1" streaming (Some "s0"))) [] true 0)))
    = Failure SqlError.
Proof.
  exact (proj1 (proj2 (refused_query_errors scenarioCredits (scenarioArgs "hi")
    (scenarioMessage "b" "answer")
    (scenarioWorld
       {| queryFails := fun _ => true;
          createNewResumableStreamResult := fun _ => None;
          resumableStreamResult := fun _ => None;
          generateTextResult := fun _ => None;
          fetchResult := fun _ => None;
          convertToModelMessages := fun _ => None |}
       (scenarioDb (Some (scenarioThread "u1" streaming (Some "s0"))) [] true 0))
    eq_refl))).
Defined.

Lemma now_seconds_le ms ms' : (ms <= ms')%Z -> (now_seconds ms <= now_seconds ms')%Q.
Proof.
  intros H. unfold now_seconds, Qdiv, Qle. cbn. nia.
Qed.

(** X21. A subscription only lapses with time: for the same customer
    record, a caller who is not pro at some moment is not pro at any later
    moment, and a caller who gets [ProLimits] at some moment got them at
    every earlier moment. *)
Theorem getLimits_lapses (customer : option Customer) (anonymous : bool) (ms ms' : Z) :
  (ms <= ms')%Z ->
  (isPro customer ms = false -> isPro customer ms' = false) /\
  (getLimits customer anonymous ms' = ProLimits ->
   getLimits customer anonymous ms = ProLimits) /\
  (getLimits customer anonymous ms <> ProLimits ->
   getLimits customer anonymous ms' <> ProLimits).
Proof.
  intros Hle.
  assert (Hmono : isPro customer ms = false -> isPro customer ms' = false).
  { unfold isPro. rewrite !negb_false_iff, !Qle_bool_iff. intros H.
    eapply Qle_trans; [exact H | now apply now_seconds_le]. }
  split; [exact Hmono|]. unfold getLimits.
  destruct (isPro customer ms) eqn:E; destruct (isPro customer ms') eqn:E';
    destruct anonymous; split; try congruence.
  all: specialize (Hmono eq_refl); congruence.
Qed.

Lemma getLimits_lapses_witness :
  getLimits (Some {| subscription := Some {| currentPeriodEnd := Some 2000 |} |})
    false 2000001 <> ProLimits.
Proof.
  apply (proj2 (proj2 (getLimits_lapses
    (Some {| subscription := Some {| currentPeriodEnd := Some 2000 |} |})
    false 2000000 2000001 ltac:(lia)))).
  vm_compute. discriminate.
Defined.
